(** * Student services analytics: data generator and analytics report

    A shallow embedding of [scripts/generate_data.py] and
    [notebooks/services_analysis.py].

    Conventions of the embedding.
    - A float64 column holds rationals: every finite float denotes a
      rational and comparisons between floats are exact.  Sums, means
      and decimal rounding are computed exactly, where float64 rounds
      each operation; the theorems on the satisfaction-by-wait view and
      on the channel shares therefore compare means and shares within a
      tolerance, not digit by digit.  NaN, where the code can produce it
      (the mean of an empty selection, a test statistic on degenerate
      data), is [None] of [pyfloat].
    - Strings are [string]; a table is a list of rows.
    - numpy's global random generator is an abstract state threaded through
      the generator script by a state and error monad. *)

From Stdlib Require Import List String Ascii Bool Arith ZArith.
From Stdlib Require Import QArith Qround Qabs Qminmax Lia Lqa.
From Stdlib Require Import Permutation Sorted.
Import ListNotations.

Local Open Scope string_scope.
Local Open Scope Q_scope.

(** ** Numbers *)

Module Num.

(** [x < y] on floats, as a boolean. *)
Definition Qltb (x y : Q) : bool := negb (Qle_bool y x).

(** Round half to even, the rounding of [numpy.rint]. *)
Definition rint (x : Q) : Z :=
  let f := Qfloor x in
  match Qcompare (x - inject_Z f) (1 # 2) with
  | Lt => f
  | Gt => (f + 1)%Z
  | Eq => if Z.even f then f else (f + 1)%Z
  end.

(** [numpy.round(x, decimals)]: scale by a power of ten, [rint], scale back. *)
Definition scale (decimals : nat) : Q := inject_Z (10 ^ Z.of_nat decimals).

Definition round (x : Q) (decimals : nat) : Q :=
  inject_Z (rint (x * scale decimals)) / scale decimals.

(** [numpy.clip(x, lo, hi)] is [minimum(maximum(x, lo), hi)]. *)
Definition clip (x lo hi : Q) : Q := Qmin (Qmax x lo) hi.

Fixpoint sum (l : list Q) : Q :=
  match l with
  | [] => 0
  | x :: l' => x + sum l'
  end.

End Num.

(** A float that may be NaN. *)
Definition pyfloat := option Q.

Definition NaN : pyfloat := None.

(** Python's [x < c] for a float [x] and a literal [c]: false on NaN. *)
Definition py_lt (x : pyfloat) (c : Q) : bool :=
  match x with
  | Some q => Num.Qltb q c
  | None => false
  end.

(** [Series.mean()]: NaN on an empty selection, and the exact mean
    otherwise. *)
Definition mean (l : list Q) : pyfloat :=
  match l with
  | [] => NaN
  | _ => Some (Num.sum l / inject_Z (Z.of_nat (List.length l)))
  end.

(** [.round(decimals)] on a float column entry; NaN stays NaN. *)
Definition py_round (x : pyfloat) (decimals : nat) : pyfloat :=
  option_map (fun q => Num.round q decimals) x.

(** [(column == value).mean() * 100]: the percentage of entries equal to
    [value]. *)
Definition pct_equal (value : string) (l : list string) : pyfloat :=
  option_map (fun q => q * 100)
    (mean (map (fun s => if String.eqb s value then 1 else 0) l)).

(** ** The interaction table

    One row per service-desk contact, with the sixteen columns the
    generator writes and the report reads. *)

Record Interaction := {
  inquiry_id : Z;
  department : string;
  inquiry_type : string;
  channel : string;
  student_type : string;
  quarter : string;
  month : string;
  day_of_week : string;
  time_slot : string;
  staff_member : string;
  wait_time_min : Q;
  service_time_min : Q;
  resolution : string;
  escalated : string;
  callback_required : string;
  satisfaction_score : Q;
}.

(** ** pandas: grouping, binning, sorting *)

Module Pandas.

Section GroupBy.
Context {R K : Type}.
Variable eqb : K -> K -> bool.
Variable leb : K -> K -> bool.

(** The distinct keys, each at its first appearance. *)
Fixpoint unique (l : list K) : list K :=
  match l with
  | [] => []
  | k :: l' => k :: filter (fun k' => negb (eqb k' k)) (unique l')
  end.

Fixpoint insert_key (k : K) (l : list K) : list K :=
  match l with
  | [] => [k]
  | k' :: l' => if leb k k' then k :: l else k' :: insert_key k l'
  end.

Definition sort_keys (l : list K) : list K := fold_right insert_key [] l.

(** [df.groupby(key)]: one group per distinct key, groups in key order,
    each group holding its rows in table order. *)
Definition groupby (key : R -> K) (df : list R) : list (K * list R) :=
  map (fun k => (k, filter (fun r => eqb (key r) k) df))
      (sort_keys (unique (map key df))).

(** [series.reindex(order)]: the entries in the given order, a missing
    key giving a missing value. *)
Definition reindex {V} (order : list K) (s : list (K * V))
  : list (K * option V) :=
  map (fun k => (k, option_map snd (find (fun kv => eqb (fst kv) k) s)))
      order.
End GroupBy.

(** [sort_values(by, ascending=False)]: the rows in descending order of
    the column.  pandas leaves the order of rows with equal values to its
    sorting algorithm; this insertion sort keeps them in the order they
    came in. *)
Section SortValues.
Context {A : Type}.
Variable geb : A -> A -> bool.

Fixpoint insert_desc (x : A) (l : list A) : list A :=
  match l with
  | [] => [x]
  | y :: l' => if geb x y then x :: l else y :: insert_desc x l'
  end.

Definition sort_values_desc (l : list A) : list A :=
  fold_right insert_desc [] l.
End SortValues.

(** [bins.searchsorted(x, side="left")] on ascending [bins]: the number of
    edges strictly below [x]. *)
Fixpoint searchsorted_left (bins : list Q) (x : Q) : nat :=
  match bins with
  | [] => O
  | b :: bins' => if Num.Qltb b x then S (searchsorted_left bins' x) else O
  end.

(** [pd.cut(x, bins, labels)] with the defaults [right=True] and
    [include_lowest=False]: a value at or below the first edge, or above
    the last one, gets no category. *)
Definition cut (x : Q) (bins : list Q) (labels : list string)
  : option string :=
  let ids := searchsorted_left bins x in
  if Nat.eqb ids 0 || Nat.eqb ids (List.length bins) then None
  else nth_error labels (ids - 1).

(** [groupby(column, observed=True)] on a categorical column: groups in
    category order, unobserved categories and rows without a category
    left out. *)
Definition has_label (c : string) (entry : option string) : bool :=
  match entry with
  | Some c' => String.eqb c' c
  | None => false
  end.

Definition groupby_observed {R} (categories : list string)
  (column : list (option string)) (df : list R) : list (string * list R) :=
  flat_map
    (fun c =>
       match
         map fst (filter (fun rc => has_label c (snd rc)) (combine df column))
       with
       | [] => []
       | g => [(c, g)]
       end)
    categories.

End Pandas.

Definition pair_eqb (a b : string * string) : bool :=
  String.eqb (fst a) (fst b) && String.eqb (snd a) (snd b).

Definition pair_leb (a b : string * string) : bool :=
  if String.eqb (fst a) (fst b) then String.leb (snd a) (snd b)
  else String.leb (fst a) (fst b).

(** Descending order on floats for [sort_values]; NaN sorts last. *)
Definition float_geb (x y : pyfloat) : bool :=
  match x, y with
  | Some a, Some b => Qle_bool b a
  | Some _, None => true
  | None, Some _ => false
  | None, None => true
  end.

Definition count_equal (value : string) (l : list string) : nat :=
  List.length (filter (fun s => String.eqb s value) l).

(** ** The analytics report: [notebooks/services_analysis.py] *)

Module Analysis.
Import Pandas.

(** The in-memory table [df]: the rows read from the file, and the derived
    column [wait_bucket] once the script has assigned it. *)
Record Frame := {
  records : list Interaction;
  wait_bucket : option (list (option string));
}.

(** [pd.read_csv] of a file that has every cell filled in. *)
Definition read_csv (table : list Interaction) : Frame :=
  {| records := table; wait_bucket := None |}.

(** [df["wait_bucket"] = column] *)
Definition assign_wait_bucket (df : Frame) (column : list (option string))
  : Frame :=
  {| records := records df; wait_bucket := Some column |}.

Definition len (df : Frame) : nat := List.length (records df).

Definition by_string {A} (key : Interaction -> string) (df : Frame)
  (agg : list Interaction -> A) : list (string * A) :=
  map (fun kg => (fst kg, agg (snd kg)))
      (groupby String.eqb String.leb key (records df)).

Definition FCR := "Resolved on First Contact".

(** *** 1. Operations overview *)

Record Kpis := {
  total : nat;
  avg_wait : pyfloat;
  avg_service : pyfloat;
  fcr_rate : pyfloat;
  escalation_rate : pyfloat;
  avg_sat : pyfloat;
  callback_rate : pyfloat;
}.

Definition kpis (df : Frame) : Kpis :=
  {| total := len df;
     avg_wait := mean (map wait_time_min (records df));
     avg_service := mean (map service_time_min (records df));
     fcr_rate := pct_equal FCR (map resolution (records df));
     escalation_rate := pct_equal "Yes" (map escalated (records df));
     avg_sat := mean (map satisfaction_score (records df));
     callback_rate := pct_equal "Yes" (map callback_required (records df)) |}.

Record DeptKpi := {
  dk_volume : nat;
  dk_avg_wait : pyfloat;
  dk_avg_service : pyfloat;
  dk_fcr : pyfloat;
  dk_avg_sat : pyfloat;
}.

Definition dept_agg (x : list Interaction) : DeptKpi :=
  {| dk_volume := List.length (map inquiry_id x);
     dk_avg_wait := mean (map wait_time_min x);
     dk_avg_service := mean (map service_time_min x);
     dk_fcr := pct_equal FCR (map resolution x);
     dk_avg_sat := mean (map satisfaction_score x) |}.

Definition dept_round (d : nat) (k : DeptKpi) : DeptKpi :=
  {| dk_volume := dk_volume k;
     dk_avg_wait := py_round (dk_avg_wait k) d;
     dk_avg_service := py_round (dk_avg_service k) d;
     dk_fcr := py_round (dk_fcr k) d;
     dk_avg_sat := py_round (dk_avg_sat k) d |}.

Definition dept_kpis (df : Frame) : list (string * DeptKpi) :=
  by_string department df (fun x => dept_round 2 (dept_agg x)).

(** *** 2. Volume patterns *)

Record Volume := {
  v_volume : nat;
  v_avg_wait : pyfloat;
}.

Definition volume_agg (x : list Interaction) : Volume :=
  {| v_volume := List.length (map inquiry_id x);
     v_avg_wait := mean (map wait_time_min x) |}.

Definition volume_round (d : nat) (v : Volume) : Volume :=
  {| v_volume := v_volume v; v_avg_wait := py_round (v_avg_wait v) d |}.

Definition vol_quarter (df : Frame) : list (string * Volume) :=
  by_string quarter df (fun x => volume_round 1 (volume_agg x)).

Definition day_order :=
  ["Monday"; "Tuesday"; "Wednesday"; "Thursday"; "Friday"].

Definition vol_day (df : Frame) : list (string * option nat) :=
  reindex String.eqb day_order
    (by_string day_of_week df (fun x => List.length (map inquiry_id x))).

Definition time_order := ["8-10 AM"; "10-12 PM"; "12-2 PM"; "2-4 PM"].

Definition vol_time (df : Frame) : list (string * option nat) :=
  reindex String.eqb time_order
    (by_string time_slot df (fun x => List.length (map inquiry_id x))).

Definition peak_combo (df : Frame) : list ((string * string) * Volume) :=
  sort_values_desc
    (fun a b => Nat.leb (v_volume (snd b)) (v_volume (snd a)))
    (map (fun kg => (fst kg, volume_round 1 (volume_agg (snd kg))))
         (groupby pair_eqb pair_leb
            (fun r => (day_of_week r, time_slot r)) (records df))).

(** [series.unstack()] on counts indexed by (day, slot): the column
    labels are the slots that occur, in ascending order. *)
Definition unstack_columns (counts : list ((string * string) * nat))
  : list string :=
  sort_keys String.leb
    (unique String.eqb (map (fun kv => snd (fst kv)) counts)).

(** [df.groupby(["day_of_week", "time_slot"])["inquiry_id"].count()
       .unstack()], then [.reindex(day_order)[time_order]]: one row per
    day of [day_order] and one column per slot of [time_order], a cell
    without rows being missing.  Selecting the columns raises a
    [KeyError] ([None]) when the table has no row in one of the four
    slots. *)
Definition pivot_vol (df : Frame)
  : option (list (string * list (string * option nat))) :=
  let counts :=
    map (fun kg => (fst kg, List.length (map inquiry_id (snd kg))))
        (groupby pair_eqb pair_leb
           (fun r => (day_of_week r, time_slot r)) (records df)) in
  let cell d s :=
    option_map snd (find (fun kv => pair_eqb (fst kv) (d, s)) counts) in
  if forallb (fun s => existsb (String.eqb s) (unstack_columns counts))
       time_order
  then Some (map (fun d => (d, map (fun s => (s, cell d s)) time_order))
                 day_order)
  else None.

(** *** 3. Channel analysis *)

Record ChannelStat := {
  cs_volume : nat;
  cs_pct : Q;
  cs_avg_wait : pyfloat;
  cs_avg_service : pyfloat;
  cs_fcr : pyfloat;
  cs_avg_sat : pyfloat;
}.

Definition of_nat (n : nat) : Q := inject_Z (Z.of_nat n).

(** [pct] is [len(x) / len(df) * 100]; a group exists only in a table
    that has rows, so the division is by a positive count. *)
Definition channel_agg (df : Frame) (x : list Interaction) : ChannelStat :=
  {| cs_volume := List.length (map inquiry_id x);
     cs_pct := of_nat (List.length x) / of_nat (len df) * 100;
     cs_avg_wait := mean (map wait_time_min x);
     cs_avg_service := mean (map service_time_min x);
     cs_fcr := pct_equal FCR (map resolution x);
     cs_avg_sat := mean (map satisfaction_score x) |}.

Definition channel_round (d : nat) (c : ChannelStat) : ChannelStat :=
  {| cs_volume := cs_volume c;
     cs_pct := Num.round (cs_pct c) d;
     cs_avg_wait := py_round (cs_avg_wait c) d;
     cs_avg_service := py_round (cs_avg_service c) d;
     cs_fcr := py_round (cs_fcr c) d;
     cs_avg_sat := py_round (cs_avg_sat c) d |}.

(** The aggregation before [.round(2)] ... *)
Definition channel_stats_agg (df : Frame) : list (string * ChannelStat) :=
  by_string channel df (channel_agg df).

(** ... and the view the script keeps. *)
Definition channel_stats (df : Frame) : list (string * ChannelStat) :=
  map (fun kc => (fst kc, channel_round 2 (snd kc))) (channel_stats_agg df).

(** *** 4. Staff performance *)

Record StaffPerf := {
  sp_interactions : nat;
  sp_avg_wait : pyfloat;
  sp_avg_service : pyfloat;
  sp_fcr : pyfloat;
  sp_avg_sat : pyfloat;
  sp_escalations : nat;
}.

Definition staff_agg (x : list Interaction) : StaffPerf :=
  {| sp_interactions := List.length (map inquiry_id x);
     sp_avg_wait := mean (map wait_time_min x);
     sp_avg_service := mean (map service_time_min x);
     sp_fcr := pct_equal FCR (map resolution x);
     sp_avg_sat := mean (map satisfaction_score x);
     sp_escalations := count_equal "Yes" (map escalated x) |}.

Definition staff_round (d : nat) (s : StaffPerf) : StaffPerf :=
  {| sp_interactions := sp_interactions s;
     sp_avg_wait := py_round (sp_avg_wait s) d;
     sp_avg_service := py_round (sp_avg_service s) d;
     sp_fcr := py_round (sp_fcr s) d;
     sp_avg_sat := py_round (sp_avg_sat s) d;
     sp_escalations := sp_escalations s |}.

Definition staff_perf (df : Frame) : list (string * StaffPerf) :=
  sort_values_desc
    (fun a b => float_geb (sp_avg_sat (snd a)) (sp_avg_sat (snd b)))
    (by_string staff_member df (fun x => staff_round 2 (staff_agg x))).

(** *** 5. Satisfaction drivers *)

Definition sat_by_res (df : Frame) : list (string * pyfloat) :=
  sort_values_desc (fun a b => float_geb (snd a) (snd b))
    (by_string resolution df (fun x => mean (map satisfaction_score x))).

Definition fcr_sat (df : Frame) : list Q :=
  map satisfaction_score
      (filter (fun r => String.eqb (resolution r) FCR) (records df)).

Definition non_fcr_sat (df : Frame) : list Q :=
  map satisfaction_score
      (filter (fun r => negb (String.eqb (resolution r) FCR)) (records df)).

(** The significance threshold, the literal [0.05]. *)
Definition alpha : Q := 5 # 100.

(** ['Yes (p < 0.05)' if p_val < 0.05 else 'No'] *)
Definition ttest_flag (p_val : pyfloat) : string :=
  if py_lt p_val alpha then "Yes (p < 0.05)" else "No".

(** ['Significant negative correlation'
     if corr < 0 and corr_p < 0.05 else 'Not significant'] *)
Definition corr_flag (corr corr_p : pyfloat) : string :=
  if py_lt corr 0 && py_lt corr_p alpha
  then "Significant negative correlation"
  else "Not significant".

Definition wait_bins : list Q := [0; 5; 10; 15; 20; 50].

Definition wait_labels : list string :=
  ["0-5 min"; "5-10 min"; "10-15 min"; "15-20 min"; "20+ min"].

Definition wait_bucket_of (w : Q) : option string :=
  cut w wait_bins wait_labels.

Record WaitSat := {
  ws_count : nat;
  ws_avg_sat : pyfloat;
}.

Definition wait_agg (x : list Interaction) : WaitSat :=
  {| ws_count := List.length (map inquiry_id x);
     ws_avg_sat := mean (map satisfaction_score x) |}.

Definition wait_round (d : nat) (w : WaitSat) : WaitSat :=
  {| ws_count := ws_count w; ws_avg_sat := py_round (ws_avg_sat w) d |}.

(** [df.groupby("wait_bucket", observed=True).agg(...).round(2)]; the
    lookup of the column fails on a table that does not have it. *)
Definition sat_by_wait (df : Frame) : option (list (string * WaitSat)) :=
  match wait_bucket df with
  | None => None
  | Some column =>
      Some (map (fun kg => (fst kg, wait_round 2 (wait_agg (snd kg))))
                (groupby_observed wait_labels column (records df)))
  end.

(** *** The script *)

Record Report := {
  r_kpis : Kpis;
  r_dept_kpis : list (string * DeptKpi);
  r_vol_quarter : list (string * Volume);
  r_vol_day : list (string * option nat);
  r_vol_time : list (string * option nat);
  r_peak_combo : list ((string * string) * Volume);
  r_pivot_vol : list (string * list (string * option nat));
  r_channel_stats : list (string * ChannelStat);
  r_staff_perf : list (string * StaffPerf);
  r_sat_by_res : list (string * pyfloat);
  r_t_stat : pyfloat;
  r_p_val : pyfloat;
  r_ttest_significant : string;
  r_corr : pyfloat;
  r_corr_p : pyfloat;
  r_corr_significant : string;
  r_sat_by_wait : list (string * WaitSat);
}.

Section Script.
(** [scipy.stats.ttest_ind] and [scipy.stats.pearsonr]: each returns a
    statistic and a two-sided p-value, or raises ([None]), as
    [pearsonr] does on fewer than two rows. *)
Variable ttest_ind : list Q -> list Q -> option (pyfloat * pyfloat).
Variable pearsonr : list Q -> list Q -> option (pyfloat * pyfloat).

(** The script from the loaded table on: every view is computed from
    [df]; the one statement that changes [df] is the assignment of
    [wait_bucket].  The statements that can raise are, in the order of
    the script, the column selection of the heatmap's pivot, the two
    scipy calls and the lookup of [wait_bucket].  The charts themselves
    and the printing are left out. *)
Definition services_analysis (df : Frame) : option (Report * Frame) :=
  let k := kpis df in
  let dk := dept_kpis df in
  let vq := vol_quarter df in
  let vd := vol_day df in
  let vt := vol_time df in
  let pc := peak_combo df in
  match pivot_vol df with
  | None => None
  | Some pv =>
  let cs := channel_stats df in
  let sp := staff_perf df in
  let sr := sat_by_res df in
  match ttest_ind (fcr_sat df) (non_fcr_sat df) with
  | None => None
  | Some (t_stat, p_val) =>
  match pearsonr (map wait_time_min (records df))
                 (map satisfaction_score (records df)) with
  | None => None
  | Some (corr, corr_p) =>
  let df :=
    assign_wait_bucket df
      (map wait_bucket_of (map wait_time_min (records df))) in
  match sat_by_wait df with
  | None => None
  | Some sw =>
      Some ({| r_kpis := k;
               r_dept_kpis := dk;
               r_vol_quarter := vq;
               r_vol_day := vd;
               r_vol_time := vt;
               r_peak_combo := pc;
               r_pivot_vol := pv;
               r_channel_stats := cs;
               r_staff_perf := sp;
               r_sat_by_res := sr;
               r_t_stat := t_stat;
               r_p_val := p_val;
               r_ttest_significant := ttest_flag p_val;
               r_corr := corr;
               r_corr_p := corr_p;
               r_corr_significant := corr_flag corr corr_p;
               r_sat_by_wait := sw |}, df)
  end
  end
  end
  end.

(** Reading the file, then the script. *)
Definition run (table : list Interaction) : option (Report * Frame) :=
  services_analysis (read_csv table).
End Script.

End Analysis.

(** ** The data generator: [scripts/generate_data.py] *)

Module Generator.

Definition DataFrame := list Interaction.

(** Element-wise operations on arrays. *)
Fixpoint zip_with {A B C} (f : A -> B -> C) (l1 : list A) (l2 : list B)
  : list C :=
  match l1, l2 with
  | x :: l1', y :: l2' => f x y :: zip_with f l1' l2'
  | _, _ => []
  end.

Definition add (a b : list Q) : list Q := zip_with Qplus a b.

(** [np.where(a == value, x, y)] *)
Definition where_eq {A} (a : list string) (value : string) (x y : A)
  : list A :=
  map (fun s => if String.eqb s value then x else y) a.

(** [np.isin(a, values)] *)
Definition isin (a values : list string) : list bool :=
  map (fun s => existsb (String.eqb s) values) a.

(** [np.clip(a, lo, hi).round(1)] *)
Definition clip_round (a : list Q) (lo hi : Q) : list Q :=
  map (fun x => Num.round (Num.clip x lo hi) 1) a.

(** [p.cumsum()] *)
Fixpoint cumsum_from (acc : Q) (p : list Q) : list Q :=
  match p with
  | [] => []
  | x :: p' => (acc + x) :: cumsum_from (acc + x) p'
  end.

(** [cdf = p.cumsum(); cdf /= cdf[-1]] *)
Definition cdf (p : list Q) : list Q :=
  let c := cumsum_from 0 p in
  map (fun x => x / last c 1) c.

(** [cdf.searchsorted(u, side="right")] on ascending [cdf]: the number of
    entries at or below [u]. *)
Fixpoint searchsorted_right (c : list Q) (u : Q) : nat :=
  match c with
  | [] => O
  | x :: c' => if Qle_bool x u then S (searchsorted_right c' u) else O
  end.

Definition month_map (q : string) : option (list string) :=
  if String.eqb q "Fall 2024" then Some ["Sep"; "Oct"; "Nov"; "Dec"]
  else if String.eqb q "Winter 2025" then Some ["Jan"; "Feb"; "Mar"]
  else if String.eqb q "Spring 2025" then Some ["Apr"; "May"; "Jun"]
  else if String.eqb q "Summer 2025" then Some ["Jul"; "Aug"]
  else None.

Definition inquiry_type_map (d : string) : option (list string) :=
  if String.eqb d "Financial Aid" then
    Some ["FAFSA Status"; "Award Letter"; "Scholarship Inquiry";
          "Loan Questions"; "Work-Study"]
  else if String.eqb d "Registrar" then
    Some ["Transcript Request"; "Enrollment Verification"; "Grade Change";
          "Graduation Check"; "Add/Drop"]
  else if String.eqb d "Student Business Services" then
    Some ["Tuition Payment"; "Refund Status"; "Payment Plan";
          "Account Hold"; "1098-T"]
  else if String.eqb d "Admissions" then
    Some ["Application Status"; "Admission Decision"; "Transfer Credits";
          "Orientation"; "Residency"]
  else if String.eqb d "General Inquiry" then
    Some ["Campus Resources"; "Department Referral"; "Hours/Location";
          "General Question"; "Complaint"]
  else None.

Definition department_names :=
  ["Financial Aid"; "Registrar"; "Student Business Services"; "Admissions";
   "General Inquiry"].

(** The arrays the script holds once [resolution] is drawn. *)
Record Columns := {
  c_departments : list string;
  c_channel : list string;
  c_quarter : list string;
  c_months : list string;
  c_day_of_week : list string;
  c_hour : list string;
  c_staff : list string;
  c_inquiry_types : list string;
  c_student_type : list string;
  c_wait_time_min : list Q;
  c_service_time_min : list Q;
  c_resolution : list string;
}.

(** [pd.DataFrame({...})]: the columns must all have the length of the
    index; row [i] takes entry [i] of each. *)
Definition row_at (ids : list Z) (c : Columns)
  (satisfaction : list Q) (escalated callback : list string) (i : nat)
  : option Interaction :=
  match nth_error ids i, nth_error (c_departments c) i,
        nth_error (c_inquiry_types c) i, nth_error (c_channel c) i,
        nth_error (c_student_type c) i, nth_error (c_quarter c) i,
        nth_error (c_months c) i, nth_error (c_day_of_week c) i,
        nth_error (c_hour c) i, nth_error (c_staff c) i,
        nth_error (c_wait_time_min c) i, nth_error (c_service_time_min c) i,
        nth_error (c_resolution c) i, nth_error escalated i,
        nth_error callback i, nth_error satisfaction i
  with
  | Some id, Some d, Some it, Some ch, Some st, Some q, Some m, Some dw,
    Some h, Some s, Some w, Some sv, Some r, Some e, Some cb, Some sat =>
      Some {| inquiry_id := id; department := d; inquiry_type := it;
              channel := ch; student_type := st; quarter := q; month := m;
              day_of_week := dw; time_slot := h; staff_member := s;
              wait_time_min := w; service_time_min := sv; resolution := r;
              escalated := e; callback_required := cb;
              satisfaction_score := sat |}
  | _, _, _, _, _, _, _, _, _, _, _, _, _, _, _, _ => None
  end.

Fixpoint all_some {A} (l : list (option A)) : option (list A) :=
  match l with
  | [] => Some []
  | Some x :: l' => option_map (cons x) (all_some l')
  | None :: _ => None
  end.

Definition make_DataFrame (ids : list Z) (c : Columns)
  (satisfaction : list Q) (escalated callback : list string)
  : option DataFrame :=
  let n := List.length ids in
  if forallb (Nat.eqb n)
       [List.length (c_departments c); List.length (c_inquiry_types c);
        List.length (c_channel c); List.length (c_student_type c);
        List.length (c_quarter c); List.length (c_months c);
        List.length (c_day_of_week c); List.length (c_hour c);
        List.length (c_staff c); List.length (c_wait_time_min c);
        List.length (c_service_time_min c); List.length (c_resolution c);
        List.length escalated; List.length callback;
        List.length satisfaction]
  then all_some (map (row_at ids c satisfaction escalated callback) (seq 0 n))
  else None.

(** [range(10001, 10001 + n)] *)
Definition inquiry_ids (n : nat) : list Z :=
  map (fun i => (10001 + Z.of_nat i)%Z) (seq 0 n).

Section Numpy.
(** numpy's global generator: its state, [np.random.seed], and the
    draws every sampler is built from.  [randint k] is
    [randint(0, k)]. *)
Variable RandomState : Type.
Variable seed : Z -> RandomState.
Variable random_sample : RandomState -> Q * RandomState.
Variable randint : nat -> RandomState -> nat * RandomState.
Variable standard_exponential : RandomState -> Q * RandomState.
Variable standard_normal : RandomState -> Q * RandomState.

(** Computations that draw from the generator and may raise. *)
Definition M (A : Type) : Type := RandomState -> option (A * RandomState).

Definition ret {A} (a : A) : M A := fun g => Some (a, g).

Definition bind {A B} (m : M A) (f : A -> M B) : M B :=
  fun g =>
    match m g with
    | Some (a, g') => f a g'
    | None => None
    end.

Definition lift {A} (o : option A) : M A :=
  fun g =>
    match o with
    | Some a => Some (a, g)
    | None => None
    end.

Definition draw {A} (sampler : RandomState -> A * RandomState) : M A :=
  fun g => Some (sampler g).

Local Notation "x <- m ;; k" := (bind m (fun x => k))
  (at level 61, m at next level, right associativity).

Fixpoint replicate {A} (n : nat) (m : M A) : M (list A) :=
  match n with
  | O => ret []
  | S n' => x <- m ;; xs <- replicate n' m ;; ret (x :: xs)
  end.

Fixpoint for_each {A B} (f : A -> M B) (l : list A) : M (list B) :=
  match l with
  | [] => ret []
  | a :: l' => x <- f a ;; xs <- for_each f l' ;; ret (x :: xs)
  end.

(** [np.random.seed(s)]: the seed must be between 0 and 2**32 - 1, any
    other integer raises a [ValueError]. *)
Definition np_seed (s : Z) : M unit :=
  fun _ =>
    if ((0 <=? s) && (s <=? 4294967295))%Z then Some (tt, seed s)
    else None.

(** [np.random.choice(a, n, p=p)]: [n] uniform draws, each looked up
    in the cumulative distribution. *)
Definition choice_p (a : list string) (n : nat) (p : list Q)
  : M (list string) :=
  us <- replicate n (draw random_sample) ;;
  lift (all_some
          (map (fun u => nth_error a (searchsorted_right (cdf p) u)) us)).

(** [np.random.choice(a, n)]: [n] uniform indices. *)
Definition choice_n (a : list string) (n : nat) : M (list string) :=
  idx <- replicate n (draw (randint (List.length a))) ;;
  lift (all_some (map (nth_error a) idx)).

(** [np.random.choice(a)]: one uniform index. *)
Definition choice (a : list string) : M string :=
  i <- draw (randint (List.length a)) ;;
  lift (nth_error a i).

(** [np.random.exponential(scale, n)] *)
Definition exponential (scale : Q) (n : nat) : M (list Q) :=
  xs <- replicate n (draw standard_exponential) ;;
  ret (map (fun x => scale * x) xs).

(** [np.random.normal(loc, scale, n)] *)
Definition normal (loc scale : Q) (n : nat) : M (list Q) :=
  xs <- replicate n (draw standard_normal) ;;
  ret (map (fun x => loc + scale * x) xs).

Definition resolution_names :=
  ["Resolved on First Contact"; "Follow-Up Required";
   "Escalated to Department"; "Referred to Another Office"].

Definition resolution_prior : list Q :=
  [55 # 100; 20 # 100; 15 # 100; 10 # 100].

(** The script from [channel] to [resolution], given [departments]. *)
Definition sample_columns (n : nat) (departments : list string)
  : M Columns :=
  channel <- choice_p ["Walk-In"; "Phone"; "Email"; "Virtual Appointment"]
               n [45 # 100; 25 # 100; 20 # 100; 10 # 100] ;;
  quarter <- choice_p
               ["Fall 2024"; "Winter 2025"; "Spring 2025"; "Summer 2025"]
               n [35 # 100; 25 # 100; 25 # 100; 15 # 100] ;;
  months <- for_each (fun q => a <- lift (month_map q) ;; choice a)
              quarter ;;
  day_of_week <- choice_p
                   ["Monday"; "Tuesday"; "Wednesday"; "Thursday"; "Friday"]
                   n [22 # 100; 20 # 100; 20 # 100; 20 # 100; 18 # 100] ;;
  hour <- choice_p ["8-10 AM"; "10-12 PM"; "12-2 PM"; "2-4 PM"]
            n [20 # 100; 35 # 100; 25 # 100; 20 # 100] ;;
  staff <- choice_n ["Staff A"; "Staff B"; "Staff C"; "Staff D";
                     "Staff E"; "Staff F"; "Staff G"; "Staff H"] n ;;
  inquiry_types <- for_each
                     (fun d => a <- lift (inquiry_type_map d) ;; choice a)
                     departments ;;
  student_type <- choice_p
                    ["Undergraduate"; "Graduate"; "Prospective";
                     "Parent/Guardian"]
                    n [55 # 100; 20 # 100; 15 # 100; 10 # 100] ;;
  base_wait <- exponential 8 n ;;
  let wait_adj :=
    add (add (where_eq channel "Walk-In" 5 0)
             (where_eq quarter "Fall 2024" 4 0))
        (map (fun b : bool => if b then 3 else 0)
             (isin months ["Sep"; "Jan"])) in
  let wait_time_min := clip_round (add base_wait wait_adj) 0 45 in
  base_service <- normal 12 5 n ;;
  let service_adj :=
    add (add (where_eq departments "Financial Aid" 5 0)
             (where_eq departments "Student Business Services" 3 0))
        (where_eq channel "Email" (-(4)) 0) in
  let service_time_min := clip_round (add base_service service_adj) 2 40 in
  resolution <- choice_p resolution_names n resolution_prior ;;
  ret {| c_departments := departments; c_channel := channel;
         c_quarter := quarter; c_months := months;
         c_day_of_week := day_of_week; c_hour := hour; c_staff := staff;
         c_inquiry_types := inquiry_types; c_student_type := student_type;
         c_wait_time_min := wait_time_min;
         c_service_time_min := service_time_min;
         c_resolution := resolution |}.

(** [fcr_boost], computed from [departments] right after [resolution]. *)
Definition fcr_boost_of (departments : list string) : list Q :=
  add (where_eq departments "General Inquiry" (15 # 100) 0)
      (where_eq departments "Registrar" (5 # 100) 0).

(** The rest of the script, with [fcr_boost] in scope: satisfaction,
    the two derived flags, and the table. *)
Definition finish (n : nat) (c : Columns) (fcr_boost : list Q)
  : M DataFrame :=
  base_sat <- normal (38 # 10) (8 # 10) n ;;
  let sat_adj :=
    add (add (add (where_eq (c_resolution c) "Resolved on First Contact"
                            (5 # 10) 0)
                  (where_eq (c_resolution c) "Escalated to Department"
                            (-(3 # 10)) 0))
             (map (fun w => if Num.Qltb 20 w then -(4 # 10) else 0)
                  (c_wait_time_min c)))
        (map (fun w => if Num.Qltb w 5 then 3 # 10 else 0)
             (c_wait_time_min c)) in
  let satisfaction := clip_round (add base_sat sat_adj) 1 5 in
  let escalated :=
    where_eq (c_resolution c) "Escalated to Department" "Yes" "No" in
  yes_no <- choice_p ["Yes"; "No"] n [70 # 100; 30 # 100] ;;
  let callback :=
    zip_with (fun r yn => if String.eqb r "Follow-Up Required"
                          then yn else "No")
             (c_resolution c) yes_no in
  lift (make_DataFrame (inquiry_ids n) c satisfaction escalated callback).

Definition generate_from_departments (n : nat) (departments : list string)
  : M DataFrame :=
  c <- sample_columns n departments ;;
  let fcr_boost := fcr_boost_of departments in
  finish n c fcr_boost.

(** The whole script, for a seed and a row count. *)
Definition generate_data (seed_value : Z) (n : nat) : M DataFrame :=
  _ <- np_seed seed_value ;;
  departments <- choice_p department_names n
                   [30 # 100; 25 # 100; 20 # 100; 15 # 100; 10 # 100] ;;
  generate_from_departments n departments.

(** The script as written: seed 42, 3000 rows. *)
Definition main : M DataFrame := generate_data 42 3000.
End Numpy.

End Generator.

(** ** The vocabulary of the specification *)


(** [lo < w <= hi] *)
Definition in_interval (lo hi w : Q) : bool :=
  Num.Qltb lo w && Qle_bool w hi.

(** An entry of a reindexed count: the count of the rows with that key,
    or nothing when there is no such row. *)
Definition count_or_missing (n : nat) : option nat :=
  match n with
  | O => None
  | S _ => Some n
  end.

Module Spec.

(** The five wait-time buckets, each a right-closed interval. *)
Definition wait_intervals : list (string * (Q * Q)) :=
  [("0-5 min", (0, 5)); ("5-10 min", (5, 10)); ("10-15 min", (10, 15));
   ("15-20 min", (15, 20)); ("20+ min", (20, 50))].

Definition bucket_rows (lo hi : Q) (table : list Interaction)
  : list Interaction :=
  filter (fun r => in_interval lo hi (wait_time_min r)) table.

(** The satisfaction-by-wait view: for each bucket that has rows, in
    bucket order, the number of its rows and their mean satisfaction to
    two decimals. *)
Definition sat_by_wait (table : list Interaction)
  : list (string * Analysis.WaitSat) :=
  flat_map
    (fun b =>
       match bucket_rows (fst (snd b)) (snd (snd b)) table with
       | [] => []
       | g =>
           [(fst b,
             {| Analysis.ws_count := List.length g;
                Analysis.ws_avg_sat :=
                  py_round (mean (map satisfaction_score g)) 2 |})]
       end)
    wait_intervals.

(** A bucket that has rows. *)
Definition has_rows (table : list Interaction) (b : string * (Q * Q))
  : bool :=
  match bucket_rows (fst (snd b)) (snd (snd b)) table with
  | [] => false
  | _ :: _ => true
  end.

(** [x] is the mean of [l] to two decimals: a number less than one
    hundredth away from it. *)
Definition mean_to_2_decimals (x : pyfloat) (l : list Q) : Prop :=
  exists v m, x = Some v /\ mean l = Some m /\ Qabs (v - m) < 1 # 100.

(** The entry of the view for bucket [b]: its label, the number of its
    rows, and their mean satisfaction to two decimals. *)
Definition bucket_entry (table : list Interaction) (b : string * (Q * Q))
  (kv : string * Analysis.WaitSat) : Prop :=
  let g := bucket_rows (fst (snd b)) (snd (snd b)) table in
  fst kv = fst b
  /\ Analysis.ws_count (snd kv) = List.length g
  /\ mean_to_2_decimals (Analysis.ws_avg_sat (snd kv))
       (map satisfaction_score g).

(** The buckets as left-closed intervals [0,5), [5,10), [10,15), [15,20)
    and [20,50]. *)
Definition left_closed_bucket (w : Q) : option string :=
  if Qle_bool 0 w && Num.Qltb w 5 then Some "0-5 min"
  else if Qle_bool 5 w && Num.Qltb w 10 then Some "5-10 min"
  else if Qle_bool 10 w && Num.Qltb w 15 then Some "10-15 min"
  else if Qle_bool 15 w && Num.Qltb w 20 then Some "15-20 min"
  else if Qle_bool 20 w && Qle_bool w 50 then Some "20+ min"
  else None.

End Spec.

(** The wait-time adjustment of a row: 5 minutes for a walk-in, 4 in the
    fall quarter, 3 in September and January. *)
Definition wait_adjustment (r : Interaction) : Q :=
  (if String.eqb (channel r) "Walk-In" then 5 else 0)
  + (if String.eqb (quarter r) "Fall 2024" then 4 else 0)
  + (if existsb (String.eqb (month r)) ["Sep"; "Jan"] then 3 else 0).

(** The values a categorical column of the generator can hold. *)
Definition channel_names :=
  ["Walk-In"; "Phone"; "Email"; "Virtual Appointment"].

Definition quarter_names :=
  ["Fall 2024"; "Winter 2025"; "Spring 2025"; "Summer 2025"].

Definition day_names :=
  ["Monday"; "Tuesday"; "Wednesday"; "Thursday"; "Friday"].

Definition time_slot_names := ["8-10 AM"; "10-12 PM"; "12-2 PM"; "2-4 PM"].

Definition staff_names :=
  ["Staff A"; "Staff B"; "Staff C"; "Staff D"; "Staff E"; "Staff F";
   "Staff G"; "Staff H"].

Definition student_type_names :=
  ["Undergraduate"; "Graduate"; "Prospective"; "Parent/Guardian"].

(** Every array of the generator has one entry per row. *)
Definition columns_have_length (n : nat) (c : Generator.Columns) : Prop :=
  List.length (Generator.c_departments c) = n
  /\ List.length (Generator.c_inquiry_types c) = n
  /\ List.length (Generator.c_channel c) = n
  /\ List.length (Generator.c_student_type c) = n
  /\ List.length (Generator.c_quarter c) = n
  /\ List.length (Generator.c_months c) = n
  /\ List.length (Generator.c_day_of_week c) = n
  /\ List.length (Generator.c_hour c) = n
  /\ List.length (Generator.c_staff c) = n
  /\ List.length (Generator.c_wait_time_min c) = n
  /\ List.length (Generator.c_service_time_min c) = n
  /\ List.length (Generator.c_resolution c) = n.

(** ** Sample tables

    Row [i] of a sample table is on day [i mod 5], in time slot
    [(i / 5) mod 4], so that twenty rows or more cover every day and
    every slot, as the table the generator writes does.  Every sample
    row is a first-contact resolution. *)

Definition sample_row (i : nat) (ch : string) (w s : Q) : Interaction :=
  {| inquiry_id := 10001 + Z.of_nat i; department := "Registrar";
     inquiry_type := "Add/Drop"; channel := ch;
     student_type := "Graduate"; quarter := "Fall 2024"; month := "Oct";
     day_of_week := nth (i mod 5) day_names "Monday";
     time_slot := nth ((i / 5) mod 4) time_slot_names "8-10 AM";
     staff_member := "Staff A"; wait_time_min := w;
     service_time_min := 10; resolution := "Resolved on First Contact";
     escalated := "No"; callback_required := "No";
     satisfaction_score := s |}.

(** The table with the given (wait, satisfaction) cells, row [i] on
    channel [ch i]. *)
Definition sample_table (ch : nat -> string) (cells : list (Q * Q))
  : list Interaction :=
  map (fun ic => sample_row (fst ic) (ch (fst ic))
                   (fst (snd ic)) (snd (snd ic)))
      (combine (seq 0 (List.length cells)) cells).

Definition by_phone (i : nat) : string := "Phone".

(** Twenty rows; satisfaction rises in a straight line with the wait. *)
Definition rising_table : list Interaction :=
  sample_table by_phone
    [(1, 1); (2, 12 # 10); (3, 14 # 10); (4, 16 # 10); (5, 18 # 10);
     (6, 2); (7, 22 # 10); (8, 24 # 10); (9, 26 # 10); (10, 28 # 10);
     (11, 3); (12, 32 # 10); (13, 34 # 10); (14, 36 # 10); (15, 38 # 10);
     (16, 4); (17, 42 # 10); (18, 44 # 10); (19, 46 # 10); (20, 48 # 10)].

(** Twenty rows; every wait sits on a bucket edge. *)
Definition edge_table : list Interaction :=
  sample_table by_phone
    (List.concat (repeat [(5, 4); (10, 4); (15, 4); (20, 4)] 5)).

(** Twenty-one rows; every wait is 25 minutes. *)
Definition long_wait_table : list Interaction :=
  sample_table by_phone ((25, 31 # 10) :: repeat (25, 32 # 10) 20).

(** Twenty rows; every wait is above 20 minutes, one of them a full
    hour. *)
Definition over_fifty_table : list Interaction :=
  sample_table by_phone ((60, 4) :: repeat (25, 4) 19).

(** Twenty-one rows, seven on each of three channels. *)
Definition three_channel_table : list Interaction :=
  sample_table (fun i => nth (i mod 3) ["Phone"; "Email"; "Walk-In"] "Phone")
    (repeat (5, 4) 21).

(** What scipy returns on the sample tables.  Every sample row is a
    first-contact resolution, so the second sample of the t-test is empty
    and its result is NaN; [pearsonr] gives NaN when one of its inputs is
    constant, and r = 1 with a p-value of 0 on [rising_table]. *)
Definition stats_nan (a b : list Q) : option (pyfloat * pyfloat) :=
  Some (NaN, NaN).

Definition pearsonr_rising (x y : list Q) : option (pyfloat * pyfloat) :=
  Some (Some 1, Some 0).

(** ** A small random generator to run the script on

    A linear congruential generator in the place of numpy's Mersenne
    twister.  Its samplers have the ranges of numpy's (uniform draws in
    [0,1), indices below the bound, non-negative exponential draws) but
    not their distributions. *)

Module Lcg.

Definition RandomState := Z.

Definition modulus : Z := 2147483648.

Definition next (g : RandomState) : RandomState :=
  ((1103515245 * g + 12345) mod modulus)%Z.

Definition seed (s : Z) : RandomState := (s mod modulus)%Z.

Definition random_sample (g : RandomState) : Q * RandomState :=
  let g' := next g in (inject_Z (g' / 2097152) / 1024, g').

Definition randint (k : nat) (g : RandomState) : nat * RandomState :=
  let g' := next g in (Z.to_nat ((g' / 65536) mod Z.of_nat k), g').

Definition standard_exponential (g : RandomState) : Q * RandomState :=
  let g' := next g in (inject_Z ((g' / 65536) mod 64) / 16, g').

Definition standard_normal (g : RandomState) : Q * RandomState :=
  let g' := next g in (inject_Z ((g' / 65536) mod 64 - 32) / 16, g').

(** The generator script on this generator. *)
Definition generate_data (seed_value : Z) (n : nat)
  : RandomState -> option (Generator.DataFrame * RandomState) :=
  Generator.generate_data RandomState seed random_sample randint
    standard_exponential standard_normal seed_value n.

Definition generate_from_departments (n : nat) (departments : list string)
  : RandomState -> option (Generator.DataFrame * RandomState) :=
  Generator.generate_from_departments RandomState random_sample randint
    standard_exponential standard_normal n departments.

(** Two department assignments for seven rows. *)
Definition all_registrar : list string := repeat "Registrar" 7.

Definition all_financial_aid : list string := repeat "Financial Aid" 7.

End Lcg.

(** ** The findings of the report: section 6 of
    [notebooks/services_analysis.py] *)

Module Findings.
Import Analysis.

(** The label of the best entry of a series seen so far, NaN entries
    skipped; of two equally good entries the first one stays. *)
Fixpoint idx_best (better : Q -> Q -> bool) (best : option (string * Q))
  (s : list (string * pyfloat)) : option string :=
  match s with
  | [] => option_map fst best
  | (_, None) :: s' => idx_best better best s'
  | (k, Some v) :: s' =>
      match best with
      | None => idx_best better (Some (k, v)) s'
      | Some (_, b) =>
          if better v b then idx_best better (Some (k, v)) s'
          else idx_best better best s'
      end
  end.

(** [series.idxmax()] and [series.idxmin()].  [None] when no entry is a
    number: pandas raises on an empty series. *)
Definition idxmax (s : list (string * pyfloat)) : option string :=
  idx_best (fun v b => Num.Qltb b v) None s.

Definition idxmin (s : list (string * pyfloat)) : option string :=
  idx_best (fun v b => Num.Qltb v b) None s.

(** [dept_kpis["avg_wait"]] and [dept_kpis["fcr"]] *)
Definition avg_wait_column (dk : list (string * DeptKpi))
  : list (string * pyfloat) :=
  map (fun kd => (fst kd, dk_avg_wait (snd kd))) dk.

Definition fcr_column (dk : list (string * DeptKpi))
  : list (string * pyfloat) :=
  map (fun kd => (fst kd, dk_fcr (snd kd))) dk.

(** [highest_wait_dept = dept_kpis["avg_wait"].idxmax()] *)
Definition highest_wait_dept (df : Frame) : option string :=
  idxmax (avg_wait_column (dept_kpis df)).

(** [lowest_fcr_dept = dept_kpis["fcr"].idxmin()] *)
Definition lowest_fcr_dept (df : Frame) : option string :=
  idxmin (fcr_column (dept_kpis df)).

End Findings.

(** * Properties *)

(** ** Rounding and clipping *)

Section NumFacts.
Import Num.

Lemma Qltb_lt (x y : Q) : Qltb x y = true <-> x < y.
Proof.
  unfold Qltb. rewrite negb_true_iff.
  split; intro H.
  - apply Qnot_le_lt. intro Hle. apply Qle_bool_iff in Hle. congruence.
  - destruct (Qle_bool y x) eqn:E; [|reflexivity].
    apply Qle_bool_iff in E. exfalso. apply (Qlt_not_le _ _ H E).
Qed.

Lemma Qltb_ge (x y : Q) : Qltb x y = false <-> y <= x.
Proof.
  unfold Qltb. rewrite negb_false_iff. apply Qle_bool_iff.
Qed.

Lemma rint_floor (x : Q) : rint x = Qfloor x \/ rint x = (Qfloor x + 1)%Z.
Proof.
  unfold rint.
  destruct (Qcompare (x - inject_Z (Qfloor x)) (1 # 2)); auto.
  destruct (Z.even (Qfloor x)); auto.
Qed.

Lemma rint_Z (z : Z) : rint (inject_Z z) = z.
Proof.
  unfold rint. rewrite Qfloor_Z.
  assert (E : Qcompare (inject_Z z - inject_Z z) (1 # 2) = Lt).
  { apply (proj1 (Qlt_alt _ _)). generalize (inject_Z z). intro q. lra. }
  now rewrite E.
Qed.

Lemma rint_eq_Z (x : Q) (z : Z) : x == inject_Z z -> rint x = z.
Proof.
  intro H. unfold rint.
  assert (F : Qfloor x = z) by (rewrite H; apply Qfloor_Z).
  rewrite F.
  assert (E : Qcompare (x - inject_Z z) (1 # 2) = Lt).
  { apply (proj1 (Qlt_alt _ _)). revert H.
    generalize (inject_Z z). intros q H. lra. }
  now rewrite E.
Qed.

(** The nearest integer is within one half. *)
Lemma rint_error (x : Q) : Qabs (inject_Z (rint x) - x) <= 1 # 2.
Proof.
  pose proof (Qfloor_le x) as Hlo.
  pose proof (Qlt_floor x) as Hhi.
  rewrite inject_Z_plus in Hhi. change (inject_Z 1) with 1 in Hhi.
  unfold rint.
  destruct (Qcompare (x - inject_Z (Qfloor x)) (1 # 2)) eqn:E;
    [apply (proj2 (Qeq_alt _ _)) in E | apply (proj2 (Qlt_alt _ _)) in E
     | apply (proj2 (Qgt_alt _ _)) in E];
    try (destruct (Z.even (Qfloor x)));
    rewrite ?inject_Z_plus; change (inject_Z 1) with 1;
    revert Hlo Hhi E; generalize (inject_Z (Qfloor x)); intros f Hlo Hhi E;
    apply Qabs_Qle_condition; split; lra.
Qed.

(** Rounding to an integer stays between integer bounds. *)
Lemma rint_between (x : Q) (a b : Z) :
  inject_Z a <= x -> x <= inject_Z b -> (a <= rint x <= b)%Z.
Proof.
  intros Ha Hb.
  assert (Hfa : (a <= Qfloor x)%Z).
  { rewrite <- (Qfloor_Z a). now apply Qfloor_resp_le. }
  destruct (Qlt_le_dec x (inject_Z b)) as [Hlt | Hge].
  - assert (Hfb : (Qfloor x < b)%Z).
    { rewrite Zlt_Qlt. eapply Qle_lt_trans; [apply Qfloor_le | exact Hlt]. }
    destruct (rint_floor x) as [-> | ->]; lia.
  - assert (Hx : x == inject_Z b) by (apply Qle_antisym; assumption).
    rewrite (rint_eq_Z x b Hx).
    split; [|lia].
    rewrite Zle_Qle. now rewrite <- Hx.
Qed.

Lemma scale_pos (d : nat) : 0 < scale d.
Proof.
  unfold scale. change 0 with (inject_Z 0). rewrite <- Zlt_Qlt.
  apply Z.pow_pos_nonneg; lia.
Qed.

(** Rounding to [d] decimals stays between bounds that have at most [d]
    decimals themselves. *)
Lemma round_between (x : Q) (d : nat) (a b : Z) :
  inject_Z a / scale d <= x -> x <= inject_Z b / scale d ->
  inject_Z a / scale d <= round x d <= inject_Z b / scale d.
Proof.
  intros Ha Hb. pose proof (scale_pos d) as Hs.
  assert (Hne : ~ scale d == 0) by lra.
  assert (Hi : 0 <= / scale d) by apply Qlt_le_weak, Qinv_lt_0_compat, Hs.
  assert (Ha' : inject_Z a <= x * scale d).
  { setoid_replace (inject_Z a) with (inject_Z a / scale d * scale d)
      by (field; exact Hne).
    apply Qmult_le_compat_r; [exact Ha | lra]. }
  assert (Hb' : x * scale d <= inject_Z b).
  { setoid_replace (inject_Z b) with (inject_Z b / scale d * scale d)
      by (field; exact Hne).
    apply Qmult_le_compat_r; [exact Hb | lra]. }
  destruct (rint_between _ _ _ Ha' Hb') as [H1 H2].
  unfold round, Qdiv.
  split; apply Qmult_le_compat_r; try exact Hi; now rewrite <- Zle_Qle.
Qed.

Lemma clip_between (x lo hi : Q) : lo <= hi -> lo <= clip x lo hi <= hi.
Proof.
  intro H. unfold clip. split.
  - apply Q.min_glb; [apply Q.le_max_r | exact H].
  - apply Q.le_min_r.
Qed.

(** The error of rounding to [d] decimals is at most half a unit of the
    last decimal. *)
Lemma round_error (x : Q) (d : nat) :
  Qabs (round x d - x) <= (1 # 2) / scale d.
Proof.
  pose proof (scale_pos d) as Hs.
  assert (Hne : ~ scale d == 0) by lra.
  pose proof (rint_error (x * scale d)) as He.
  apply Qabs_Qle_condition in He. destruct He as [He1 He2].
  unfold round.
  assert (E : inject_Z (rint (x * scale d)) / scale d - x ==
              (inject_Z (rint (x * scale d)) - x * scale d) / scale d)
    by (field; exact Hne).
  rewrite E.
  apply Qabs_Qle_condition. split.
  - apply Qle_shift_div_l; [exact Hs|].
    setoid_replace (- ((1 # 2) / scale d) * scale d) with (- (1 # 2))
      by (field; exact Hne).
    exact He1.
  - apply Qle_shift_div_r; [exact Hs|].
    setoid_replace ((1 # 2) / scale d * scale d) with (1 # 2)
      by (field; exact Hne).
    exact He2.
Qed.

End NumFacts.

(** ** Grouping *)

Section GroupByFacts.
Import Pandas.
Context {R K : Type}.
Variable eqb : K -> K -> bool.
Variable leb : K -> K -> bool.
Hypothesis eqb_eq : forall a b, eqb a b = true <-> a = b.

Lemma In_unique (l : list K) (k : K) : In k (unique eqb l) <-> In k l.
Proof.
  induction l as [|a l IH]; simpl; [tauto|].
  rewrite filter_In, IH.
  split.
  - intros [H | [H _]]; auto.
  - intros [H | H]; auto.
    destruct (eqb k a) eqn:E.
    + left. symmetry. now apply eqb_eq.
    + right. split; auto.
Qed.

Lemma NoDup_unique (l : list K) : NoDup (unique eqb l).
Proof.
  induction l as [|a l IH]; simpl; constructor.
  - rewrite filter_In. intros [_ H].
    assert (E : eqb a a = true) by now apply eqb_eq.
    rewrite E in H. discriminate.
  - now apply NoDup_filter.
Qed.

Lemma insert_key_perm (k : K) (l : list K) :
  Permutation (insert_key leb k l) (k :: l).
Proof.
  induction l as [|a l IH]; simpl; auto.
  destruct (leb k a); auto.
  rewrite IH. apply perm_swap.
Qed.

Lemma sort_keys_perm (l : list K) : Permutation (sort_keys leb l) l.
Proof.
  induction l as [|a l IH]; simpl; auto.
  rewrite insert_key_perm. now constructor.
Qed.

(** Among distinct keys exactly one equals a key of the list. *)
Lemma one_key_matches (ks : list K) (k0 : K) :
  NoDup ks -> In k0 ks ->
  list_sum (map (fun k => if eqb k0 k then 1 else 0)%nat ks) = 1%nat.
Proof.
  induction 1 as [|a ks Hnot Hnd IH]; simpl; [tauto|].
  intros [-> | Hin].
  - assert (E : eqb k0 k0 = true) by now apply eqb_eq.
    rewrite E. f_equal.
    clear IH Hnd E. induction ks as [|b ks IH]; simpl; auto.
    destruct (eqb k0 b) eqn:E.
    + apply eqb_eq in E. subst. exfalso. apply Hnot. now left.
    + apply IH. intro H. apply Hnot. now right.
  - destruct (eqb k0 a) eqn:E.
    + apply eqb_eq in E. subst. contradiction.
    + now apply IH.
Qed.

(** Counting the rows key by key counts every row once. *)
Lemma count_partition (key : R -> K) (ks : list K) (df : list R) :
  NoDup ks -> (forall r, In r df -> In (key r) ks) ->
  list_sum
    (map (fun k => List.length (filter (fun r => eqb (key r) k) df)) ks)
  = List.length df.
Proof.
  intros Hnd. induction df as [|r df IH]; intros Hin; simpl.
  - clear. induction ks; simpl; auto.
  - change (S (List.length df)) with (1 + List.length df)%nat.
    rewrite <- IH by (intros; apply Hin; now right).
    rewrite <- (one_key_matches ks (key r) Hnd) by (apply Hin; now left).
    clear. induction ks as [|k ks IHk]; simpl; auto.
    destruct (eqb (key r) k); simpl; lia.
Qed.

(** The groups of [groupby] hold every row of the table exactly once. *)
Lemma groupby_sizes (key : R -> K) (df : list R) :
  list_sum (map (fun kg => List.length (snd kg)) (groupby eqb leb key df))
  = List.length df.
Proof.
  unfold groupby. rewrite map_map. simpl.
  apply count_partition.
  - eapply Permutation_NoDup;
      [apply Permutation_sym, sort_keys_perm | apply NoDup_unique].
  - intros r Hr.
    eapply Permutation_in; [apply Permutation_sym, sort_keys_perm|].
    apply In_unique. now apply in_map.
Qed.
End GroupByFacts.

Lemma string_eqb_eq (a b : string) : String.eqb a b = true <-> a = b.
Proof.
  apply String.eqb_eq.
Qed.

(** ** The analytics report *)

Section ReportFacts.
Import Pandas Analysis.
Variable ttest_ind : list Q -> list Q -> option (pyfloat * pyfloat).
Variable pearsonr : list Q -> list Q -> option (pyfloat * pyfloat).

(** What the script leaves when it reaches its end. *)
Lemma services_analysis_inv (df : Frame) (rep : Report) (df' : Frame) :
  services_analysis ttest_ind pearsonr df = Some (rep, df') ->
  df' = assign_wait_bucket df
          (map wait_bucket_of (map wait_time_min (records df)))
  /\ r_kpis rep = kpis df
  /\ r_dept_kpis rep = dept_kpis df
  /\ r_channel_stats rep = channel_stats df
  /\ ttest_ind (fcr_sat df) (non_fcr_sat df)
     = Some (r_t_stat rep, r_p_val rep)
  /\ pearsonr (map wait_time_min (records df))
              (map satisfaction_score (records df))
     = Some (r_corr rep, r_corr_p rep)
  /\ r_ttest_significant rep = ttest_flag (r_p_val rep)
  /\ r_corr_significant rep = corr_flag (r_corr rep) (r_corr_p rep)
  /\ r_sat_by_wait rep =
       map (fun kg => (fst kg, wait_round 2 (wait_agg (snd kg))))
           (groupby_observed wait_labels
              (map wait_bucket_of (map wait_time_min (records df)))
              (records df))
  /\ pivot_vol df = Some (r_pivot_vol rep).
Proof.
  unfold services_analysis, sat_by_wait.
  destruct (pivot_vol df) as [pv|]; [|discriminate].
  destruct (ttest_ind _ _) as [[t_stat p_val]|]; [|discriminate].
  destruct (pearsonr _ _) as [[corr corr_p]|]; [|discriminate].
  simpl. intro H. inversion H; subst; clear H. simpl.
  repeat split; reflexivity.
Qed.

(** The script reaches its end whenever the pivot has its four columns
    and the two scipy calls return. *)
Lemma services_analysis_returns (df : Frame)
  (pv : list (string * list (string * option nat)))
  (tp rp : pyfloat * pyfloat) :
  pivot_vol df = Some pv ->
  ttest_ind (fcr_sat df) (non_fcr_sat df) = Some tp ->
  pearsonr (map wait_time_min (records df))
           (map satisfaction_score (records df)) = Some rp ->
  exists rep df', services_analysis ttest_ind pearsonr df = Some (rep, df').
Proof.
  intros Hv Ht Hp. unfold services_analysis, sat_by_wait.
  rewrite Hv, Ht, Hp. destruct tp, rp. simpl. eexists. eexists.
  reflexivity.
Qed.

(** A table without rows has no report: the pivot has no column. *)
Lemma run_nonempty (table : list Interaction) (rep : Report) (df : Frame) :
  run ttest_ind pearsonr table = Some (rep, df) -> table <> [].
Proof.
  intros H E. subst table. discriminate H.
Qed.
End ReportFacts.







(** C10: the script leaves the rows it loaded as they were, every column
    of every row; its one change to the table in memory is the derived
    column [wait_bucket], the [pd.cut] of [wait_time_min]. *)
Theorem C10_report_keeps_input_columns
  (ttest_ind pearsonr : list Q -> list Q -> option (pyfloat * pyfloat))
  (df : Analysis.Frame) (rep : Analysis.Report) (df' : Analysis.Frame) :
  Analysis.services_analysis ttest_ind pearsonr df = Some (rep, df') ->
  Analysis.records df' = Analysis.records df
  /\ Analysis.wait_bucket df' =
       Some (map (fun r => Analysis.wait_bucket_of (wait_time_min r))
                 (Analysis.records df)).
Proof.
  intro Hrun. apply services_analysis_inv in Hrun.
  destruct Hrun as (-> & _). simpl.
  split; [reflexivity|]. now rewrite map_map.
Qed.

Lemma C10_report_keeps_input_columns_witness :
  exists rep df',
    Analysis.services_analysis stats_nan pearsonr_rising
      (Analysis.read_csv rising_table) = Some (rep, df')
    /\ Analysis.records df' = rising_table.
Proof.
  eexists. eexists. split; [vm_compute; reflexivity|].
  refine (proj1
            (C10_report_keeps_input_columns stats_nan pearsonr_rising
               (Analysis.read_csv rising_table) _ _ _)).
  vm_compute. reflexivity.
Defined.

(** *** Wait-time buckets *)

Ltac split_edges w :=
  repeat match goal with
         | |- context [Num.Qltb ?a w] =>
             let E := fresh "E" in
             destruct (Num.Qltb a w) eqn:E;
             [apply Qltb_lt in E | apply Qltb_ge in E]; simpl
         end.

(** Where [pd.cut] puts a wait time: in the bucket whose right-closed
    interval holds it. *)
Lemma wait_bucket_of_interval (w : Q) :
  (Analysis.wait_bucket_of w = Some "0-5 min" <-> 0 < w <= 5)
  /\ (Analysis.wait_bucket_of w = Some "5-10 min" <-> 5 < w <= 10)
  /\ (Analysis.wait_bucket_of w = Some "10-15 min" <-> 10 < w <= 15)
  /\ (Analysis.wait_bucket_of w = Some "15-20 min" <-> 15 < w <= 20)
  /\ (Analysis.wait_bucket_of w = Some "20+ min" <-> 20 < w <= 50)
  /\ (Analysis.wait_bucket_of w = None <-> w <= 0 \/ 50 < w).
Proof.
  unfold Analysis.wait_bucket_of, Pandas.cut, Analysis.wait_bins,
    Analysis.wait_labels.
  simpl. split_edges w;
    repeat split; intros; try discriminate; try reflexivity; try lra;
    try (left; lra); try (right; lra);
    repeat match goal with
           | H : _ /\ _ |- _ => destruct H
           | H : _ \/ _ |- _ => destruct H
           end; lra.
Qed.

Lemma has_label_interval (w : Q) :
  let b := Analysis.wait_bucket_of w in
  Pandas.has_label "0-5 min" b = in_interval 0 5 w
  /\ Pandas.has_label "5-10 min" b = in_interval 5 10 w
  /\ Pandas.has_label "10-15 min" b = in_interval 10 15 w
  /\ Pandas.has_label "15-20 min" b = in_interval 15 20 w
  /\ Pandas.has_label "20+ min" b = in_interval 20 50 w.
Proof.
  assert (B : forall c lo hi,
             (Analysis.wait_bucket_of w = Some c <-> lo < w <= hi) ->
             Pandas.has_label c (Analysis.wait_bucket_of w)
             = in_interval lo hi w).
  { intros c lo hi H. unfold Pandas.has_label, in_interval.
    destruct (Num.Qltb lo w && Qle_bool w hi) eqn:E.
    - apply andb_true_iff in E. destruct E as [E1 E2].
      apply Qltb_lt in E1. apply Qle_bool_iff in E2.
      rewrite (proj2 H (conj E1 E2)). apply String.eqb_refl.
    - destruct (Analysis.wait_bucket_of w) as [c'|] eqn:Ec; [|reflexivity].
      destruct (String.eqb c' c) eqn:Ecc; [|reflexivity].
      apply String.eqb_eq in Ecc. subst c'.
      destruct (proj1 H eq_refl) as [H1 H2].
      apply Qltb_lt in H1. apply Qle_bool_iff in H2.
      rewrite H1, H2 in E. discriminate. }
  destruct (wait_bucket_of_interval w) as (H1 & H2 & H3 & H4 & H5 & _).
  cbv zeta. repeat split; apply B; assumption.
Qed.

Lemma observed_rows {R} (f : R -> option string) (c : string) (df : list R) :
  map fst (filter (fun rc => Pandas.has_label c (snd rc))
                  (combine df (map f df)))
  = filter (fun r => Pandas.has_label c (f r)) df.
Proof.
  induction df as [|r df IH]; simpl; [reflexivity|].
  destruct (Pandas.has_label c (f r)); simpl; now rewrite IH.
Qed.

Lemma bucket_rows_observed (c : string) (lo hi : Q)
  (table : list Interaction) :
  (forall w, Pandas.has_label c (Analysis.wait_bucket_of w)
             = in_interval lo hi w) ->
  map fst
    (filter (fun rc => Pandas.has_label c (snd rc))
       (combine table (map Analysis.wait_bucket_of
                         (map wait_time_min table))))
  = Spec.bucket_rows lo hi table.
Proof.
  intro H. rewrite map_map.
  rewrite (observed_rows
             (fun r => Analysis.wait_bucket_of (wait_time_min r))).
  unfold Spec.bucket_rows. apply filter_ext. intro r. apply H.
Qed.

(** The view the script computes is the view over right-closed
    intervals. *)
Lemma sat_by_wait_refines
  (ttest_ind pearsonr : list Q -> list Q -> option (pyfloat * pyfloat))
  (table : list Interaction) (rep : Analysis.Report) (df : Analysis.Frame) :
  Analysis.run ttest_ind pearsonr table = Some (rep, df) ->
  Analysis.r_sat_by_wait rep = Spec.sat_by_wait table.
Proof.
  intro Hrun. apply services_analysis_inv in Hrun.
  destruct Hrun as (_ & _ & _ & _ & _ & _ & _ & _ & Hv & _).
  rewrite Hv. simpl Analysis.records.
  unfold Pandas.groupby_observed, Spec.sat_by_wait, Analysis.wait_labels,
    Spec.wait_intervals.
  cbn [flat_map fst snd].
  rewrite (bucket_rows_observed "0-5 min" 0 5)
    by (intro w; apply (has_label_interval w)).
  rewrite (bucket_rows_observed "5-10 min" 5 10)
    by (intro w; apply (has_label_interval w)).
  rewrite (bucket_rows_observed "10-15 min" 10 15)
    by (intro w; apply (has_label_interval w)).
  rewrite (bucket_rows_observed "15-20 min" 15 20)
    by (intro w; apply (has_label_interval w)).
  rewrite (bucket_rows_observed "20+ min" 20 50)
    by (intro w; apply (has_label_interval w)).
  rewrite !map_app.
  assert (P : forall c g,
             map (fun kg : string * list Interaction =>
                    (fst kg,
                     Analysis.wait_round 2 (Analysis.wait_agg (snd kg))))
                 match g with [] => [] | r :: l => [(c, r :: l)] end
             = match g with
               | [] => []
               | r :: l =>
                   [(c, {| Analysis.ws_count := List.length (r :: l);
                           Analysis.ws_avg_sat :=
                             py_round
                               (mean (map satisfaction_score (r :: l))) 2 |})]
               end).
  { intros c [|r g]; [reflexivity|].
    simpl map. unfold Analysis.wait_round, Analysis.wait_agg. simpl fst.
    simpl snd. cbn [Analysis.ws_count Analysis.ws_avg_sat].
    now rewrite length_map. }
  rewrite !P. reflexivity.
Qed.

(** Rounding to two decimals moves a number by less than one
    hundredth. *)
Lemma round_2_close (x : Q) : Qabs (Num.round x 2 - x) < 1 # 100.
Proof.
  pose proof (round_error x 2) as H.
  assert (E : (1 # 2) / Num.scale 2 == 5 # 1000) by reflexivity.
  rewrite E in H. eapply Qle_lt_trans; [exact H | reflexivity].
Qed.

Lemma mean_to_2_decimals_round (x : Q) (l : list Q) :
  Spec.mean_to_2_decimals (py_round (mean (x :: l)) 2) (x :: l).
Proof.
  unfold Spec.mean_to_2_decimals, mean, py_round. cbn [option_map].
  eexists. eexists. split; [reflexivity|]. split; [reflexivity|].
  apply round_2_close.
Qed.

(** The view over right-closed intervals has one entry for each bucket
    that has rows, in bucket order. *)
Lemma view_entries (table : list Interaction)
  (bs : list (string * (Q * Q))) :
  Forall2 (Spec.bucket_entry table) (filter (Spec.has_rows table) bs)
    (flat_map
       (fun b =>
          match Spec.bucket_rows (fst (snd b)) (snd (snd b)) table with
          | [] => []
          | g =>
              [(fst b,
                {| Analysis.ws_count := List.length g;
                   Analysis.ws_avg_sat :=
                     py_round (mean (map satisfaction_score g)) 2 |})]
          end)
       bs).
Proof.
  induction bs as [|b bs IH]; [constructor|].
  cbn [filter flat_map]. unfold Spec.has_rows at 1.
  destruct (Spec.bucket_rows (fst (snd b)) (snd (snd b)) table)
    as [|r g] eqn:E; [exact IH|].
  cbn [app]. constructor; [|exact IH].
  unfold Spec.bucket_entry. cbv zeta. rewrite E.
  cbn [fst snd Analysis.ws_count Analysis.ws_avg_sat].
  split; [reflexivity|]. split; [reflexivity|].
  cbn [map]. apply mean_to_2_decimals_round.
Qed.

(** C1, as stated, fails: a row whose wait is exactly 5, 10, 15 or 20
    minutes is counted in the bucket that ends there, not in the one that
    starts there.  On a table of twenty rows with five rows on each of
    these four waits, the view has five rows in "0-5 min" and no
    "20+ min" entry. *)
Lemma C1_edge_rows_counterexample :
  exists rep df,
    Analysis.run stats_nan stats_nan edge_table = Some (rep, df)
    /\ map wait_time_min edge_table = List.concat (repeat [5; 10; 15; 20] 5)
    /\ Analysis.wait_bucket df =
         Some (List.concat
                 (repeat [Some "0-5 min"; Some "5-10 min";
                          Some "10-15 min"; Some "15-20 min"] 5))
    /\ map (fun kv => (fst kv, Analysis.ws_count (snd kv)))
           (Analysis.r_sat_by_wait rep) =
         [("0-5 min", 5%nat); ("5-10 min", 5%nat); ("10-15 min", 5%nat);
          ("15-20 min", 5%nat)]
    /\ map Spec.left_closed_bucket (map wait_time_min edge_table) =
         List.concat
           (repeat [Some "5-10 min"; Some "10-15 min"; Some "15-20 min";
                    Some "20+ min"] 5).
Proof.
  eexists. eexists. split; [vm_compute; reflexivity|].
  repeat split; reflexivity.
Qed.

(** C1 (amended): for every input table whose wait times are all
    positive and whose satisfaction scores are on the scale from 1 to 5,
    the satisfaction-by-wait view partitions the rows by [wait_time_min]
    into the five right-closed buckets (0,5], (5,10], (10,15], (15,20],
    (20,50]: a row is counted in "0-5 min" exactly when its wait is at
    most 5, in "5-10 min" exactly when 5 < wait <= 10, and so on, the
    last bucket covering 20 < wait <= 50; the view has one entry for each
    bucket that has rows, in bucket order, holding the row count and the
    mean [satisfaction_score] of the bucket's rows to two decimals (a
    number less than 0.01 away from the mean), and a bucket without rows
    is left out. *)
Theorem C1_sat_by_wait_buckets
  (ttest_ind pearsonr : list Q -> list Q -> option (pyfloat * pyfloat))
  (table : list Interaction) (rep : Analysis.Report) (df : Analysis.Frame) :
  Analysis.run ttest_ind pearsonr table = Some (rep, df) ->
  Forall (fun r => 0 < wait_time_min r) table ->
  Forall (fun r => 1 <= satisfaction_score r <= 5) table ->
  Analysis.wait_bucket df =
    Some (map (fun r => Analysis.wait_bucket_of (wait_time_min r)) table)
  /\ Forall (fun r =>
               let w := wait_time_min r in
               let b := Analysis.wait_bucket_of w in
               (b = Some "0-5 min" <-> w <= 5)
               /\ (b = Some "5-10 min" <-> 5 < w <= 10)
               /\ (b = Some "10-15 min" <-> 10 < w <= 15)
               /\ (b = Some "15-20 min" <-> 15 < w <= 20)
               /\ (b = Some "20+ min" <-> 20 < w <= 50)) table
  /\ Forall2 (Spec.bucket_entry table)
       (filter (Spec.has_rows table) Spec.wait_intervals)
       (Analysis.r_sat_by_wait rep).
Proof.
  intros Hrun Hpos _. split; [|split].
  - apply services_analysis_inv in Hrun. destruct Hrun as (-> & _).
    simpl. now rewrite map_map.
  - apply Forall_forall. intros r Hr. cbv zeta.
    rewrite Forall_forall in Hpos. specialize (Hpos r Hr).
    destruct (wait_bucket_of_interval (wait_time_min r))
      as (H1 & H2 & H3 & H4 & H5 & _).
    repeat split; try apply H2; try apply H3; try apply H4; try apply H5;
      try assumption.
    + intro H. now apply H1.
    + intro H. apply H1. now split.
  - rewrite (sat_by_wait_refines ttest_ind pearsonr table rep df Hrun).
    apply view_entries.
Qed.

Lemma C1_sat_by_wait_buckets_witness :
  exists rep df,
    Analysis.run stats_nan stats_nan edge_table = Some (rep, df)
    /\ Forall (fun r => 0 < wait_time_min r) edge_table
    /\ Forall (fun r => 1 <= satisfaction_score r <= 5) edge_table
    /\ Forall2 (Spec.bucket_entry edge_table)
         (filter (Spec.has_rows edge_table) Spec.wait_intervals)
         (Analysis.r_sat_by_wait rep).
Proof.
  assert (Hpos : Forall (fun r => 0 < wait_time_min r) edge_table)
    by (repeat constructor).
  assert (Hsat : Forall (fun r => 1 <= satisfaction_score r <= 5)
                   edge_table)
    by (repeat constructor; discriminate).
  eexists. eexists. split; [vm_compute; reflexivity|].
  split; [exact Hpos|]. split; [exact Hsat|].
  refine (proj2 (proj2
            (C1_sat_by_wait_buckets stats_nan stats_nan edge_table _ _
               _ Hpos Hsat))).
  vm_compute. reflexivity.
Defined.

Lemma filter_none {A} (f : A -> bool) (l : list A) :
  Forall (fun x => f x = false) l -> filter f l = [].
Proof.
  induction 1 as [|x l Hx _ IH]; simpl; [reflexivity|]. now rewrite Hx.
Qed.

Lemma filter_all {A} (f : A -> bool) (l : list A) :
  Forall (fun x => f x = true) l -> filter f l = l.
Proof.
  induction 1 as [|x l Hx _ IH]; simpl; [reflexivity|].
  rewrite Hx. now f_equal.
Qed.

Lemma in_interval_true (lo hi w : Q) :
  lo < w -> w <= hi -> in_interval lo hi w = true.
Proof.
  intros H1 H2. unfold in_interval. apply andb_true_iff. split.
  - now apply Qltb_lt.
  - now apply Qle_bool_iff.
Qed.

Lemma in_interval_above (lo hi w : Q) : hi < w -> in_interval lo hi w = false.
Proof.
  intro H. unfold in_interval. apply andb_false_iff. right.
  destruct (Qle_bool w hi) eqn:E; [|reflexivity].
  apply Qle_bool_iff in E. lra.
Qed.

(** C3, as stated, fails on two counts.  A row that waits longer than 50
    minutes is in no bucket: on a table of twenty rows, all above 20
    minutes and one of them at 60, the "20+ min" entry counts nineteen
    rows.  And the mean the view holds is rounded to two decimals while
    the mean of the table is not: on twenty-one rows of 25 minutes the
    view holds 3.2 and the overview 671/210. *)
Lemma C3_counterexample :
  (exists rep df ws,
      Analysis.run stats_nan stats_nan over_fifty_table = Some (rep, df)
      /\ Forall (fun r => 20 < wait_time_min r) over_fifty_table
      /\ Analysis.r_sat_by_wait rep = [("20+ min", ws)]
      /\ Analysis.ws_count ws = 19%nat
      /\ Analysis.total (Analysis.r_kpis rep) = 20%nat)
  /\ (exists rep df v m,
         Analysis.run stats_nan stats_nan long_wait_table = Some (rep, df)
         /\ Forall (fun r => 20 < wait_time_min r) long_wait_table
         /\ map (fun kv => (fst kv, Analysis.ws_avg_sat (snd kv)))
                (Analysis.r_sat_by_wait rep) = [("20+ min", Some v)]
         /\ Analysis.avg_sat (Analysis.r_kpis rep) = Some m
         /\ v == 32 # 10 /\ m == 671 # 210 /\ ~ v == m).
Proof.
  split.
  - eexists. eexists. eexists. split; [vm_compute; reflexivity|].
    split; [repeat constructor|].
    split; [reflexivity|]. split; reflexivity.
  - eexists. eexists. eexists. eexists.
    split; [vm_compute; reflexivity|].
    split; [repeat constructor|].
    split; [reflexivity|]. split; [reflexivity|].
    split; [reflexivity|]. split; [reflexivity|].
    intro H. vm_compute in H. discriminate.
Qed.

(** C3 (amended): for every input table whose rows all have
    20 < wait_time_min <= 50 and a satisfaction score on the scale from
    1 to 5, the satisfaction-by-wait view has exactly one bucket,
    "20+ min"; its count is the total row count and its mean satisfaction
    is the mean [satisfaction_score] of the whole table to two decimals,
    less than 0.01 away from the overview's average satisfaction.  The
    four other buckets are absent. *)
Theorem C3_all_rows_in_last_bucket
  (ttest_ind pearsonr : list Q -> list Q -> option (pyfloat * pyfloat))
  (table : list Interaction) (rep : Analysis.Report) (df : Analysis.Frame) :
  Analysis.run ttest_ind pearsonr table = Some (rep, df) ->
  Forall (fun r => 20 < wait_time_min r <= 50) table ->
  Forall (fun r => 1 <= satisfaction_score r <= 5) table ->
  exists ws v m,
    Analysis.r_sat_by_wait rep = [("20+ min", ws)]
    /\ Analysis.ws_count ws = List.length table
    /\ Analysis.total (Analysis.r_kpis rep) = List.length table
    /\ Analysis.ws_avg_sat ws = Some v
    /\ Analysis.avg_sat (Analysis.r_kpis rep) = Some m
    /\ Qabs (v - m) < 1 # 100.
Proof.
  intros Hrun Hall _.
  pose proof (run_nonempty _ _ _ _ _ Hrun) as Hne.
  rewrite (sat_by_wait_refines _ _ _ _ _ Hrun).
  apply services_analysis_inv in Hrun.
  destruct Hrun as (_ & Hk & _). rewrite Hk.
  unfold Spec.sat_by_wait, Spec.wait_intervals. cbn [flat_map fst snd].
  assert (Hlow : forall lo hi, hi <= 20 -> Spec.bucket_rows lo hi table = []).
  { intros lo hi Hhi. apply filter_none.
    eapply Forall_impl; [|exact Hall].
    intros r [H1 _]. apply in_interval_above. lra. }
  assert (Hlast : Spec.bucket_rows 20 50 table = table).
  { apply filter_all.
    eapply Forall_impl; [|exact Hall].
    intros r [H1 H2]. now apply in_interval_true. }
  rewrite !Hlow by lra. rewrite Hlast.
  destruct table as [|r table]; [congruence|].
  cbn [app]. eexists. eexists. eexists.
  split; [reflexivity|].
  cbn [Analysis.ws_count Analysis.ws_avg_sat Analysis.kpis Analysis.total
       Analysis.avg_sat Analysis.read_csv Analysis.records Analysis.len].
  split; [reflexivity|]. split; [reflexivity|].
  cbn [map]. unfold mean, py_round. cbn [option_map].
  split; [reflexivity|]. split; [reflexivity|].
  apply round_2_close.
Qed.

Lemma C3_all_rows_in_last_bucket_witness :
  exists rep df,
    Analysis.run stats_nan stats_nan long_wait_table = Some (rep, df)
    /\ Forall (fun r => 20 < wait_time_min r <= 50) long_wait_table
    /\ Forall (fun r => 1 <= satisfaction_score r <= 5) long_wait_table
    /\ exists ws v m,
         Analysis.r_sat_by_wait rep = [("20+ min", ws)]
         /\ Analysis.ws_count ws = List.length long_wait_table
         /\ Analysis.total (Analysis.r_kpis rep)
            = List.length long_wait_table
         /\ Analysis.ws_avg_sat ws = Some v
         /\ Analysis.avg_sat (Analysis.r_kpis rep) = Some m
         /\ Qabs (v - m) < 1 # 100.
Proof.
  assert (Hall : Forall (fun r => 20 < wait_time_min r <= 50)
                   long_wait_table)
    by (repeat constructor; simpl; lra).
  assert (Hsat : Forall (fun r => 1 <= satisfaction_score r <= 5)
                   long_wait_table)
    by (repeat constructor; discriminate).
  eexists. eexists. split; [vm_compute; reflexivity|].
  split; [exact Hall|]. split; [exact Hsat|].
  refine (C3_all_rows_in_last_bucket stats_nan stats_nan long_wait_table
            _ _ _ Hall Hsat).
  vm_compute. reflexivity.
Defined.

(** *** Volumes and shares *)

Lemma of_nat_plus (a b : nat) :
  Analysis.of_nat (a + b) == Analysis.of_nat a + Analysis.of_nat b.
Proof.
  unfold Analysis.of_nat. rewrite Nat2Z.inj_add, inject_Z_plus. reflexivity.
Qed.

Lemma sum_ext {A} (f g : A -> Q) (l : list A) :
  (forall x, f x == g x) -> Num.sum (map f l) == Num.sum (map g l).
Proof.
  intro H. induction l as [|x l IH]; simpl; [reflexivity|].
  now rewrite H, IH.
Qed.

Lemma sum_scaled {A} (f : A -> nat) (c : Q) (l : list A) :
  Num.sum (map (fun x => Analysis.of_nat (f x) * c) l)
  == Analysis.of_nat (list_sum (map f l)) * c.
Proof.
  induction l as [|x l IH]; simpl.
  - unfold Analysis.of_nat. simpl. ring.
  - rewrite IH, of_nat_plus. ring.
Qed.

(** Rounding each term moves a sum by at most half a unit of the last
    decimal per term. *)
Lemma sum_round_error {A} (f : A -> Q) (d : nat) (l : list A) :
  Qabs (Num.sum (map (fun x => Num.round (f x) d) l) - Num.sum (map f l))
  <= Analysis.of_nat (List.length l) * ((1 # 2) / Num.scale d).
Proof.
  induction l as [|x l IH]; simpl List.length; simpl map; simpl Num.sum.
  - unfold Analysis.of_nat. simpl inject_Z. rewrite Qmult_0_l.
    apply Qle_refl.
  - change (S (List.length l)) with (1 + List.length l)%nat.
    rewrite of_nat_plus.
    pose proof (round_error (f x) d) as Hx.
    set (e := (1 # 2) / Num.scale d) in *.
    set (rx := Num.round (f x) d) in *.
    set (rs := Num.sum (map (fun x0 => Num.round (f x0) d) l)) in *.
    set (s := Num.sum (map f l)) in *.
    set (n := Analysis.of_nat (List.length l)) in *.
    setoid_replace (rx + rs - (f x + s)) with ((rx - f x) + (rs - s)) by ring.
    eapply Qle_trans; [apply Qabs_triangle|].
    change (Analysis.of_nat 1) with 1.
    setoid_replace ((1 + n) * e) with (e + n * e) by ring.
    apply Qplus_le_compat; assumption.
Qed.

Lemma volumes_sum_to_total (table : list Interaction) :
  list_sum (map (fun kv => Analysis.dk_volume (snd kv))
                (Analysis.dept_kpis (Analysis.read_csv table)))
  = List.length table.
Proof.
  unfold Analysis.dept_kpis, Analysis.by_string. rewrite map_map.
  simpl.
  rewrite <- (groupby_sizes String.eqb String.leb string_eqb_eq
                department table).
  f_equal. apply map_ext. intro kg. apply length_map.
Qed.

Lemma shares_sum_to_100 (table : list Interaction) :
  table <> [] ->
  Num.sum (map (fun kv => Analysis.cs_pct (snd kv))
               (Analysis.channel_stats_agg (Analysis.read_csv table)))
  == 100.
Proof.
  intro Hne.
  unfold Analysis.channel_stats_agg, Analysis.by_string. rewrite map_map.
  simpl. unfold Analysis.len. simpl.
  set (n := Analysis.of_nat (List.length table)).
  assert (Hn : ~ n == 0).
  { unfold n, Analysis.of_nat. destruct table; [congruence|].
    simpl List.length. intro H.
    assert (H0 : (inject_Z (Z.of_nat (S (List.length table))) == inject_Z 0))
      by exact H.
    rewrite inject_Z_injective in H0. lia. }
  rewrite (sum_ext _ (fun kg : string * list Interaction =>
                        Analysis.of_nat (List.length (snd kg)) * (/ n * 100)))
    by (intro kg; simpl; fold n; field; exact Hn).
  rewrite (sum_scaled (fun kg : string * list Interaction =>
                         List.length (snd kg))).
  rewrite (groupby_sizes String.eqb String.leb string_eqb_eq channel table).
  fold n. field. exact Hn.
Qed.

(** A table that has rows has at least one channel. *)
Lemma channel_stats_nonempty (table : list Interaction) :
  table <> [] ->
  (0 < List.length (Analysis.channel_stats (Analysis.read_csv table)))%nat.
Proof.
  intro Hne. unfold Analysis.channel_stats, Analysis.channel_stats_agg,
    Analysis.by_string.
  rewrite !length_map. simpl Analysis.records.
  pose proof (groupby_sizes String.eqb String.leb string_eqb_eq channel
                table) as Hs.
  destruct (Pandas.groupby String.eqb String.leb channel table).
  - simpl in Hs. destruct table; [congruence | discriminate].
  - simpl. lia.
Qed.

(** C8, as stated, fails: the shares the channel view holds are rounded to
    two decimals, and three channels of seven rows each, in a table of
    twenty-one rows, give 33.33 three times, 99.99 in all; the gap of
    0.01 is no floating-point error. *)
Lemma C8_rounded_shares_counterexample :
  exists rep df,
    Analysis.run stats_nan stats_nan three_channel_table = Some (rep, df)
    /\ map (fun kv => (fst kv, Analysis.cs_volume (snd kv)))
           (Analysis.r_channel_stats rep)
       = [("Email", 7%nat); ("Phone", 7%nat); ("Walk-In", 7%nat)]
    /\ Forall (fun kv => Analysis.cs_pct (snd kv) == 3333 # 100)
              (Analysis.r_channel_stats rep)
    /\ Num.sum (map (fun kv => Analysis.cs_pct (snd kv))
                    (Analysis.r_channel_stats rep)) == 9999 # 100
    /\ ~ Qabs (Num.sum (map (fun kv => Analysis.cs_pct (snd kv))
                            (Analysis.r_channel_stats rep)) - 100)
         <= 1 # 1000000000.
Proof.
  eexists. eexists. split; [vm_compute; reflexivity|].
  split; [reflexivity|].
  split; [repeat constructor|].
  split; [reflexivity|].
  intro H. vm_compute in H. apply H. reflexivity.
Qed.

(** C8 (amended): for every input table the per-department volume counts
    of the department view sum to the total row count, and the
    per-channel percentage shares of the channel view, which holds them
    rounded to two decimals, sum to 100 to within 0.01 per channel. *)
Theorem C8_volume_and_share_totals
  (ttest_ind pearsonr : list Q -> list Q -> option (pyfloat * pyfloat))
  (table : list Interaction) (rep : Analysis.Report) (df : Analysis.Frame) :
  Analysis.run ttest_ind pearsonr table = Some (rep, df) ->
  list_sum (map (fun kv => Analysis.dk_volume (snd kv))
                (Analysis.r_dept_kpis rep))
  = List.length table
  /\ Qabs (Num.sum (map (fun kv => Analysis.cs_pct (snd kv))
                        (Analysis.r_channel_stats rep)) - 100)
     < Analysis.of_nat (List.length (Analysis.r_channel_stats rep))
       * (1 # 100).
Proof.
  intro Hrun.
  pose proof (run_nonempty _ _ _ _ _ Hrun) as Hne.
  apply services_analysis_inv in Hrun.
  destruct Hrun as (_ & _ & Hd & Hc & _).
  split.
  - rewrite Hd. apply volumes_sum_to_total.
  - rewrite Hc.
    pose proof (channel_stats_nonempty table Hne) as Hk.
    revert Hk. unfold Analysis.channel_stats.
    rewrite map_map, length_map.
    cbn [snd Analysis.channel_round Analysis.cs_pct].
    intro Hk.
    pose proof (sum_round_error
                  (fun kv : string * Analysis.ChannelStat =>
                     Analysis.cs_pct (snd kv)) 2
                  (Analysis.channel_stats_agg (Analysis.read_csv table)))
      as Herr.
    assert (E : (1 # 2) / Num.scale 2 == 5 # 1000) by reflexivity.
    rewrite E in Herr.
    rewrite (shares_sum_to_100 table Hne) in Herr.
    eapply Qle_lt_trans; [exact Herr|].
    assert (Hq : 0 < Analysis.of_nat
                       (List.length
                          (Analysis.channel_stats_agg
                             (Analysis.read_csv table)))).
    { unfold Analysis.of_nat. change 0 with (inject_Z 0).
      rewrite <- Zlt_Qlt. lia. }
    revert Hq.
    generalize (Analysis.of_nat
                  (List.length
                     (Analysis.channel_stats_agg
                        (Analysis.read_csv table)))).
    intros k Hq. lra.
Qed.

Lemma C8_volume_and_share_totals_witness :
  exists rep df,
    Analysis.run stats_nan stats_nan three_channel_table = Some (rep, df)
    /\ list_sum (map (fun kv => Analysis.dk_volume (snd kv))
                     (Analysis.r_dept_kpis rep)) = 21%nat.
Proof.
  eexists. eexists. split; [vm_compute; reflexivity|].
  refine (proj1 (C8_volume_and_share_totals stats_nan stats_nan
                   three_channel_table _ _ _)).
  vm_compute. reflexivity.
Defined.

(** ** The data generator *)

(** *** Building the table *)

Lemma all_some_cons_inv {A} (o : option A) (l : list (option A))
  (l' : list A) :
  Generator.all_some (o :: l) = Some l' ->
  exists x t, o = Some x /\ Generator.all_some l = Some t /\ l' = x :: t.
Proof.
  simpl. destruct o as [x|]; [|discriminate].
  destruct (Generator.all_some l) as [t|]; [|discriminate].
  simpl. intro H. inversion H. eauto.
Qed.

(** A column whose entry [i] is the field of row [i] is the field read off
    the rows. *)
Lemma column_of_rows {A B} (f : nat -> option A) (proj : A -> B) :
  forall (n s : nat) (df : list A) (col : list B),
    Generator.all_some (map f (seq s n)) = Some df ->
    List.length col = n ->
    (forall i r, f (s + i)%nat = Some r -> nth_error col i = Some (proj r)) ->
    map proj df = col.
Proof.
  induction n as [|n IH]; intros s df col Hdf Hlen Hcol.
  - simpl in Hdf. inversion Hdf. destruct col; [reflexivity | discriminate].
  - simpl seq in Hdf. simpl map in Hdf.
    apply all_some_cons_inv in Hdf. destruct Hdf as (r & t & Hr & Ht & ->).
    destruct col as [|b col]; [discriminate|].
    simpl. f_equal.
    + specialize (Hcol O r). rewrite Nat.add_0_r in Hcol.
      specialize (Hcol Hr). simpl in Hcol. now inversion Hcol.
    + apply (IH (S s)); [exact Ht | now inversion Hlen |].
      intros i r' Hr'. apply (Hcol (S i)).
      now rewrite Nat.add_succ_r.
Qed.

Lemma all_some_length {A} (l : list (option A)) (l' : list A) :
  Generator.all_some l = Some l' -> List.length l' = List.length l.
Proof.
  revert l'. induction l as [|o l IH]; intros l' H.
  - inversion H. reflexivity.
  - apply all_some_cons_inv in H. destruct H as (x & t & _ & Ht & ->).
    simpl. f_equal. now apply IH.
Qed.

Lemma row_at_inv (ids : list Z) (c : Generator.Columns) (sat : list Q)
  (esc cb : list string) (i : nat) (r : Interaction) :
  Generator.row_at ids c sat esc cb i = Some r ->
  nth_error (Generator.c_departments c) i = Some (department r)
  /\ nth_error (Generator.c_wait_time_min c) i = Some (wait_time_min r)
  /\ nth_error (Generator.c_service_time_min c) i
     = Some (service_time_min r)
  /\ nth_error (Generator.c_resolution c) i = Some (resolution r)
  /\ nth_error esc i = Some (escalated r)
  /\ nth_error cb i = Some (callback_required r)
  /\ nth_error sat i = Some (satisfaction_score r).
Proof.
  unfold Generator.row_at.
  repeat match goal with
         | |- context [match nth_error ?l i with _ => _ end] =>
             destruct (nth_error l i); [|discriminate]
         end.
  intro H. inversion H. simpl. repeat split; reflexivity.
Qed.

(** The table holds the columns it was built from. *)
Lemma make_DataFrame_columns (ids : list Z) (c : Generator.Columns)
  (sat : list Q) (esc cb : list string) (df : Generator.DataFrame) :
  Generator.make_DataFrame ids c sat esc cb = Some df ->
  List.length df = List.length ids
  /\ map department df = Generator.c_departments c
  /\ map wait_time_min df = Generator.c_wait_time_min c
  /\ map service_time_min df = Generator.c_service_time_min c
  /\ map resolution df = Generator.c_resolution c
  /\ map escalated df = esc
  /\ map callback_required df = cb
  /\ map satisfaction_score df = sat.
Proof.
  unfold Generator.make_DataFrame.
  destruct (forallb _ _) eqn:Hlen; [|discriminate].
  intro Hdf. simpl in Hlen. rewrite !andb_true_iff in Hlen.
  rewrite !Nat.eqb_eq in Hlen.
  destruct Hlen as (Hd & _ & _ & _ & _ & _ & _ & _ & _ & Hw & Hs & Hr
                    & He & Hc & Hsat & _).
  split.
  - rewrite (all_some_length _ _ Hdf), length_map. apply length_seq.
  - repeat split;
      (eapply column_of_rows; [exact Hdf | symmetry; eassumption |]);
      intros i r Hrow; apply row_at_inv in Hrow; simpl in Hrow; tauto.
Qed.

(** Rows against columns computed entry by entry. *)
Lemma rows_of_map {R A B} (f : R -> B) (h : A -> B) (df : list R) :
  forall l : list A,
    map f df = map h l -> Forall (fun r => exists x, f r = h x) df.
Proof.
  induction df as [|r df IH]; intros l H; [constructor|].
  destruct l as [|x l]; [discriminate|].
  simpl in H. inversion H. constructor; eauto.
Qed.

Lemma rows_of_zip_with {R A B C} (f : R -> C) (h : A -> B -> C)
  (k : R -> A) (df : list R) :
  forall l : list B,
    map f df = Generator.zip_with h (map k df) l ->
    Forall (fun r => exists y, f r = h (k r) y) df.
Proof.
  induction df as [|r df IH]; intros l H; [constructor|].
  destruct l as [|y l]; [discriminate|].
  simpl in H. inversion H. constructor; eauto.
Qed.

Lemma rows_of_where {R B} (f : R -> B) (k : R -> string) (value : string)
  (x y : B) (df : list R) :
  map f df = Generator.where_eq (map k df) value x y ->
  Forall (fun r => f r = if String.eqb (k r) value then x else y) df.
Proof.
  unfold Generator.where_eq. rewrite map_map.
  induction df as [|r df IH]; intro H; [constructor|].
  simpl in H. inversion H. constructor; auto.
Qed.

(** *** The script *)

Section GeneratorFacts.
Import Generator.
Variable RandomState : Type.
Variable seed : Z -> RandomState.
Variable random_sample : RandomState -> Q * RandomState.
Variable randint : nat -> RandomState -> nat * RandomState.
Variable standard_exponential : RandomState -> Q * RandomState.
Variable standard_normal : RandomState -> Q * RandomState.

Local Abbreviation sample_columns :=
  (sample_columns RandomState random_sample randint standard_exponential
     standard_normal).
Local Abbreviation finish :=
  (finish RandomState random_sample standard_normal).
Local Abbreviation generate_from_departments :=
  (generate_from_departments RandomState random_sample randint
     standard_exponential standard_normal).
Local Abbreviation generate_data :=
  (generate_data RandomState seed random_sample randint
     standard_exponential standard_normal).

Lemma bind_Some {A B} (m : M RandomState A) (f : A -> M RandomState B)
  (g : RandomState) (r : B * RandomState) :
  bind RandomState m f g = Some r ->
  exists a g1, m g = Some (a, g1) /\ f a g1 = Some r.
Proof.
  unfold bind. destruct (m g) as [[a g1]|]; [|discriminate]. eauto.
Qed.

Lemma lift_Some {A} (o : option A) (g : RandomState)
  (r : A * RandomState) :
  lift RandomState o g = Some r -> o = Some (fst r) /\ snd r = g.
Proof.
  unfold lift. destruct o; [|discriminate].
  intro H. inversion H. auto.
Qed.

Ltac bind_inv H :=
  let a := fresh "a" in
  let g := fresh "g" in
  let E := fresh "E" in
  apply bind_Some in H; destruct H as (a & g & E & H);
  cbv beta zeta in H.

(** The table the last part of the script builds. *)
Lemma finish_inv (n : nat) (c : Columns) (fcr_boost : list Q)
  (g g' : RandomState) (df : DataFrame) :
  finish n c fcr_boost g = Some (df, g') ->
  exists raw_sat yes_no,
    make_DataFrame (inquiry_ids n) c
      (clip_round raw_sat 1 5)
      (where_eq (c_resolution c) "Escalated to Department" "Yes" "No")
      (zip_with (fun r yn => if String.eqb r "Follow-Up Required"
                             then yn else "No")
                (c_resolution c) yes_no)
    = Some df.
Proof.
  intro H. unfold Generator.finish in H.
  bind_inv H. bind_inv H. apply lift_Some in H. destruct H as [H _].
  eauto.
Qed.

Lemma sample_columns_inv (n : nat) (departments : list string)
  (g g' : RandomState) (c : Columns) :
  sample_columns n departments g = Some (c, g') ->
  c_departments c = departments
  /\ (exists raw, c_wait_time_min c = clip_round raw 0 45)
  /\ (exists raw, c_service_time_min c = clip_round raw 2 40).
Proof.
  intro H. unfold Generator.sample_columns in H.
  repeat bind_inv H.
  unfold ret in H. inversion H. simpl. eauto.
Qed.

(** What every run of the script that writes a table went through. *)
Lemma generate_data_inv (seed_value : Z) (n : nat) (g g' : RandomState)
  (df : DataFrame) :
  generate_data seed_value n g = Some (df, g') ->
  exists c raw_sat yes_no,
    make_DataFrame (inquiry_ids n) c
      (clip_round raw_sat 1 5)
      (where_eq (c_resolution c) "Escalated to Department" "Yes" "No")
      (zip_with (fun r yn => if String.eqb r "Follow-Up Required"
                             then yn else "No")
                (c_resolution c) yes_no)
    = Some df
    /\ (exists raw, c_wait_time_min c = clip_round raw 0 45)
    /\ (exists raw, c_service_time_min c = clip_round raw 2 40).
Proof.
  intro H. unfold Generator.generate_data in H.
  bind_inv H. bind_inv H.
  unfold Generator.generate_from_departments in H. bind_inv H.
  apply finish_inv in H. destruct H as (raw_sat & yes_no & H).
  apply sample_columns_inv in E1. destruct E1 as (_ & Hw & Hs).
  exists a1, raw_sat, yes_no. auto.
Qed.

(** C4: in every generated row, [escalated] is "Yes" if and only if
    [resolution] is "Escalated to Department". *)
Theorem C4_escalated_iff_resolution (seed_value : Z) (n : nat)
  (g g' : RandomState) (df : DataFrame) :
  generate_data seed_value n g = Some (df, g') ->
  Forall (fun r => escalated r = "Yes"
                   <-> resolution r = "Escalated to Department") df.
Proof.
  intro H. apply generate_data_inv in H.
  destruct H as (c & raw_sat & yes_no & H & _).
  apply make_DataFrame_columns in H.
  destruct H as (_ & _ & _ & _ & Hr & He & _).
  rewrite <- Hr in He. apply rows_of_where in He.
  eapply Forall_impl; [|exact He].
  intros r Hrow. simpl in Hrow. rewrite Hrow.
  destruct (String.eqb (resolution r) "Escalated to Department") eqn:E.
  - apply String.eqb_eq in E. tauto.
  - apply String.eqb_neq in E. split; [discriminate | tauto].
Qed.

(** C9, the implication: in every generated row, [callback_required]
    being "Yes" implies that [resolution] is "Follow-Up Required". *)
Lemma callback_implies_follow_up (seed_value : Z) (n : nat)
  (g g' : RandomState) (df : DataFrame) :
  generate_data seed_value n g = Some (df, g') ->
  Forall (fun r => callback_required r = "Yes"
                   -> resolution r = "Follow-Up Required") df.
Proof.
  intro H. apply generate_data_inv in H.
  destruct H as (c & raw_sat & yes_no & H & _).
  apply make_DataFrame_columns in H.
  destruct H as (_ & _ & _ & _ & Hr & _ & Hc & _).
  rewrite <- Hr in Hc. apply rows_of_zip_with in Hc.
  eapply Forall_impl; [|exact Hc].
  intros r [yn Hrow]. simpl in Hrow. rewrite Hrow.
  destruct (String.eqb (resolution r) "Follow-Up Required") eqn:E.
  - apply String.eqb_eq in E. tauto.
  - discriminate.
Qed.

(** After clipping to a range whose ends have one decimal, rounding to
    one decimal stays in the range. *)
Lemma clip_round_range (x lo hi : Q) (a b : Z) :
  lo == inject_Z a / Num.scale 1 -> hi == inject_Z b / Num.scale 1 ->
  lo <= hi ->
  lo <= Num.round (Num.clip x lo hi) 1 <= hi.
Proof.
  intros Hlo Hhi Hle.
  destruct (clip_between x lo hi Hle) as [H1 H2].
  pose proof (round_between (Num.clip x lo hi) 1 a b) as B.
  revert Hlo Hhi H1 H2 B.
  generalize (Num.round (Num.clip x lo hi) 1) (Num.clip x lo hi)
    (inject_Z a / Num.scale 1) (inject_Z b / Num.scale 1).
  intros r c qa qb Hlo Hhi H1 H2 B.
  assert (B1 : qa <= c) by lra. assert (B2 : c <= qb) by lra.
  specialize (B B1 B2). lra.
Qed.

(** C5: in every generated row [wait_time_min] lies in [0,45],
    [service_time_min] in [2,40] and [satisfaction_score] in [1,5], and
    each is the one-decimal rounding of a value clipped to that
    range. *)
Theorem C5_numeric_ranges (seed_value : Z) (n : nat)
  (g g' : RandomState) (df : DataFrame) :
  generate_data seed_value n g = Some (df, g') ->
  Forall (fun r =>
            (0 <= wait_time_min r <= 45
             /\ exists x, wait_time_min r = Num.round (Num.clip x 0 45) 1)
            /\ (2 <= service_time_min r <= 40
                /\ exists x, service_time_min r
                             = Num.round (Num.clip x 2 40) 1)
            /\ (1 <= satisfaction_score r <= 5
                /\ exists x, satisfaction_score r
                             = Num.round (Num.clip x 1 5) 1)) df.
Proof.
  intro H. apply generate_data_inv in H.
  destruct H as (c & raw_sat & yes_no & H & [rw Hw] & [rs Hs]).
  apply make_DataFrame_columns in H.
  destruct H as (_ & _ & Hcw & Hcs & _ & _ & _ & Hsat).
  rewrite Hw in Hcw. rewrite Hs in Hcs.
  apply rows_of_map in Hcw. apply rows_of_map in Hcs.
  apply rows_of_map in Hsat.
  rewrite Forall_forall in *. intros r Hr.
  destruct (Hcw r Hr) as [xw Ew]. destruct (Hcs r Hr) as [xs Es].
  destruct (Hsat r Hr) as [xt Et].
  split; [|split]; (split; [|eauto]).
  - rewrite Ew. apply (clip_round_range xw 0 45 0 450);
      [reflexivity | reflexivity | discriminate].
  - rewrite Es. apply (clip_round_range xs 2 40 20 400);
      [reflexivity | reflexivity | discriminate].
  - rewrite Et. apply (clip_round_range xt 1 5 10 50);
      [reflexivity | reflexivity | discriminate].
Qed.

(** C7: two runs of the generator with the same seed and the same row
    count give the same table, row by row and column by column, whatever
    state numpy's generator was in when each run started; the script's
    first statement sets that state from the seed. *)
Theorem C7_same_seed_same_table (seed_value : Z) (n : nat)
  (g1 g2 : RandomState) :
  generate_data seed_value n g1 = generate_data seed_value n g2.
Proof.
  unfold Generator.generate_data, bind, np_seed.
  destruct ((0 <=? seed_value) && (seed_value <=? 4294967295))%Z;
    reflexivity.
Qed.

(** *** Two runs on different departments *)

Lemma inquiry_type_map_length (d : string) (a : list string) :
  inquiry_type_map d = Some a -> List.length a = 5%nat.
Proof.
  unfold inquiry_type_map.
  repeat match goal with
         | |- context [String.eqb d ?s] => destruct (String.eqb d s)
         end;
    intro H; inversion H; reflexivity.
Qed.

Lemma inquiry_choice_state (d1 d2 : string) (g g1 g2 : RandomState)
  (x1 x2 : string) :
  bind RandomState (lift RandomState (inquiry_type_map d1))
    (choice RandomState randint) g = Some (x1, g1) ->
  bind RandomState (lift RandomState (inquiry_type_map d2))
    (choice RandomState randint) g = Some (x2, g2) ->
  g1 = g2.
Proof.
  intros H1 H2.
  bind_inv H1. bind_inv H2.
  apply lift_Some in E, E0. simpl in E, E0.
  destruct E as [E ->]. destruct E0 as [E0 ->].
  apply inquiry_type_map_length in E, E0.
  unfold choice in H1, H2. rewrite E in H1. rewrite E0 in H2.
  bind_inv H1. bind_inv H2.
  unfold draw in E1, E2. rewrite E1 in E2. inversion E2; subst.
  apply lift_Some in H1, H2. simpl in H1, H2.
  destruct H1 as [_ <-]. destruct H2 as [_ <-]. reflexivity.
Qed.

(** Drawing the inquiry types moves the generator the same way whatever
    the departments are. *)
Lemma inquiry_types_state (deps1 : list string) :
  forall (deps2 : list string) (g g1 g2 : RandomState)
         (its1 its2 : list string),
    List.length deps1 = List.length deps2 ->
    for_each RandomState
      (fun d => bind RandomState (lift RandomState (inquiry_type_map d))
                  (choice RandomState randint)) deps1 g = Some (its1, g1) ->
    for_each RandomState
      (fun d => bind RandomState (lift RandomState (inquiry_type_map d))
                  (choice RandomState randint)) deps2 g = Some (its2, g2) ->
    g1 = g2.
Proof.
  induction deps1 as [|d1 deps1 IH]; intros [|d2 deps2] g g1 g2 its1 its2
    Hlen H1 H2; try discriminate.
  - simpl in H1, H2. unfold ret in H1, H2. congruence.
  - simpl in H1, H2. bind_inv H1. bind_inv H2.
    pose proof (inquiry_choice_state _ _ _ _ _ _ _ E E0). subst.
    bind_inv H1. bind_inv H2.
    assert (Hlen' : List.length deps1 = List.length deps2)
      by now inversion Hlen.
    pose proof (IH _ _ _ _ _ _ Hlen' E1 E2).
    subst. unfold ret in H1, H2. congruence.
Qed.

Ltac sync :=
  match goal with
  | E : ?x = Some ?a, E' : ?x = Some ?b |- _ =>
      rewrite E in E'; inversion E'; subst; clear E'
  end.

Lemma sample_columns_two_runs (n : nat) (deps1 deps2 : list string)
  (g ga gb : RandomState) (c1 c2 : Columns) :
  List.length deps1 = List.length deps2 ->
  sample_columns n deps1 g = Some (c1, ga) ->
  sample_columns n deps2 g = Some (c2, gb) ->
  ga = gb
  /\ c_resolution c1 = c_resolution c2
  /\ exists g_r,
      choice_p RandomState random_sample resolution_names n resolution_prior
        g_r = Some (c_resolution c1, ga).
Proof.
  intros Hlen H1 H2. unfold Generator.sample_columns in H1, H2.
  repeat bind_inv H1. repeat bind_inv H2.
  repeat sync.
  match goal with
  | E : for_each _ _ deps1 _ = Some _, E' : for_each _ _ deps2 _ = Some _
    |- _ => pose proof (inquiry_types_state _ _ _ _ _ _ _ Hlen E E')
  end.
  subst. repeat sync.
  unfold ret in H1, H2. inversion H1. inversion H2. subst. simpl.
  split; [reflexivity|]. split; [reflexivity|]. eauto.
Qed.

Lemma finish_state (n : nat) (c1 c2 : Columns) (b1 b2 : list Q)
  (g g1 g2 : RandomState) (df1 df2 : DataFrame) :
  finish n c1 b1 g = Some (df1, g1) ->
  finish n c2 b2 g = Some (df2, g2) ->
  g1 = g2.
Proof.
  intros H1 H2. unfold Generator.finish in H1, H2.
  repeat bind_inv H1. repeat bind_inv H2. repeat sync.
  apply lift_Some in H1, H2. simpl in H1, H2.
  destruct H1 as [_ <-]. destruct H2 as [_ <-]. reflexivity.
Qed.

Lemma finish_columns (n : nat) (c : Columns) (b : list Q)
  (g g' : RandomState) (df : DataFrame) :
  finish n c b g = Some (df, g') ->
  map resolution df = c_resolution c
  /\ List.length (c_departments c) = n.
Proof.
  intro H. apply finish_inv in H. destruct H as (raw_sat & yes_no & H).
  apply make_DataFrame_columns in H.
  destruct H as (Hl & Hd & _ & _ & Hr & _).
  split; [exact Hr|].
  rewrite <- Hd, length_map, Hl. unfold inquiry_ids.
  rewrite length_map. apply length_seq.
Qed.

(** C6: the resolution column is the draw of
    [choice(resolution_names, n, p=(0.55, 0.20, 0.15, 0.10))] and nothing
    else: two runs that start from the same generator state on different
    department assignments draw it at the same state, get the same
    resolution in every row, and leave the generator in the same state;
    and the table built by the last part of the script is the same
    whatever [fcr_boost] holds. *)
Theorem C6_resolution_ignores_departments (n : nat)
  (deps1 deps2 : list string) (g g1 g2 : RandomState)
  (df1 df2 : DataFrame) :
  generate_from_departments n deps1 g = Some (df1, g1) ->
  generate_from_departments n deps2 g = Some (df2, g2) ->
  map resolution df1 = map resolution df2
  /\ g1 = g2
  /\ (exists g_r g_r',
        choice_p RandomState random_sample resolution_names n
          resolution_prior g_r = Some (map resolution df1, g_r')
        /\ choice_p RandomState random_sample resolution_names n
             resolution_prior g_r = Some (map resolution df2, g_r'))
  /\ (forall (c : Columns) (fcr_boost1 fcr_boost2 : list Q)
             (g0 : RandomState),
        finish n c fcr_boost1 g0 = finish n c fcr_boost2 g0).
Proof.
  intros H1 H2. unfold Generator.generate_from_departments in H1, H2.
  bind_inv H1. bind_inv H2.
  destruct (finish_columns _ _ _ _ _ _ H1) as [Hr1 Hn1].
  destruct (finish_columns _ _ _ _ _ _ H2) as [Hr2 Hn2].
  destruct (sample_columns_inv _ _ _ _ _ E) as [Hd1 _].
  destruct (sample_columns_inv _ _ _ _ _ E0) as [Hd2 _].
  assert (Hlen : List.length deps1 = List.length deps2) by congruence.
  destruct (sample_columns_two_runs _ _ _ _ _ _ _ _ Hlen E E0)
    as (-> & Hres & g_r & Hdraw).
  split; [congruence|].
  split; [exact (finish_state _ _ _ _ _ _ _ _ _ _ H1 H2)|].
  split; [|reflexivity].
  exists g_r, g3. rewrite Hr1, Hr2, <- Hres. auto.
Qed.

End GeneratorFacts.

(** *** The script on the small generator *)

(** C9: in every generated row [callback_required] being "Yes" implies
    that [resolution] is "Follow-Up Required"; the converse does not
    hold, a run with seed 42 has a "Follow-Up Required" row whose
    [callback_required] is "No". *)
Theorem C9_callback_implies_follow_up :
  (forall (RandomState : Type) (seed : Z -> RandomState)
          (random_sample : RandomState -> Q * RandomState)
          (randint : nat -> RandomState -> nat * RandomState)
          (standard_exponential standard_normal
             : RandomState -> Q * RandomState)
          (seed_value : Z) (n : nat) (g g' : RandomState)
          (df : Generator.DataFrame),
      Generator.generate_data RandomState seed random_sample randint
        standard_exponential standard_normal seed_value n g = Some (df, g') ->
      Forall (fun r => callback_required r = "Yes"
                       -> resolution r = "Follow-Up Required") df)
  /\ (exists df g' r,
         Lcg.generate_data 42 7 0%Z = Some (df, g')
         /\ nth_error df 1 = Some r
         /\ resolution r = "Follow-Up Required"
         /\ callback_required r = "No").
Proof.
  split.
  - intros. eapply callback_implies_follow_up. eassumption.
  - eexists. eexists. eexists.
    split; [vm_compute; reflexivity|].
    split; [reflexivity|]. split; reflexivity.
Qed.

Lemma C9_callback_implies_follow_up_witness :
  exists df g',
    Lcg.generate_data 42 7 0%Z = Some (df, g')
    /\ Forall (fun r => callback_required r = "Yes"
                        -> resolution r = "Follow-Up Required") df.
Proof.
  eexists. eexists. split; [vm_compute; reflexivity|].
  refine (proj1 C9_callback_implies_follow_up Lcg.RandomState Lcg.seed
            Lcg.random_sample Lcg.randint Lcg.standard_exponential
            Lcg.standard_normal 42%Z 7%nat 0%Z _ _ _).
  vm_compute. reflexivity.
Defined.

Lemma C4_escalated_iff_resolution_witness :
  exists df g',
    Lcg.generate_data 42 7 0%Z = Some (df, g')
    /\ Forall (fun r => escalated r = "Yes"
                        <-> resolution r = "Escalated to Department") df.
Proof.
  eexists. eexists. split; [vm_compute; reflexivity|].
  refine (C4_escalated_iff_resolution Lcg.RandomState Lcg.seed
            Lcg.random_sample Lcg.randint Lcg.standard_exponential
            Lcg.standard_normal 42%Z 7%nat 0%Z _ _ _).
  vm_compute. reflexivity.
Defined.

Lemma C5_numeric_ranges_witness :
  exists df g',
    Lcg.generate_data 42 7 0%Z = Some (df, g')
    /\ Forall (fun r => 0 <= wait_time_min r <= 45) df.
Proof.
  eexists. eexists. split; [vm_compute; reflexivity|].
  eapply Forall_impl;
    [|refine (C5_numeric_ranges Lcg.RandomState Lcg.seed
                Lcg.random_sample Lcg.randint Lcg.standard_exponential
                Lcg.standard_normal 42%Z 7%nat 0%Z _ _ _);
      vm_compute; reflexivity].
  intros r H. exact (proj1 (proj1 H)).
Defined.

Lemma C6_resolution_ignores_departments_witness :
  exists df1 g1 df2 g2,
    Lcg.generate_from_departments 7 Lcg.all_registrar (Lcg.seed 42)
    = Some (df1, g1)
    /\ Lcg.generate_from_departments 7 Lcg.all_financial_aid (Lcg.seed 42)
       = Some (df2, g2)
    /\ map resolution df1 = map resolution df2.
Proof.
  eexists. eexists. eexists. eexists.
  split; [vm_compute; reflexivity|].
  split; [vm_compute; reflexivity|].
  refine (proj1 (C6_resolution_ignores_departments Lcg.RandomState
                   Lcg.random_sample Lcg.randint Lcg.standard_exponential
                   Lcg.standard_normal 7%nat Lcg.all_registrar
                   Lcg.all_financial_aid (Lcg.seed 42) _ _ _ _ _ _));
    vm_compute; reflexivity.
Defined.

(** *** The script writes a table

    With a generator whose uniform draws lie in [0,1) and whose indices
    lie below their bound, as numpy's do, no lookup of the script fails:
    every run writes a table of [n] rows. *)

Lemma zip_with_length {A B C} (f : A -> B -> C) (l1 : list A) :
  forall (l2 : list B) (n : nat),
    List.length l1 = n -> List.length l2 = n ->
    List.length (Generator.zip_with f l1 l2) = n.
Proof.
  induction l1 as [|x l1 IH]; intros [|y l2] n H1 H2; simpl in *;
    try congruence.
  destruct n; [discriminate|]. f_equal. apply IH; congruence.
Qed.

Lemma searchsorted_right_below (c : list Q) (u d : Q) :
  c <> [] -> u < last c d ->
  (Generator.searchsorted_right c u < List.length c)%nat.
Proof.
  induction c as [|x c IH]; intros Hne Hu; [congruence|].
  simpl. destruct (Qle_bool x u) eqn:E; [|lia].
  destruct c as [|y c].
  - simpl in Hu. apply Qle_bool_iff in E. lra.
  - apply -> Nat.succ_lt_mono. apply IH; [discriminate | exact Hu].
Qed.

Lemma all_some_map {A B} (F : A -> option B) (P : B -> Prop) (l : list A) :
  Forall (fun x => exists y, F x = Some y /\ P y) l ->
  exists l', Generator.all_some (map F l) = Some l'
             /\ List.length l' = List.length l /\ Forall P l'.
Proof.
  induction 1 as [|x l (y & Hy & Py) _ (l' & E & Hl & HP)]; simpl.
  - exists []. repeat split. constructor.
  - rewrite Hy, E. simpl. exists (y :: l').
    split; [reflexivity|]. split; [simpl; congruence|]. now constructor.
Qed.

Section GeneratorReturns.
Import Generator.
Variable RandomState : Type.
Variable seed : Z -> RandomState.
Variable random_sample : RandomState -> Q * RandomState.
Variable randint : nat -> RandomState -> nat * RandomState.
Variable standard_exponential : RandomState -> Q * RandomState.
Variable standard_normal : RandomState -> Q * RandomState.

Hypothesis random_sample_range :
  forall g, 0 <= fst (random_sample g) < 1.
Hypothesis randint_range :
  forall k g, (0 < k)%nat -> (fst (randint k g) < k)%nat.

Lemma bind_eq {A B} (m : M RandomState A) (f : A -> M RandomState B)
  (g g1 : RandomState) (a : A) :
  m g = Some (a, g1) -> bind RandomState m f g = f a g1.
Proof.
  intro E. unfold bind. now rewrite E.
Qed.

Lemma replicate_draw {A} (sampler : RandomState -> A * RandomState)
  (P : A -> Prop) (n : nat) :
  (forall g, P (fst (sampler g))) ->
  forall g, exists xs g',
    replicate RandomState n (draw RandomState sampler) g = Some (xs, g')
    /\ List.length xs = n /\ Forall P xs.
Proof.
  intro HP. induction n as [|n IH]; intro g; simpl.
  - exists [], g. unfold ret. repeat split. constructor.
  - unfold bind at 1. unfold draw at 1.
    destruct (sampler g) as [x g1] eqn:E.
    destruct (IH g1) as (xs & g' & E' & Hl & HF).
    rewrite (bind_eq _ _ _ _ _ E'). unfold ret.
    exists (x :: xs), g'. split; [reflexivity|]. split; [simpl; congruence|].
    constructor; [|exact HF]. specialize (HP g). now rewrite E in HP.
Qed.

Lemma choice_p_returns (a : list string) (p : list Q) (n : nat)
  (g : RandomState) :
  cdf p <> [] -> last (cdf p) 0 == 1 ->
  List.length (cdf p) = List.length a ->
  exists xs g',
    choice_p RandomState random_sample a n p g = Some (xs, g')
    /\ List.length xs = n /\ Forall (fun s => In s a) xs.
Proof.
  intros Hne Hlast Hlen. unfold choice_p.
  destruct (replicate_draw random_sample (fun u => 0 <= u < 1) n
              random_sample_range g) as (us & g' & E & Hl & Hu).
  rewrite (bind_eq _ _ _ _ _ E).
  destruct (all_some_map
              (fun u => nth_error a (searchsorted_right (cdf p) u))
              (fun s => In s a) us) as (xs & Ex & Hlx & Hin).
  { eapply Forall_impl; [|exact Hu]. intros u [_ Hu1]. simpl.
    destruct (nth_error a (searchsorted_right (cdf p) u)) as [s|] eqn:En.
    - exists s. split; [reflexivity|]. eapply nth_error_In. exact En.
    - exfalso. apply nth_error_None in En. rewrite <- Hlen in En.
      assert (Hb : (searchsorted_right (cdf p) u
                    < List.length (cdf p))%nat).
      { apply (searchsorted_right_below _ _ 0); [exact Hne|].
        rewrite Hlast. exact Hu1. }
      lia. }
  rewrite Ex. unfold lift. exists xs, g'. split; [reflexivity|].
  split; [congruence | exact Hin].
Qed.

Lemma choice_returns (a : list string) (g : RandomState) :
  a <> [] ->
  exists x g', choice RandomState randint a g = Some (x, g').
Proof.
  intro Hne. unfold choice, bind, draw.
  destruct (randint (List.length a) g) as [i g'] eqn:E.
  assert (Hi : (i < List.length a)%nat).
  { pose proof (randint_range (List.length a) g) as H. rewrite E in H.
    apply H. destruct a; [congruence | simpl; lia]. }
  destruct (nth_error a i) as [x|] eqn:En.
  - unfold lift. eauto.
  - apply nth_error_None in En. lia.
Qed.

Lemma choice_n_returns (a : list string) (n : nat) (g : RandomState) :
  a <> [] ->
  exists xs g',
    choice_n RandomState randint a n g = Some (xs, g')
    /\ List.length xs = n.
Proof.
  intro Hne. unfold choice_n.
  assert (Hpos : (0 < List.length a)%nat)
    by (destruct a; [congruence | simpl; lia]).
  destruct (replicate_draw (randint (List.length a))
              (fun i => (i < List.length a)%nat) n
              (fun g => randint_range _ g Hpos) g)
    as (idx & g' & E & Hl & Hi).
  rewrite (bind_eq _ _ _ _ _ E).
  destruct (all_some_map (nth_error a) (fun _ => True) idx)
    as (xs & Ex & Hlx & _).
  { eapply Forall_impl; [|exact Hi]. intros i Hlt. simpl in Hlt.
    destruct (nth_error a i) as [x|] eqn:En; [eauto|].
    apply nth_error_None in En. lia. }
  rewrite Ex. unfold lift. exists xs, g'. split; [reflexivity | congruence].
Qed.

Lemma for_each_returns {A B} (F : A -> M RandomState B) (l : list A) :
  Forall (fun x => forall g, exists y g', F x g = Some (y, g')) l ->
  forall g, exists ys g',
    for_each RandomState F l g = Some (ys, g')
    /\ List.length ys = List.length l.
Proof.
  induction 1 as [|x l Hx _ IH]; intro g; simpl.
  - exists [], g. unfold ret. split; reflexivity.
  - destruct (Hx g) as (y & g1 & E). rewrite (bind_eq _ _ _ _ _ E).
    destruct (IH g1) as (ys & g' & E' & Hl).
    rewrite (bind_eq _ _ _ _ _ E'). unfold ret.
    exists (y :: ys), g'. split; [reflexivity | simpl; congruence].
Qed.

Lemma exponential_returns (scale : Q) (n : nat) (g : RandomState) :
  exists xs g',
    exponential RandomState standard_exponential scale n g = Some (xs, g')
    /\ List.length xs = n.
Proof.
  unfold exponential.
  destruct (replicate_draw standard_exponential (fun _ => True) n
              (fun _ => I) g) as (xs & g' & E & Hl & _).
  rewrite (bind_eq _ _ _ _ _ E). unfold ret.
  eexists. eexists. split; [reflexivity|]. now rewrite length_map.
Qed.

Lemma normal_returns (loc scale : Q) (n : nat) (g : RandomState) :
  exists xs g',
    normal RandomState standard_normal loc scale n g = Some (xs, g')
    /\ List.length xs = n.
Proof.
  unfold normal.
  destruct (replicate_draw standard_normal (fun _ => True) n
              (fun _ => I) g) as (xs & g' & E & Hl & _).
  rewrite (bind_eq _ _ _ _ _ E). unfold ret.
  eexists. eexists. split; [reflexivity|]. now rewrite length_map.
Qed.

Ltac draw_choice_p a p n g :=
  let xs := fresh "xs" in
  let g' := fresh "g" in
  let E := fresh "E" in
  let L := fresh "L" in
  let I := fresh "I" in
  destruct (choice_p_returns a p n g) as (xs & g' & E & L & I);
  [ let H := fresh "H" in intro H; vm_compute in H; discriminate
  | vm_compute; reflexivity
  | reflexivity
  | rewrite (bind_eq _ _ _ _ _ E); cbv beta zeta ].

Ltac step_choice_p :=
  match goal with
  | |- context [bind _ (choice_p _ _ ?a ?n ?p) _ ?g] =>
      draw_choice_p a p n g
  end.

Lemma month_choice_returns (q : string) :
  In q ["Fall 2024"; "Winter 2025"; "Spring 2025"; "Summer 2025"] ->
  forall g, exists y g',
    bind RandomState (lift RandomState (month_map q))
      (choice RandomState randint) g = Some (y, g').
Proof.
  intros Hq g.
  assert (H : exists a, month_map q = Some a /\ a <> []).
  { simpl in Hq. destruct Hq as [<-|[<-|[<-|[<-|[]]]]];
      eexists; (split; [reflexivity | discriminate]). }
  destruct H as (a & Ea & Hne). rewrite Ea.
  unfold bind, lift. now apply choice_returns.
Qed.

Lemma inquiry_choice_returns (d : string) :
  In d department_names ->
  forall g, exists y g',
    bind RandomState (lift RandomState (inquiry_type_map d))
      (choice RandomState randint) g = Some (y, g').
Proof.
  intros Hd g.
  assert (H : exists a, inquiry_type_map d = Some a /\ a <> []).
  { simpl in Hd. destruct Hd as [<-|[<-|[<-|[<-|[<-|[]]]]]];
      eexists; (split; [reflexivity | discriminate]). }
  destruct H as (a & Ea & Hne). rewrite Ea.
  unfold bind, lift. now apply choice_returns.
Qed.

Lemma sample_columns_returns (n : nat) (departments : list string)
  (g : RandomState) :
  List.length departments = n ->
  Forall (fun d => In d department_names) departments ->
  exists c g',
    sample_columns RandomState random_sample randint standard_exponential
      standard_normal n departments g = Some (c, g')
    /\ columns_have_length n c.
Proof.
  intros Hlen Hdeps. unfold sample_columns.
  step_choice_p.
  step_choice_p.
  destruct (for_each_returns
              (fun q => bind RandomState (lift RandomState (month_map q))
                          (choice RandomState randint)) xs0
              (Forall_impl _ month_choice_returns I0) g1)
    as (months & g2 & E1 & L1).
  rewrite (bind_eq _ _ _ _ _ E1). cbv beta.
  step_choice_p.
  step_choice_p.
  match goal with |- context [bind _ (choice_n _ _ ?a n) _ g4] =>
    destruct (choice_n_returns a n g4 ltac:(discriminate))
      as (staff & g5 & E4 & L4)
  end.
  rewrite (bind_eq _ _ _ _ _ E4). cbv beta.
  destruct (for_each_returns
              (fun d => bind RandomState
                          (lift RandomState (inquiry_type_map d))
                          (choice RandomState randint)) departments
              (Forall_impl _ inquiry_choice_returns Hdeps) g5)
    as (inquiry_types & g6 & E5 & L5).
  rewrite (bind_eq _ _ _ _ _ E5). cbv beta.
  step_choice_p.
  destruct (exponential_returns 8 n g7) as (base_wait & g8 & E7 & L7).
  rewrite (bind_eq _ _ _ _ _ E7). cbv beta zeta.
  destruct (normal_returns 12 5 n g8) as (base_service & g9 & E8 & L8).
  rewrite (bind_eq _ _ _ _ _ E8). cbv beta zeta.
  step_choice_p.
  unfold ret. eexists. eexists. split; [reflexivity|].
  unfold columns_have_length. simpl.
  unfold clip_round, add, where_eq, isin.
  repeat split; try congruence;
    rewrite ?length_map;
    repeat (apply zip_with_length; rewrite ?length_map); congruence.
Qed.

Lemma make_DataFrame_returns (n : nat) (c : Columns) (sat : list Q)
  (esc cb : list string) :
  columns_have_length n c ->
  List.length sat = n -> List.length esc = n -> List.length cb = n ->
  exists df,
    make_DataFrame (inquiry_ids n) c sat esc cb = Some df
    /\ List.length df = n.
Proof.
  intros (H1 & H2 & H3 & H4 & H5 & H6 & H7 & H8 & H9 & H10 & H11 & H12)
    Hs He Hc.
  unfold make_DataFrame.
  assert (Hids : List.length (inquiry_ids n) = n)
    by (unfold inquiry_ids; rewrite length_map; apply length_seq).
  rewrite Hids, H1, H2, H3, H4, H5, H6, H7, H8, H9, H10, H11, H12, Hs, He,
    Hc.
  simpl forallb. rewrite Nat.eqb_refl. simpl.
  destruct (all_some_map
              (row_at (inquiry_ids n) c sat esc cb) (fun _ => True)
              (seq 0 n)) as (df & E & Hl & _).
  - apply Forall_forall. intros i Hi. apply in_seq in Hi.
    unfold row_at.
    repeat match goal with
           | |- context [match nth_error ?l i with _ => _ end] =>
               let En := fresh "En" in
               destruct (nth_error l i) eqn:En;
               [| apply nth_error_None in En; lia]
           end.
    eauto.
  - exists df. split; [exact E|]. rewrite Hl. apply length_seq.
Qed.

Lemma finish_returns (n : nat) (c : Columns) (fcr_boost : list Q)
  (g : RandomState) :
  columns_have_length n c ->
  exists df g',
    finish RandomState random_sample standard_normal n c fcr_boost g
    = Some (df, g')
    /\ List.length df = n.
Proof.
  intro Hc. pose proof Hc as Hc'.
  destruct Hc' as (_ & _ & _ & _ & _ & _ & _ & _ & _ & Hw & _ & Hr).
  unfold finish.
  destruct (normal_returns (38 # 10) (8 # 10) n g)
    as (base_sat & g0 & E & L).
  rewrite (bind_eq _ _ _ _ _ E). cbv beta zeta.
  step_choice_p.
  match goal with
  | |- context [make_DataFrame (inquiry_ids n) c ?sat ?esc ?cb] =>
      destruct (make_DataFrame_returns n c sat esc cb Hc)
        as (df & Ed & Ld)
  end.
  - unfold clip_round, add, where_eq. rewrite length_map.
    repeat (apply zip_with_length; rewrite ?length_map); congruence.
  - unfold where_eq. now rewrite length_map.
  - apply zip_with_length; congruence.
  - rewrite Ed. unfold lift. eauto.
Qed.

(** Every run of the script on a seed that [np.random.seed] accepts
    writes a table of [n] rows. *)
Theorem generate_data_returns (seed_value : Z) (n : nat)
  (g : RandomState) :
  (0 <= seed_value <= 4294967295)%Z ->
  exists df g',
    generate_data RandomState seed random_sample randint
      standard_exponential standard_normal seed_value n g = Some (df, g')
    /\ List.length df = n.
Proof.
  intro Hseed.
  unfold generate_data, generate_from_departments.
  unfold bind at 1. unfold np_seed.
  replace ((0 <=? seed_value) && (seed_value <=? 4294967295))%Z
    with true
    by (symmetry; apply andb_true_iff; split; apply Z.leb_le; lia).
  step_choice_p.
  destruct (sample_columns_returns n xs g0 L I) as (c & g1 & Ec & Hc).
  rewrite (bind_eq _ _ _ _ _ Ec).
  apply finish_returns. exact Hc.
Qed.

(** A seed outside the range of [np.random.seed] stops the script at its
    first statement. *)
Lemma generate_data_raises (seed_value : Z) (n : nat) (g : RandomState) :
  ~ (0 <= seed_value <= 4294967295)%Z ->
  generate_data RandomState seed random_sample randint
    standard_exponential standard_normal seed_value n g = None.
Proof.
  intro Hseed. unfold generate_data. unfold bind at 1. unfold np_seed.
  destruct ((0 <=? seed_value) && (seed_value <=? 4294967295))%Z eqn:E;
    [|reflexivity].
  apply andb_true_iff in E. destruct E as [E1 E2].
  apply Z.leb_le in E1. apply Z.leb_le in E2. lia.
Qed.

(** The script as written writes 3000 rows. *)
Corollary main_returns (g : RandomState) :
  exists df g',
    main RandomState seed random_sample randint standard_exponential
      standard_normal g = Some (df, g')
    /\ List.length df = 3000%nat.
Proof.
  apply generate_data_returns. lia.
Qed.

End GeneratorReturns.

(** The small generator keeps its draws in range, so the script run on it
    writes its table for every seed that [np.random.seed] accepts and
    every row count. *)
Lemma lcg_next_range (g : Z) : (0 <= Lcg.next g < Lcg.modulus)%Z.
Proof.
  unfold Lcg.next. apply Z.mod_pos_bound. reflexivity.
Qed.

Lemma lcg_random_sample_range (g : Lcg.RandomState) :
  0 <= fst (Lcg.random_sample g) < 1.
Proof.
  unfold Lcg.random_sample. simpl fst.
  pose proof (lcg_next_range g) as [H0 H1]. unfold Lcg.modulus in H1.
  assert (B : (0 <= Lcg.next g / 2097152 < 1024)%Z).
  { split; [apply Z.div_pos; lia | apply Z.div_lt_upper_bound; lia]. }
  destruct B as [B0 B1]. rewrite Zle_Qle in B0. rewrite Zlt_Qlt in B1.
  revert B0 B1. generalize (inject_Z (Lcg.next g / 2097152)).
  intros q B0 B1. change (inject_Z 0) with 0 in B0.
  change (inject_Z 1024) with 1024 in B1.
  split.
  - apply Qle_shift_div_l; lra.
  - apply Qlt_shift_div_r; lra.
Qed.

Lemma lcg_randint_range (k : nat) (g : Lcg.RandomState) :
  (0 < k)%nat -> (fst (Lcg.randint k g) < k)%nat.
Proof.
  intro Hk. unfold Lcg.randint. simpl fst.
  pose proof (Z.mod_pos_bound (Lcg.next g / 65536) (Z.of_nat k)
                ltac:(lia)).
  lia.
Qed.

Lemma lcg_generate_data_returns (seed_value : Z) (n : nat)
  (g : Lcg.RandomState) :
  (0 <= seed_value <= 4294967295)%Z ->
  exists df g',
    Lcg.generate_data seed_value n g = Some (df, g')
    /\ List.length df = n.
Proof.
  intro Hseed. apply generate_data_returns.
  - apply lcg_random_sample_range.
  - apply lcg_randint_range.
  - exact Hseed.
Qed.

(** * Further properties *)

(** ** Grouping and sorting *)

Section GroupByOrder.
Import Pandas.
Context {R K : Type}.
Variable eqb : K -> K -> bool.
Variable leb : K -> K -> bool.
Hypothesis eqb_eq : forall a b, eqb a b = true <-> a = b.
Hypothesis leb_total : forall a b, leb a b = true \/ leb b a = true.

Lemma insert_key_head (k : K) (l : list K) (a : K) :
  leb a k = true -> HdRel (fun x y => leb x y = true) a l ->
  HdRel (fun x y => leb x y = true) a (insert_key leb k l).
Proof.
  intros Hak Hl. destruct l as [|b l]; simpl.
  - now constructor.
  - destruct (leb k b); constructor; [exact Hak|].
    now inversion Hl.
Qed.

Lemma insert_key_sorted (k : K) (l : list K) :
  Sorted (fun x y => leb x y = true) l ->
  Sorted (fun x y => leb x y = true) (insert_key leb k l).
Proof.
  induction 1 as [|a l Hs IH Hh]; simpl.
  - repeat constructor.
  - destruct (leb k a) eqn:E.
    + constructor; [now constructor|]. now constructor.
    + constructor; [exact IH|].
      apply insert_key_head; [|exact Hh].
      destruct (leb_total k a) as [H|H]; [congruence | exact H].
Qed.

Lemma sort_keys_sorted (l : list K) :
  Sorted (fun x y => leb x y = true) (sort_keys leb l).
Proof.
  induction l as [|a l IH]; simpl; [constructor|].
  now apply insert_key_sorted.
Qed.

Lemma groupby_keys (key : R -> K) (df : list R) :
  map fst (groupby eqb leb key df)
  = sort_keys leb (unique eqb (map key df)).
Proof.
  unfold groupby. rewrite map_map. simpl. apply map_id.
Qed.

Lemma groupby_key_In (key : R -> K) (df : list R) (k : K) :
  In k (map fst (groupby eqb leb key df)) <-> In k (map key df).
Proof.
  rewrite groupby_keys. split; intro H.
  - apply (In_unique eqb leb eqb_eq).
    eapply Permutation_in; [apply sort_keys_perm | exact H].
  - eapply Permutation_in; [apply Permutation_sym, sort_keys_perm|].
    now apply (In_unique eqb leb eqb_eq).
Qed.

Lemma groupby_keys_NoDup (key : R -> K) (df : list R) :
  NoDup (map fst (groupby eqb leb key df)).
Proof.
  rewrite groupby_keys.
  eapply Permutation_NoDup;
    [apply Permutation_sym, sort_keys_perm | now apply NoDup_unique].
Qed.

(** A group of [groupby] is the rows of its key, and has at least one. *)
Lemma groupby_group (key : R -> K) (df : list R) (k : K) (g : list R) :
  In (k, g) (groupby eqb leb key df) ->
  g = filter (fun r => eqb (key r) k) df /\ g <> [].
Proof.
  intro H. assert (Hk : In k (map fst (groupby eqb leb key df)))
    by (apply in_map_iff; exists (k, g); auto).
  apply groupby_key_In in Hk.
  unfold groupby in H. apply in_map_iff in H.
  destruct H as (k' & E & _). inversion E; subst k'. split; [reflexivity|].
  apply in_map_iff in Hk. destruct Hk as (r & Hr & Hin).
  intro Hnil.
  assert (Hf : In r (filter (fun r0 => eqb (key r0) k) df)).
  { apply filter_In. split; [exact Hin|]. now apply eqb_eq. }
  rewrite Hnil in Hf. exact Hf.
Qed.

(** Looking a key up in a grouped view. *)
Lemma find_grouped {A} (key : R -> K) (agg : list R -> A) (ks : list K)
  (df : list R) (k : K) :
  find (fun kv => eqb (fst kv) k)
       (map (fun k' => (k', agg (filter (fun r => eqb (key r) k') df))) ks)
  = if existsb (fun k' => eqb k' k) ks
    then Some (k, agg (filter (fun r => eqb (key r) k) df))
    else None.
Proof.
  induction ks as [|k' ks IH]; simpl; [reflexivity|].
  destruct (eqb k' k) eqn:E; simpl; [|exact IH].
  apply eqb_eq in E. now subst.
Qed.
End GroupByOrder.

Section SortValuesFacts.
Import Pandas.
Context {A : Type}.
Variable geb : A -> A -> bool.
Hypothesis geb_total : forall a b, geb a b = true \/ geb b a = true.

Lemma insert_desc_perm (x : A) (l : list A) :
  Permutation (insert_desc geb x l) (x :: l).
Proof.
  induction l as [|a l IH]; simpl; auto.
  destruct (geb x a); auto.
  rewrite IH. apply perm_swap.
Qed.

Lemma sort_values_desc_perm (l : list A) :
  Permutation (sort_values_desc geb l) l.
Proof.
  induction l as [|a l IH]; simpl; auto.
  rewrite insert_desc_perm. now constructor.
Qed.

Lemma insert_desc_head (x : A) (l : list A) (a : A) :
  geb a x = true -> HdRel (fun u v => geb u v = true) a l ->
  HdRel (fun u v => geb u v = true) a (insert_desc geb x l).
Proof.
  intros Hax Hl. destruct l as [|b l]; simpl.
  - now constructor.
  - destruct (geb x b); constructor; [exact Hax|].
    now inversion Hl.
Qed.

Lemma insert_desc_sorted (x : A) (l : list A) :
  Sorted (fun u v => geb u v = true) l ->
  Sorted (fun u v => geb u v = true) (insert_desc geb x l).
Proof.
  induction 1 as [|a l Hs IH Hh]; simpl.
  - repeat constructor.
  - destruct (geb x a) eqn:E.
    + constructor; [now constructor|]. now constructor.
    + constructor; [exact IH|].
      apply insert_desc_head; [|exact Hh].
      destruct (geb_total x a) as [H|H]; [congruence | exact H].
Qed.

Lemma sort_values_desc_sorted (l : list A) :
  Sorted (fun u v => geb u v = true) (sort_values_desc geb l).
Proof.
  induction l as [|a l IH]; simpl; [constructor|].
  now apply insert_desc_sorted.
Qed.
End SortValuesFacts.

(** ** More of the analytics report *)

Lemma by_string_keys {A} (key : Interaction -> string)
  (df : Analysis.Frame) (agg : list Interaction -> A) :
  map fst (Analysis.by_string key df agg)
  = map fst (Pandas.groupby String.eqb String.leb key (Analysis.records df)).
Proof.
  unfold Analysis.by_string. rewrite map_map. reflexivity.
Qed.

(** A row of a grouped view aggregates the rows of one key, of which
    there is at least one. *)
Lemma by_string_row {A} (key : Interaction -> string)
  (df : Analysis.Frame) (agg : list Interaction -> A) (k : string) (a : A) :
  In (k, a) (Analysis.by_string key df agg) ->
  exists r g,
    a = agg (r :: g)
    /\ r :: g = filter (fun r => String.eqb (key r) k) (Analysis.records df).
Proof.
  unfold Analysis.by_string. intro H. apply in_map_iff in H.
  destruct H as ([k' g] & E & Hin). simpl in E. inversion E; subst.
  apply (groupby_group String.eqb String.leb string_eqb_eq) in Hin.
  destruct Hin as [Hg Hne]. destruct g as [|r g]; [congruence|].
  exists r, g. auto.
Qed.

Lemma dept_kpis_key_In (table : list Interaction) (d : string) :
  In d (map fst (Analysis.dept_kpis (Analysis.read_csv table)))
  <-> exists r, In r table /\ department r = d.
Proof.
  unfold Analysis.dept_kpis. rewrite by_string_keys. simpl.
  rewrite (groupby_key_In String.eqb String.leb string_eqb_eq).
  rewrite in_map_iff. split; intros (r & H1 & H2); exists r; auto.
Qed.

(** X1: the department view has one row per department of the table: its
    keys are distinct, in ascending string order, and a name is a key
    exactly when some row of the table has it as its department. *)
Theorem X1_dept_kpis_keys (table : list Interaction) :
  let keys := map fst (Analysis.dept_kpis (Analysis.read_csv table)) in
  NoDup keys
  /\ Sorted (fun a b => String.leb a b = true) keys
  /\ (forall d, In d keys <-> exists r, In r table /\ department r = d).
Proof.
  cbv zeta. unfold Analysis.dept_kpis. rewrite by_string_keys. simpl.
  split; [|split].
  - apply (groupby_keys_NoDup String.eqb String.leb string_eqb_eq).
  - rewrite (groupby_keys String.eqb String.leb).
    apply sort_keys_sorted. apply String.leb_total.
  - intro d.
    rewrite (groupby_key_In String.eqb String.leb string_eqb_eq).
    rewrite in_map_iff. split; intros (r & H1 & H2); exists r; auto.
Qed.

Lemma mean_cons_number (x : Q) (l : list Q) : exists q, mean (x :: l) = Some q.
Proof.
  simpl. eauto.
Qed.

Lemma pct_equal_cons_number (value s : string) (l : list string) :
  exists q, pct_equal value (s :: l) = Some q.
Proof.
  unfold pct_equal. simpl. eauto.
Qed.

(** X2: no row of the department view divides by zero: every department
    in the view has at least one interaction, its volume is the number of
    rows of that department, and its four averages are numbers, not
    NaN. *)
Theorem X2_dept_kpis_rows_are_numbers (table : list Interaction)
  (d : string) (k : Analysis.DeptKpi) :
  In (d, k) (Analysis.dept_kpis (Analysis.read_csv table)) ->
  (1 <= Analysis.dk_volume k)%nat
  /\ Analysis.dk_volume k
     = List.length (filter (fun r => String.eqb (department r) d) table)
  /\ Analysis.dk_avg_wait k <> NaN
  /\ Analysis.dk_avg_service k <> NaN
  /\ Analysis.dk_fcr k <> NaN
  /\ Analysis.dk_avg_sat k <> NaN.
Proof.
  intro H. apply by_string_row in H. destruct H as (r & g & -> & Hg).
  simpl in Hg. rewrite <- Hg.
  unfold Analysis.dept_round, Analysis.dept_agg.
  cbn [Analysis.dk_volume Analysis.dk_avg_wait Analysis.dk_avg_service
       Analysis.dk_fcr Analysis.dk_avg_sat].
  rewrite length_map. split; [simpl; lia|]. split; [reflexivity|].
  unfold NaN.
  repeat split; simpl map;
    [ destruct (mean_cons_number (wait_time_min r) (map wait_time_min g))
        as [q ->]
    | destruct (mean_cons_number (service_time_min r)
                  (map service_time_min g)) as [q ->]
    | destruct (pct_equal_cons_number Analysis.FCR (resolution r)
                  (map resolution g)) as [q ->]
    | destruct (mean_cons_number (satisfaction_score r)
                  (map satisfaction_score g)) as [q ->] ];
    discriminate.
Qed.

Lemma X2_dept_kpis_rows_are_numbers_witness :
  exists k,
    In ("Registrar", k) (Analysis.dept_kpis (Analysis.read_csv rising_table))
    /\ Analysis.dk_volume k = 20%nat.
Proof.
  eexists. split; [left; vm_compute; reflexivity|].
  refine (proj1 (proj2
            (X2_dept_kpis_rows_are_numbers rising_table "Registrar" _ _))).
  left. vm_compute. reflexivity.
Defined.

(** *** Rates *)

Lemma indicator_sum (value : string) (l : list string) :
  Num.sum (map (fun s => if String.eqb s value then 1 else 0) l)
  == Analysis.of_nat (count_equal value l).
Proof.
  unfold count_equal. induction l as [|s l IH]; simpl; [reflexivity|].
  rewrite IH. destruct (String.eqb s value); simpl List.length.
  - change (S (List.length (filter (fun s0 => String.eqb s0 value) l)))
      with (1 + List.length (filter (fun s0 => String.eqb s0 value) l))%nat.
    rewrite of_nat_plus. reflexivity.
  - ring.
Qed.

Lemma of_nat_le (a b : nat) :
  (a <= b)%nat -> Analysis.of_nat a <= Analysis.of_nat b.
Proof.
  intro H. unfold Analysis.of_nat. rewrite <- Zle_Qle. lia.
Qed.

Lemma count_equal_le (value : string) (l : list string) :
  (count_equal value l <= List.length l)%nat.
Proof.
  unfold count_equal. apply filter_length_le.
Qed.

(** A percentage of a non-empty column is the share of matching entries,
    between 0 and 100. *)
Lemma pct_equal_share (value : string) (l : list string) :
  l <> [] ->
  exists q,
    pct_equal value l = Some q
    /\ q == Analysis.of_nat (count_equal value l)
            / Analysis.of_nat (List.length l) * 100
    /\ 0 <= q <= 100.
Proof.
  intro Hne. destruct l as [|s l]; [congruence|].
  unfold pct_equal. set (ind := fun s0 => if String.eqb s0 value then 1 else 0).
  assert (Hm : mean (map ind (s :: l))
               = Some (Num.sum (map ind (s :: l))
                       / Analysis.of_nat (List.length (s :: l)))).
  { simpl. unfold Analysis.of_nat. now rewrite length_map. }
  rewrite Hm. cbn [option_map].
  exists (Num.sum (map ind (s :: l))
          / Analysis.of_nat (List.length (s :: l)) * 100).
  split; [reflexivity|].
  pose proof (indicator_sum value (s :: l)) as Hs. fold ind in Hs.
  pose proof (of_nat_le _ _ (count_equal_le value (s :: l))) as Hle.
  assert (H0 : 0 <= Analysis.of_nat (count_equal value (s :: l)))
    by (apply (of_nat_le 0); lia).
  assert (Hn : 0 < Analysis.of_nat (List.length (s :: l))).
  { unfold Analysis.of_nat. change 0 with (inject_Z 0).
    rewrite <- Zlt_Qlt. simpl. lia. }
  revert Hs Hle H0 Hn.
  generalize (Num.sum (map ind (s :: l)))
    (Analysis.of_nat (count_equal value (s :: l)))
    (Analysis.of_nat (List.length (s :: l))).
  intros t c n Hs Hle H0 Hn.
  assert (E : t / n * 100 == c / n * 100).
  { unfold Qdiv. apply Qmult_comp; [|reflexivity].
    apply Qmult_comp; [exact Hs | reflexivity]. }
  split; [exact E|].
  assert (Hq0 : 0 <= c / n) by (apply Qle_shift_div_l; lra).
  assert (Hq1 : c / n <= 1) by (apply Qle_shift_div_r; lra).
  revert E Hq0 Hq1. generalize (t / n * 100) (c / n).
  intros q' q E Hq0 Hq1. lra.
Qed.

(** X3: on a table that has rows, the first-contact-resolution rate, the
    escalation rate and the callback rate of the overview are the shares
    of rows with resolution "Resolved on First Contact", escalated "Yes"
    and callback_required "Yes", each between 0 and 100 per cent. *)
Theorem X3_overview_rates (table : list Interaction) :
  table <> [] ->
  let k := Analysis.kpis (Analysis.read_csv table) in
  let n := Analysis.of_nat (List.length table) in
  Analysis.total k = List.length table
  /\ (exists q, Analysis.fcr_rate k = Some q
                /\ q == Analysis.of_nat
                          (count_equal "Resolved on First Contact"
                             (map resolution table)) / n * 100
                /\ 0 <= q <= 100)
  /\ (exists q, Analysis.escalation_rate k = Some q
                /\ q == Analysis.of_nat
                          (count_equal "Yes" (map escalated table)) / n * 100
                /\ 0 <= q <= 100)
  /\ (exists q, Analysis.callback_rate k = Some q
                /\ q == Analysis.of_nat
                          (count_equal "Yes" (map callback_required table))
                        / n * 100
                /\ 0 <= q <= 100).
Proof.
  intro Hne. cbv zeta. unfold Analysis.kpis. simpl.
  split; [reflexivity|].
  assert (Hm : forall f : Interaction -> string, map f table <> [])
    by (intros f H; apply map_eq_nil in H; contradiction).
  repeat split.
  - destruct (pct_equal_share Analysis.FCR _ (Hm resolution))
      as (q & E & Hq & Hr).
    exists q. rewrite length_map in Hq. auto.
  - destruct (pct_equal_share "Yes" _ (Hm escalated)) as (q & E & Hq & Hr).
    exists q. rewrite length_map in Hq. auto.
  - destruct (pct_equal_share "Yes" _ (Hm callback_required))
      as (q & E & Hq & Hr).
    exists q. rewrite length_map in Hq. auto.
Qed.

Lemma X3_overview_rates_witness :
  rising_table <> []
  /\ Analysis.total (Analysis.kpis (Analysis.read_csv rising_table))
     = 20%nat.
Proof.
  assert (Hne : rising_table <> []) by discriminate.
  split; [exact Hne|].
  exact (proj1 (X3_overview_rates rising_table Hne)).
Defined.

(** *** The two samples of the t-test *)

Lemma filter_split_perm {A} (f : A -> bool) (l : list A) :
  Permutation (filter f l ++ filter (fun x => negb (f x)) l) l.
Proof.
  induction l as [|x l IH]; simpl; [constructor|].
  destruct (f x); simpl.
  - now constructor.
  - apply Permutation_sym. apply Permutation_cons_app.
    now apply Permutation_sym.
Qed.

(** X4: the two samples of the t-test split the table: every row's
    satisfaction score is in exactly one of them, the first-contact
    sample or the other, and a table without first-contact rows (or with
    nothing else) leaves one sample empty. *)
Theorem X4_ttest_samples_split_table (table : list Interaction) :
  let df := Analysis.read_csv table in
  Permutation (Analysis.fcr_sat df ++ Analysis.non_fcr_sat df)
              (map satisfaction_score table)
  /\ (List.length (Analysis.fcr_sat df)
      + List.length (Analysis.non_fcr_sat df) = List.length table)%nat
  /\ (Analysis.fcr_sat df = [] <->
      Forall (fun r => resolution r <> "Resolved on First Contact") table)
  /\ (Analysis.non_fcr_sat df = [] <->
      Forall (fun r => resolution r = "Resolved on First Contact") table).
Proof.
  cbv zeta. unfold Analysis.fcr_sat, Analysis.non_fcr_sat. simpl.
  set (f := fun r => String.eqb (resolution r) Analysis.FCR).
  assert (P : Permutation
                (map satisfaction_score (filter f table)
                 ++ map satisfaction_score
                      (filter (fun r => negb (f r)) table))
                (map satisfaction_score table)).
  { rewrite <- map_app. apply Permutation_map. apply filter_split_perm. }
  split; [exact P|]. split.
  - rewrite <- length_app, <- (length_map satisfaction_score table).
    now apply Permutation_length.
  - split; (split; intro H).
    + apply map_eq_nil in H. apply Forall_forall. intros r Hr E.
      assert (Hin : In r (filter f table)).
      { apply filter_In. split; [exact Hr|]. unfold f.
        now apply String.eqb_eq. }
      rewrite H in Hin. exact Hin.
    + rewrite filter_none; [reflexivity|].
      eapply Forall_impl; [|exact H]. intros r Hr. unfold f.
      now apply String.eqb_neq.
    + apply map_eq_nil in H. apply Forall_forall. intros r Hr.
      destruct (String.eqb (resolution r) Analysis.FCR) eqn:E.
      * now apply String.eqb_eq in E.
      * assert (Hin : In r (filter
                              (fun r => negb (String.eqb (resolution r)
                                                         Analysis.FCR))
                              table)).
        { apply filter_In. split; [exact Hr|]. now rewrite E. }
        rewrite H in Hin. contradiction.
    + rewrite filter_none; [reflexivity|].
      eapply Forall_impl; [|exact H]. intros r Hr. unfold f.
      apply negb_false_iff. now apply String.eqb_eq.
Qed.

(** *** Volumes by day and by time slot *)

Lemma existsb_key (ks : list string) (k : string) :
  existsb (fun k' => String.eqb k' k) ks = true <-> In k ks.
Proof.
  rewrite existsb_exists. split.
  - intros (x & Hx & E). apply String.eqb_eq in E. now subst.
  - intro H. exists k. split; [exact H | apply String.eqb_refl].
Qed.

Lemma reindex_counts (key : Interaction -> string) (order : list string)
  (table : list Interaction) :
  Pandas.reindex String.eqb order
    (Analysis.by_string key (Analysis.read_csv table)
       (fun x => List.length (map inquiry_id x)))
  = map (fun k =>
           (k, count_or_missing
                 (List.length
                    (filter (fun r => String.eqb (key r) k) table))))
        order.
Proof.
  unfold Pandas.reindex. apply map_ext. intro k. f_equal.
  unfold Analysis.by_string, Pandas.groupby. rewrite map_map. simpl.
  rewrite (find_grouped String.eqb string_eqb_eq key
             (fun x => List.length (map inquiry_id x))).
  set (ks := Pandas.sort_keys String.leb
               (Pandas.unique String.eqb (map key table))).
  set (g := filter (fun r => String.eqb (key r) k) table).
  destruct (existsb (fun k' => String.eqb k' k) ks) eqn:E.
  - simpl. rewrite length_map.
    apply existsb_key in E.
    assert (Hin : In k (map key table)).
    { apply (In_unique String.eqb String.leb string_eqb_eq).
      eapply Permutation_in; [apply sort_keys_perm | exact E]. }
    apply in_map_iff in Hin. destruct Hin as (r & Hk & Hr).
    assert (Hg : In r g).
    { apply filter_In. split; [exact Hr|]. now apply String.eqb_eq. }
    destruct g; [contradiction | reflexivity].
  - simpl. destruct g as [|r g'] eqn:Eg; [reflexivity|].
    exfalso. assert (Hr : In r (filter
                                  (fun r => String.eqb (key r) k) table))
      by (fold g; rewrite Eg; now left).
    apply filter_In in Hr. destruct Hr as [Hr Hk].
    apply String.eqb_eq in Hk.
    assert (Hks : In k ks).
    { eapply Permutation_in; [apply Permutation_sym, sort_keys_perm|].
      apply (In_unique String.eqb String.leb string_eqb_eq).
      rewrite <- Hk. now apply in_map. }
    apply existsb_key in Hks. congruence.
Qed.

(** X5: the volume by day of week has exactly the five entries Monday to
    Friday, in that order, and the volume by time slot the four slots of
    the day in theirs; an entry is the number of rows of that day or
    slot, and is missing when the table has none.  Rows of any other day
    or slot are in neither view. *)
Theorem X5_volume_by_day_and_slot (table : list Interaction) :
  Analysis.vol_day (Analysis.read_csv table)
  = map (fun d =>
           (d, count_or_missing
                 (List.length
                    (filter (fun r => String.eqb (day_of_week r) d) table))))
        ["Monday"; "Tuesday"; "Wednesday"; "Thursday"; "Friday"]
  /\ Analysis.vol_time (Analysis.read_csv table)
     = map (fun s =>
              (s, count_or_missing
                    (List.length
                       (filter (fun r => String.eqb (time_slot r) s) table))))
           ["8-10 AM"; "10-12 PM"; "12-2 PM"; "2-4 PM"].
Proof.
  split; apply reindex_counts.
Qed.

(** *** Rows the wait-time view counts *)

Lemma bucket_of_row (w : Q) :
  ((if in_interval 0 5 w then 1 else 0)
   + (if in_interval 5 10 w then 1 else 0)
   + (if in_interval 10 15 w then 1 else 0)
   + (if in_interval 15 20 w then 1 else 0)
   + (if in_interval 20 50 w then 1 else 0)
   = if in_interval 0 50 w then 1 else 0)%nat.
Proof.
  unfold in_interval, Num.Qltb.
  destruct (Qle_bool w 0) eqn:E0, (Qle_bool w 5) eqn:E5,
    (Qle_bool w 10) eqn:E10, (Qle_bool w 15) eqn:E15,
    (Qle_bool w 20) eqn:E20, (Qle_bool w 50) eqn:E50;
    try reflexivity; exfalso;
    repeat match goal with
           | H : Qle_bool _ _ = true |- _ => apply Qle_bool_iff in H
           | H : Qle_bool ?a ?b = false |- _ =>
               assert (b < a)
                 by (apply Qnot_le_lt; intro Hc;
                     apply Qle_bool_iff in Hc; congruence);
               clear H
           end; lra.
Qed.

Lemma filter_length_cons {A} (f : A -> bool) (x : A) (l : list A) :
  List.length (filter f (x :: l))
  = ((if f x then 1 else 0) + List.length (filter f l))%nat.
Proof.
  simpl. now destruct (f x).
Qed.

(** The five buckets split the rows with 0 < wait <= 50. *)
Lemma buckets_cover (table : list Interaction) :
  (List.length (Spec.bucket_rows 0 5 table)
   + List.length (Spec.bucket_rows 5 10 table)
   + List.length (Spec.bucket_rows 10 15 table)
   + List.length (Spec.bucket_rows 15 20 table)
   + List.length (Spec.bucket_rows 20 50 table)
   = List.length (Spec.bucket_rows 0 50 table))%nat.
Proof.
  unfold Spec.bucket_rows. induction table as [|r table IH];
    [reflexivity|].
  rewrite !filter_length_cons, <- IH, <- (bucket_of_row (wait_time_min r)).
  lia.
Qed.

Lemma view_piece_count (c : string) (g : list Interaction) :
  list_sum
    (map (fun kv : string * Analysis.WaitSat => Analysis.ws_count (snd kv))
       match g with
       | [] => []
       | r :: l =>
           [(c, {| Analysis.ws_count := List.length (r :: l);
                   Analysis.ws_avg_sat :=
                     py_round (mean (map satisfaction_score (r :: l))) 2 |})]
       end)
  = List.length g.
Proof.
  destruct g; simpl; lia.
Qed.

(** X6: the counts of the satisfaction-by-wait view add up to the number
    of rows whose wait is above 0 and at most 50 minutes: a row that
    waited exactly 0 minutes, or more than 50, is counted in no bucket,
    so the counts add up to the row count of the table only when every
    wait lies in that range. *)
Theorem X6_wait_view_counts
  (ttest_ind pearsonr : list Q -> list Q -> option (pyfloat * pyfloat))
  (table : list Interaction) (rep : Analysis.Report) (df : Analysis.Frame) :
  Analysis.run ttest_ind pearsonr table = Some (rep, df) ->
  list_sum (map (fun kv => Analysis.ws_count (snd kv))
                (Analysis.r_sat_by_wait rep))
  = List.length
      (filter (fun r => in_interval 0 50 (wait_time_min r)) table)
  /\ (list_sum (map (fun kv => Analysis.ws_count (snd kv))
                    (Analysis.r_sat_by_wait rep))
      = List.length table
      <-> Forall (fun r => 0 < wait_time_min r <= 50) table).
Proof.
  intro Hrun.
  rewrite (sat_by_wait_refines _ _ _ _ _ Hrun).
  assert (Hsum : list_sum (map (fun kv => Analysis.ws_count (snd kv))
                              (Spec.sat_by_wait table))
                 = List.length (Spec.bucket_rows 0 50 table)).
  { unfold Spec.sat_by_wait, Spec.wait_intervals. cbn [flat_map fst snd].
    rewrite !map_app, !list_sum_app, !view_piece_count.
    simpl list_sum. rewrite <- buckets_cover. lia. }
  rewrite Hsum. unfold Spec.bucket_rows. split; [reflexivity|].
  split; intro H.
  - apply Forall_forall. intros r Hr.
    assert (Hall : filter (fun r => in_interval 0 50 (wait_time_min r)) table
                   = table).
    { clear Hr Hsum Hrun. induction table as [|x t IH]; [reflexivity|].
      simpl in H |- *.
      pose proof (filter_length_le
                    (fun r => in_interval 0 50 (wait_time_min r)) t) as Hl.
      destruct (in_interval 0 50 (wait_time_min x)).
      - f_equal. apply IH. simpl in H. lia.
      - simpl in H. lia. }
    rewrite <- Hall in Hr. apply filter_In in Hr. destruct Hr as [_ Hr].
    unfold in_interval in Hr. apply andb_true_iff in Hr.
    destruct Hr as [H1 H2]. apply Qltb_lt in H1. apply Qle_bool_iff in H2.
    now split.
  - rewrite filter_all; [reflexivity|].
    eapply Forall_impl; [|exact H]. intros r [H1 H2].
    now apply in_interval_true.
Qed.

Lemma X6_wait_view_counts_witness :
  exists rep df,
    Analysis.run stats_nan stats_nan over_fifty_table = Some (rep, df)
    /\ list_sum (map (fun kv => Analysis.ws_count (snd kv))
                     (Analysis.r_sat_by_wait rep)) = 19%nat.
Proof.
  eexists. eexists. split; [vm_compute; reflexivity|].
  refine (proj1 (X6_wait_view_counts stats_nan stats_nan over_fifty_table
                   _ _ _)).
  vm_compute. reflexivity.
Defined.

(** *** Views sorted by a column *)

Lemma float_geb_total (x y : pyfloat) :
  float_geb x y = true \/ float_geb y x = true.
Proof.
  destruct x as [a|], y as [b|]; simpl; auto.
  destruct (Qlt_le_dec a b) as [H|H].
  - right. apply Qle_bool_iff. now apply Qlt_le_weak.
  - left. now apply Qle_bool_iff.
Qed.

Lemma Sorted_weaken {A} (R1 R2 : A -> A -> Prop) (l : list A) :
  (forall a b, R1 a b -> R2 a b) -> Sorted R1 l -> Sorted R2 l.
Proof.
  intros HR. induction 1 as [|a l _ IH Hh]; constructor; [exact IH|].
  destruct Hh; constructor. now apply HR.
Qed.

(** X7: the staff view, the satisfaction-by-resolution view and the peak
    periods hold the rows of their grouped aggregation, each once, in
    non-increasing order of the sort column: the rounded mean
    satisfaction, the mean satisfaction and the volume. *)
Theorem X7_sorted_views (table : list Interaction) :
  let df := Analysis.read_csv table in
  (Permutation (Analysis.staff_perf df)
     (Analysis.by_string staff_member df
        (fun x => Analysis.staff_round 2 (Analysis.staff_agg x)))
   /\ Sorted (fun a b => float_geb (Analysis.sp_avg_sat (snd a))
                                   (Analysis.sp_avg_sat (snd b)) = true)
             (Analysis.staff_perf df))
  /\ (Permutation (Analysis.sat_by_res df)
        (Analysis.by_string resolution df
           (fun x => mean (map satisfaction_score x)))
      /\ Sorted (fun a b => float_geb (snd a) (snd b) = true)
                (Analysis.sat_by_res df))
  /\ (Permutation (map fst (Analysis.peak_combo df))
        (map fst (Pandas.groupby pair_eqb pair_leb
                    (fun r => (day_of_week r, time_slot r)) table))
      /\ Sorted (fun a b => (Analysis.v_volume (snd b)
                             <= Analysis.v_volume (snd a))%nat)
                (Analysis.peak_combo df)).
Proof.
  cbv zeta. unfold Analysis.staff_perf, Analysis.sat_by_res,
    Analysis.peak_combo.
  split; [|split]; split.
  - apply sort_values_desc_perm.
  - apply (sort_values_desc_sorted
             (fun a b : string * Analysis.StaffPerf =>
                float_geb (Analysis.sp_avg_sat (snd a))
                          (Analysis.sp_avg_sat (snd b)))).
    intros a b. apply float_geb_total.
  - apply sort_values_desc_perm.
  - apply (sort_values_desc_sorted
             (fun a b : string * pyfloat => float_geb (snd a) (snd b))).
    intros a b. apply float_geb_total.
  - eapply Permutation_trans;
      [apply Permutation_map, sort_values_desc_perm|].
    rewrite map_map. apply Permutation_refl.
  - apply (Sorted_weaken
             (fun a b : (string * string) * Analysis.Volume =>
                Nat.leb (Analysis.v_volume (snd b))
                        (Analysis.v_volume (snd a)) = true)).
    + intros a b Hab. now apply Nat.leb_le.
    + apply (sort_values_desc_sorted
               (fun a b : (string * string) * Analysis.Volume =>
                  Nat.leb (Analysis.v_volume (snd b))
                          (Analysis.v_volume (snd a)))).
      intros a b.
      destruct (Nat.leb_spec (Analysis.v_volume (snd b))
                             (Analysis.v_volume (snd a)));
        [left; reflexivity | right; apply Nat.leb_le; lia].
Qed.

(** *** The findings *)

Section IdxBest.
Import Findings.
Variable better : Q -> Q -> bool.
Variable R : Q -> Q -> Prop.
Hypothesis R_refl : forall a, R a a.
Hypothesis R_trans : forall a b c, R a b -> R b c -> R a c.
Hypothesis better_true : forall v b, better v b = true -> R b v.
Hypothesis better_false : forall v b, better v b = false -> R v b.

Lemma idx_best_from (s : list (string * pyfloat)) :
  forall kb vb, exists k v,
    idx_best better (Some (kb, vb)) s = Some k
    /\ ((k, v) = (kb, vb) \/ In (k, Some v) s)
    /\ R vb v
    /\ forall k' v', In (k', Some v') s -> R v' v.
Proof.
  induction s as [|[k1 [v1|]] s IH]; intros kb vb.
  - exists kb, vb. simpl. repeat split; auto.
  - simpl. destruct (better v1 vb) eqn:E.
    + destruct (IH k1 v1) as (k & v & Hk & Hin & Hr & Hall).
      exists k, v. split; [exact Hk|]. split.
      * destruct Hin as [Hin|Hin]; [inversion Hin; subst; auto | auto].
      * split; [eapply R_trans; [apply better_true; exact E | exact Hr]|].
        intros k' v' [H|H]; [inversion H; subst; exact Hr | eauto].
    + destruct (IH kb vb) as (k & v & Hk & Hin & Hr & Hall).
      exists k, v. split; [exact Hk|]. split.
      * destruct Hin as [Hin|Hin]; auto.
      * split; [exact Hr|].
        intros k' v' [H|H]; [|eauto].
        inversion H; subst. eapply R_trans; [|exact Hr].
        now apply better_false.
  - simpl. destruct (IH kb vb) as (k & v & Hk & Hin & Hr & Hall).
    exists k, v. split; [exact Hk|]. split.
    + destruct Hin as [Hin|Hin]; auto.
    + split; [exact Hr|].
      intros k' v' [H|H]; [discriminate | eauto].
Qed.

Lemma idx_best_numbers (s : list (string * pyfloat)) :
  (exists k v, In (k, Some v) s) ->
  exists k v,
    idx_best better None s = Some k
    /\ In (k, Some v) s
    /\ forall k' v', In (k', Some v') s -> R v' v.
Proof.
  induction s as [|[k1 [v1|]] s IH]; intros (k0 & v0 & H0).
  - contradiction.
  - simpl. destruct (idx_best_from s k1 v1) as (k & v & Hk & Hin & Hr & Hall).
    exists k, v. split; [exact Hk|]. split.
    + destruct Hin as [Hin|Hin]; [inversion Hin; subst; auto | auto].
    + intros k' v' [H|H]; [inversion H; subst; exact Hr | eauto].
  - simpl. destruct H0 as [H0|H0]; [discriminate|].
    destruct (IH (ex_intro _ k0 (ex_intro _ v0 H0)))
      as (k & v & Hk & Hin & Hall).
    exists k, v. split; [exact Hk|]. split; [auto|].
    intros k' v' [H|H]; [discriminate | eauto].
Qed.
End IdxBest.

Lemma idxmax_numbers (s : list (string * pyfloat)) :
  (exists k v, In (k, Some v) s) ->
  exists k v,
    Findings.idxmax s = Some k /\ In (k, Some v) s
    /\ forall k' v', In (k', Some v') s -> v' <= v.
Proof.
  apply (idx_best_numbers (fun v b => Num.Qltb b v) (fun a b => a <= b)).
  - intro a. apply Qle_refl.
  - intros a b c. apply Qle_trans.
  - intros v b H. apply Qltb_lt in H. now apply Qlt_le_weak.
  - intros v b H. now apply Qltb_ge in H.
Qed.

Lemma idxmin_numbers (s : list (string * pyfloat)) :
  (exists k v, In (k, Some v) s) ->
  exists k v,
    Findings.idxmin s = Some k /\ In (k, Some v) s
    /\ forall k' v', In (k', Some v') s -> v <= v'.
Proof.
  apply (idx_best_numbers (fun v b => Num.Qltb v b) (fun a b => b <= a)).
  - intro a. apply Qle_refl.
  - intros a b c H1 H2. eapply Qle_trans; eassumption.
  - intros v b H. apply Qltb_lt in H. now apply Qlt_le_weak.
  - intros v b H. now apply Qltb_ge in H.
Qed.

Lemma dept_kpis_first_row (r : Interaction) (table : list Interaction) :
  exists d k w f,
    In (d, k) (Analysis.dept_kpis (Analysis.read_csv (r :: table)))
    /\ Analysis.dk_avg_wait k = Some w /\ Analysis.dk_fcr k = Some f.
Proof.
  assert (Hk : In (department r)
                 (map fst (Analysis.dept_kpis
                             (Analysis.read_csv (r :: table))))).
  { apply dept_kpis_key_In. exists r. split; [now left | auto]. }
  apply in_map_iff in Hk. destruct Hk as ([d k] & _ & Hin).
  pose proof Hin as Hrow. apply by_string_row in Hrow.
  destruct Hrow as (x & g & -> & _).
  exists d. eexists. eexists. eexists. split; [exact Hin|].
  unfold Analysis.dept_round, Analysis.dept_agg.
  cbn [Analysis.dk_avg_wait Analysis.dk_fcr]. simpl map.
  unfold pct_equal. simpl. split; reflexivity.
Qed.

Lemma column_key (dk : list (string * Analysis.DeptKpi))
  (col : Analysis.DeptKpi -> pyfloat) (d : string) (v : pyfloat) :
  In (d, v) (map (fun kd => (fst kd, col (snd kd))) dk) ->
  In d (map fst dk).
Proof.
  intro H. apply in_map_iff in H. destruct H as ([d' k] & E & Hin).
  inversion E; subst. apply in_map_iff. exists (d, k). auto.
Qed.

(** X8: on a table that has rows, the department the findings name for
    the longest wait is a department of the table whose rounded average
    wait is at least that of every department, and the one they name for
    the lowest first-contact resolution has a rounded rate at most that
    of every department; on an empty table both lookups have nothing to
    return ([idxmax] and [idxmin] raise). *)
Theorem X8_findings_departments (table : list Interaction) :
  let df := Analysis.read_csv table in
  match table with
  | [] => Findings.highest_wait_dept df = None
          /\ Findings.lowest_fcr_dept df = None
  | _ :: _ =>
      (exists d w,
          Findings.highest_wait_dept df = Some d
          /\ (exists r, In r table /\ department r = d)
          /\ In (d, Some w) (Findings.avg_wait_column (Analysis.dept_kpis df))
          /\ forall d' w',
              In (d', Some w')
                 (Findings.avg_wait_column (Analysis.dept_kpis df)) ->
              w' <= w)
      /\ (exists d f,
             Findings.lowest_fcr_dept df = Some d
             /\ (exists r, In r table /\ department r = d)
             /\ In (d, Some f) (Findings.fcr_column (Analysis.dept_kpis df))
             /\ forall d' f',
                 In (d', Some f')
                    (Findings.fcr_column (Analysis.dept_kpis df)) ->
                 f <= f')
  end.
Proof.
  cbv zeta. destruct table as [|r table]; [split; reflexivity|].
  destruct (dept_kpis_first_row r table) as (d0 & k0 & w0 & f0 & Hin & Hw & Hf).
  split.
  - destruct (idxmax_numbers
                (Findings.avg_wait_column
                   (Analysis.dept_kpis (Analysis.read_csv (r :: table)))))
      as (d & w & Hd & Hdin & Hall).
    { exists d0, w0. unfold Findings.avg_wait_column. apply in_map_iff.
      exists (d0, k0). simpl. rewrite Hw. auto. }
    exists d, w. split; [exact Hd|]. split; [|split; assumption].
    apply dept_kpis_key_In. eapply column_key. exact Hdin.
  - destruct (idxmin_numbers
                (Findings.fcr_column
                   (Analysis.dept_kpis (Analysis.read_csv (r :: table)))))
      as (d & f & Hd & Hdin & Hall).
    { exists d0, f0. unfold Findings.fcr_column. apply in_map_iff.
      exists (d0, k0). simpl. rewrite Hf. auto. }
    exists d, f. split; [exact Hd|]. split; [|split; assumption].
    apply dept_kpis_key_In. eapply column_key. exact Hdin.
Qed.

(** ** More of the data generator *)

Lemma row_at_inv_rest (ids : list Z) (c : Generator.Columns) (sat : list Q)
  (esc cb : list string) (i : nat) (r : Interaction) :
  Generator.row_at ids c sat esc cb i = Some r ->
  nth_error ids i = Some (inquiry_id r)
  /\ nth_error (Generator.c_inquiry_types c) i = Some (inquiry_type r)
  /\ nth_error (Generator.c_channel c) i = Some (channel r)
  /\ nth_error (Generator.c_student_type c) i = Some (student_type r)
  /\ nth_error (Generator.c_quarter c) i = Some (quarter r)
  /\ nth_error (Generator.c_months c) i = Some (month r)
  /\ nth_error (Generator.c_day_of_week c) i = Some (day_of_week r)
  /\ nth_error (Generator.c_hour c) i = Some (time_slot r)
  /\ nth_error (Generator.c_staff c) i = Some (staff_member r).
Proof.
  unfold Generator.row_at.
  repeat match goal with
         | |- context [match nth_error ?l i with _ => _ end] =>
             destruct (nth_error l i); [|discriminate]
         end.
  intro H. inversion H. simpl. repeat split; reflexivity.
Qed.

(** The other columns of the table are the arrays they came from. *)
Lemma make_DataFrame_rest_columns (ids : list Z) (c : Generator.Columns)
  (sat : list Q) (esc cb : list string) (df : Generator.DataFrame) :
  Generator.make_DataFrame ids c sat esc cb = Some df ->
  map inquiry_id df = ids
  /\ map inquiry_type df = Generator.c_inquiry_types c
  /\ map channel df = Generator.c_channel c
  /\ map student_type df = Generator.c_student_type c
  /\ map quarter df = Generator.c_quarter c
  /\ map month df = Generator.c_months c
  /\ map day_of_week df = Generator.c_day_of_week c
  /\ map time_slot df = Generator.c_hour c
  /\ map staff_member df = Generator.c_staff c.
Proof.
  unfold Generator.make_DataFrame.
  destruct (forallb _ _) eqn:Hlen; [|discriminate].
  intro Hdf. simpl in Hlen. rewrite !andb_true_iff in Hlen.
  rewrite !Nat.eqb_eq in Hlen.
  destruct Hlen as (_ & Hit & Hch & Hst & Hq & Hm & Hd & Hh & Hs & _).
  repeat split;
    (eapply column_of_rows;
     [exact Hdf | first [reflexivity | symmetry; eassumption] |]);
    intros i r Hrow; apply row_at_inv_rest in Hrow; simpl in Hrow; tauto.
Qed.

Lemma rows_of_Forall2 {R A B} (f : R -> A) (h : R -> B)
  (P : A -> B -> Prop) (df : list R) :
  Forall2 P (map f df) (map h df) -> Forall (fun r => P (f r) (h r)) df.
Proof.
  induction df as [|r df IH]; intro H; [constructor|].
  simpl in H. inversion H; subst. constructor; auto.
Qed.

Lemma all_some_values {A} (l : list (option A)) (l' : list A) :
  Generator.all_some l = Some l' -> Forall2 (fun o x => o = Some x) l l'.
Proof.
  revert l'. induction l as [|o l IH]; intros l' H.
  - inversion H. constructor.
  - apply all_some_cons_inv in H. destruct H as (x & t & -> & Ht & ->).
    constructor; auto.
Qed.

(** Every entry looked up in [a] is an entry of [a]. *)
Lemma looked_up_values {A} (a : list string) (F : A -> nat) (us : list A)
  (xs : list string) :
  Generator.all_some (map (fun u => nth_error a (F u)) us) = Some xs ->
  Forall (fun s => In s a) xs /\ List.length xs = List.length us.
Proof.
  intro H. split.
  - apply all_some_values in H. revert xs H.
    induction us as [|u us IH]; intros xs H; inversion H; subst;
      constructor.
    + eapply nth_error_In. eassumption.
    + now apply IH.
  - apply all_some_length in H. now rewrite length_map in H.
Qed.

Lemma inquiry_ids_NoDup (n : nat) : NoDup (Generator.inquiry_ids n).
Proof.
  unfold Generator.inquiry_ids. generalize 0%nat.
  induction n as [|n IH]; intro s; cbn [seq map]; constructor.
  - rewrite in_map_iff. intros (i & E & Hi). apply in_seq in Hi. lia.
  - apply IH.
Qed.

(** Rounding a clipped value to one decimal does not take it below a
    one-decimal value it was at or above. *)
Lemma clip_round_floor (b A : Q) (z : Z) :
  A == inject_Z z / Num.scale 1 -> A <= 45 -> 0 <= b ->
  A <= Num.round (Num.clip (b + A) 0 45) 1.
Proof.
  intros HA H45 Hb.
  assert (H1 : A <= Num.clip (b + A) 0 45).
  { clear HA. unfold Num.clip. apply Q.min_glb; [|exact H45].
    eapply Qle_trans; [|apply Q.le_max_l]. lra. }
  assert (H2 : Num.clip (b + A) 0 45 <= inject_Z 450 / Num.scale 1).
  { unfold Num.clip. eapply Qle_trans; [apply Q.le_min_r|].
    discriminate. }
  pose proof (round_between (Num.clip (b + A) 0 45) 1 z 450) as B.
  revert HA H1 H2 B.
  generalize (Num.round (Num.clip (b + A) 0 45) 1) (Num.clip (b + A) 0 45)
    (inject_Z z / Num.scale 1) (inject_Z 450 / Num.scale 1).
  intros r c qa qb HA H1 H2 B.
  assert (B1 : qa <= c) by lra. specialize (B B1 H2). lra.
Qed.

Lemma wait_floor_bound (x : Q) (r : Interaction) :
  0 <= x ->
  wait_adjustment r
  <= Num.round (Num.clip (8 * x + wait_adjustment r) 0 45) 1.
Proof.
  intro Hx. unfold wait_adjustment.
  destruct (String.eqb (channel r) "Walk-In"),
    (String.eqb (quarter r) "Fall 2024"),
    (existsb (String.eqb (month r)) ["Sep"; "Jan"]);
    match goal with
    | |- ?A <= _ =>
        let z := eval vm_compute in (Qnum A * 10)%Z in
        apply (clip_round_floor (8 * x) A z);
        [reflexivity | discriminate | lra]
    end.
Qed.

Lemma rows_of_wait (df : list Interaction) :
  forall draws : list Q,
    Forall (fun x => 0 <= x) draws ->
    map wait_time_min df
    = Generator.clip_round
        (Generator.add (map (fun x => 8 * x) draws)
           (Generator.add
              (Generator.add
                 (Generator.where_eq (map channel df) "Walk-In" 5 0)
                 (Generator.where_eq (map quarter df) "Fall 2024" 4 0))
              (map (fun b : bool => if b then 3 else 0)
                   (Generator.isin (map month df) ["Sep"; "Jan"]))))
        0 45 ->
    Forall (fun r => wait_adjustment r <= wait_time_min r) df.
Proof.
  induction df as [|r df IH]; intros draws Hd H; [constructor|].
  destruct draws as [|x draws]; [discriminate|].
  inversion Hd; subst.
  unfold Generator.clip_round, Generator.add, Generator.where_eq,
    Generator.isin in H.
  simpl in H. injection H as Hr Hrest.
  constructor.
  - rewrite Hr. now apply wait_floor_bound.
  - apply (IH draws); assumption.
Qed.

Section GeneratorMore.
Import Generator.
Variable RandomState : Type.
Variable seed : Z -> RandomState.
Variable random_sample : RandomState -> Q * RandomState.
Variable randint : nat -> RandomState -> nat * RandomState.
Variable standard_exponential : RandomState -> Q * RandomState.
Variable standard_normal : RandomState -> Q * RandomState.

Ltac unbind H :=
  let a := fresh "a" in
  let g := fresh "g" in
  let E := fresh "E" in
  apply bind_Some in H; destruct H as (a & g & E & H);
  cbv beta zeta in H.

Lemma replicate_inv {A} (sampler : RandomState -> A * RandomState)
  (P : A -> Prop) :
  (forall g, P (fst (sampler g))) ->
  forall (n : nat) (g g' : RandomState) (xs : list A),
    replicate RandomState n (draw RandomState sampler) g = Some (xs, g') ->
    List.length xs = n /\ Forall P xs.
Proof.
  intro HP. induction n as [|n IH]; intros g g' xs H; simpl in H.
  - unfold ret in H. inversion H. split; [reflexivity | constructor].
  - unbind H. unbind H. unfold ret in H. inversion H; subst.
    destruct (IH _ _ _ E0) as [Hl HF].
    unfold draw in E. inversion E.
    split; [simpl; congruence|]. constructor; [|exact HF].
    specialize (HP g). rewrite H1 in HP. exact HP.
Qed.

Lemma choice_p_inv (a : list string) (n : nat) (p : list Q)
  (g g' : RandomState) (xs : list string) :
  choice_p RandomState random_sample a n p g = Some (xs, g') ->
  Forall (fun s => In s a) xs /\ List.length xs = n.
Proof.
  intro H. unfold choice_p in H. unbind H.
  apply lift_Some in H. destruct H as [H _]. simpl in H.
  apply looked_up_values in H. destruct H as [Hin Hl].
  destruct (replicate_inv random_sample (fun _ => True) (fun _ => I)
              _ _ _ _ E) as [Hn _].
  split; [exact Hin | congruence].
Qed.

Lemma choice_n_inv (a : list string) (n : nat) (g g' : RandomState)
  (xs : list string) :
  choice_n RandomState randint a n g = Some (xs, g') ->
  Forall (fun s => In s a) xs /\ List.length xs = n.
Proof.
  intro H. unfold choice_n in H. unbind H.
  apply lift_Some in H. destruct H as [H _]. simpl in H.
  apply (looked_up_values a (fun i => i)) in H. destruct H as [Hin Hl].
  destruct (replicate_inv (randint (List.length a)) (fun _ => True)
              (fun _ => I) _ _ _ _ E) as [Hn _].
  split; [exact Hin | congruence].
Qed.

Lemma choice_inv (a : list string) (g g' : RandomState) (x : string) :
  choice RandomState randint a g = Some (x, g') -> In x a.
Proof.
  intro H. unfold choice in H. unbind H.
  apply lift_Some in H. destruct H as [H _]. simpl in H.
  eapply nth_error_In. exact H.
Qed.

(** An entry drawn from the list a dictionary holds for a key. *)
Lemma keyed_choice_inv (dict : string -> option (list string))
  (k : string) (g g' : RandomState) (x : string) :
  bind RandomState (lift RandomState (dict k)) (choice RandomState randint) g
  = Some (x, g') ->
  exists a, dict k = Some a /\ In x a.
Proof.
  intro H. unbind H. apply lift_Some in E. simpl in E.
  destruct E as [E _]. exists a. split; [exact E|].
  eapply choice_inv. exact H.
Qed.

Lemma for_each_inv {A B} (F : A -> M RandomState B) (P : A -> B -> Prop) :
  (forall x y g g', F x g = Some (y, g') -> P x y) ->
  forall (l : list A) (g g' : RandomState) (ys : list B),
    for_each RandomState F l g = Some (ys, g') -> Forall2 P l ys.
Proof.
  intro HP. induction l as [|x l IH]; intros g g' ys H; simpl in H.
  - unfold ret in H. inversion H. constructor.
  - unbind H. unbind H. unfold ret in H. inversion H; subst.
    constructor; [eapply HP; eassumption | eapply IH; eassumption].
Qed.

(** The values each array of the script can hold. *)
Lemma sample_columns_values (n : nat) (departments : list string)
  (g g' : RandomState) (c : Columns) :
  sample_columns RandomState random_sample randint standard_exponential
    standard_normal n departments g = Some (c, g') ->
  Forall (fun s => In s channel_names) (c_channel c)
  /\ Forall (fun s => In s quarter_names) (c_quarter c)
  /\ Forall2 (fun q m => exists a, month_map q = Some a /\ In m a)
             (c_quarter c) (c_months c)
  /\ Forall (fun s => In s day_names) (c_day_of_week c)
  /\ Forall (fun s => In s time_slot_names) (c_hour c)
  /\ Forall (fun s => In s staff_names) (c_staff c)
  /\ Forall2 (fun d t => exists a, inquiry_type_map d = Some a /\ In t a)
             departments (c_inquiry_types c)
  /\ Forall (fun s => In s student_type_names) (c_student_type c)
  /\ Forall (fun s => In s resolution_names) (c_resolution c)
  /\ exists draws g1 g2,
      replicate RandomState n (draw RandomState standard_exponential) g1
      = Some (draws, g2)
      /\ c_wait_time_min c
         = clip_round
             (add (map (fun x => 8 * x) draws)
                  (add (add (where_eq (c_channel c) "Walk-In" 5 0)
                            (where_eq (c_quarter c) "Fall 2024" 4 0))
                       (map (fun b : bool => if b then 3 else 0)
                            (isin (c_months c) ["Sep"; "Jan"]))))
             0 45.
Proof.
  intro H. unfold Generator.sample_columns in H.
  repeat unbind H.
  unfold ret in H. inversion H; subst; clear H.
  cbn [c_channel c_quarter c_months c_day_of_week c_hour c_staff
       c_inquiry_types c_student_type c_resolution c_wait_time_min].
  repeat match goal with
         | E : choice_p _ _ _ _ _ _ = Some _ |- _ =>
             apply choice_p_inv in E; destruct E as [E _]
         | E : choice_n _ _ _ _ _ = Some _ |- _ =>
             apply choice_n_inv in E; destruct E as [E _]
         end.
  match goal with
  | E : for_each _ (fun q => bind _ (lift _ (month_map q)) _) _ _ = Some _
    |- _ =>
      apply (for_each_inv _
               (fun q m => exists a, month_map q = Some a /\ In m a)) in E;
      [| intros x y ga gb Hk; exact (keyed_choice_inv month_map _ _ _ _ Hk)]
  end.
  match goal with
  | E : for_each _ (fun d => bind _ (lift _ (inquiry_type_map d)) _) _ _
        = Some _ |- _ =>
      apply (for_each_inv _
               (fun d t => exists a, inquiry_type_map d = Some a /\ In t a))
        in E;
      [| intros x y ga gb Hk;
         exact (keyed_choice_inv inquiry_type_map _ _ _ _ Hk)]
  end.
  match goal with
  | E : exponential _ _ _ _ _ = Some _ |- _ =>
      unfold exponential in E; unbind E; unfold ret in E;
      inversion E; subst; clear E
  end.
  do 9 (split; [assumption|]).
  eexists. eexists. eexists. split; [eassumption | reflexivity].
Qed.

Local Abbreviation generate_data :=
  (generate_data RandomState seed random_sample randint
     standard_exponential standard_normal).

(** The table of a run, and the arrays it was built from. *)
Lemma generate_data_table (seed_value : Z) (n : nat) (g g' : RandomState)
  (df : DataFrame) :
  generate_data seed_value n g = Some (df, g') ->
  exists c raw_sat yes_no ga gb,
    make_DataFrame (inquiry_ids n) c
      (clip_round raw_sat 1 5)
      (where_eq (c_resolution c) "Escalated to Department" "Yes" "No")
      (zip_with (fun r yn => if String.eqb r "Follow-Up Required"
                             then yn else "No")
                (c_resolution c) yes_no)
    = Some df
    /\ Forall (fun s => In s ["Yes"; "No"]) yes_no
    /\ Forall (fun s => In s department_names) (c_departments c)
    /\ sample_columns RandomState random_sample randint
         standard_exponential standard_normal n (c_departments c) ga
       = Some (c, gb).
Proof.
  intro H. unfold Generator.generate_data in H.
  unbind H. unbind H.
  unfold Generator.generate_from_departments in H. unbind H.
  unfold Generator.finish in H. unbind H. unbind H.
  apply lift_Some in H. destruct H as [H _]. simpl in H.
  apply choice_p_inv in E0. destruct E0 as [Hd _].
  apply choice_p_inv in E3. destruct E3 as [Hyn _].
  destruct (sample_columns_inv _ _ _ _ _ _ _ _ _ _ E1) as (Hc & _).
  do 5 eexists. split; [exact H|]. split; [exact Hyn|].
  rewrite Hc. split; [exact Hd | exact E1].
Qed.

(** X9: the inquiry ids of a generated table are 10001, 10002, ... in row
    order, one per row: sequential, pairwise distinct, and as many as the
    requested row count. *)
Theorem X9_inquiry_ids_sequential (seed_value : Z) (n : nat)
  (g g' : RandomState) (df : DataFrame) :
  generate_data seed_value n g = Some (df, g') ->
  map inquiry_id df = map (fun i => (10001 + Z.of_nat i)%Z) (seq 0 n)
  /\ NoDup (map inquiry_id df)
  /\ List.length df = n.
Proof.
  intro H. apply generate_data_table in H.
  destruct H as (c & raw_sat & yes_no & ga & gb & H & _).
  destruct (make_DataFrame_rest_columns _ _ _ _ _ _ H) as (Hid & _).
  split; [exact Hid|]. split.
  - rewrite Hid. apply inquiry_ids_NoDup.
  - rewrite <- (length_map inquiry_id df), Hid.
    unfold inquiry_ids. rewrite length_map. apply length_seq.
Qed.

(** X10: in every generated row the month is one of the months of the
    row's quarter, and the inquiry type is one of the inquiry types of
    the row's department. *)
Theorem X10_month_and_inquiry_type_match (seed_value : Z) (n : nat)
  (g g' : RandomState) (df : DataFrame) :
  generate_data seed_value n g = Some (df, g') ->
  Forall (fun r =>
            (exists a, month_map (quarter r) = Some a /\ In (month r) a)
            /\ (exists a, inquiry_type_map (department r) = Some a
                          /\ In (inquiry_type r) a)) df.
Proof.
  intro H. apply generate_data_table in H.
  destruct H as (c & raw_sat & yes_no & ga & gb & H & _ & _ & Hs).
  apply sample_columns_values in Hs.
  destruct Hs as (_ & _ & Hm & _ & _ & _ & Hi & _).
  destruct (make_DataFrame_rest_columns _ _ _ _ _ _ H)
    as (_ & Hit & _ & _ & Hq & Hmo & _).
  destruct (make_DataFrame_columns _ _ _ _ _ _ H) as (_ & Hd & _).
  rewrite <- Hq, <- Hmo in Hm. rewrite <- Hd, <- Hit in Hi.
  apply rows_of_Forall2 in Hm. apply rows_of_Forall2 in Hi.
  rewrite Forall_forall in *. intros r Hr. split; auto.
Qed.

(** X11: every categorical field of a generated row holds one of the
    values the script lists for it, and the two derived flags are "Yes"
    or "No". *)
Theorem X11_categorical_values (seed_value : Z) (n : nat)
  (g g' : RandomState) (df : DataFrame) :
  generate_data seed_value n g = Some (df, g') ->
  Forall (fun r =>
            In (department r) department_names
            /\ In (channel r) channel_names
            /\ In (student_type r) student_type_names
            /\ In (quarter r) quarter_names
            /\ In (day_of_week r) day_names
            /\ In (time_slot r) time_slot_names
            /\ In (staff_member r) staff_names
            /\ In (resolution r) resolution_names
            /\ In (escalated r) ["Yes"; "No"]
            /\ In (callback_required r) ["Yes"; "No"]) df.
Proof.
  intro H. apply generate_data_table in H.
  destruct H as (c & raw_sat & yes_no & ga & gb & H & Hyn & Hdep & Hs).
  apply sample_columns_values in Hs.
  destruct Hs as (Hch & Hq & _ & Hdw & Hh & Hst & _ & Hsty & Hres & _).
  destruct (make_DataFrame_rest_columns _ _ _ _ _ _ H)
    as (_ & _ & Ech & Esty & Eq & _ & Edw & Eh & Est).
  destruct (make_DataFrame_columns _ _ _ _ _ _ H)
    as (_ & Ed & _ & _ & Er & Ee & Ec & _).
  rewrite <- Ech in Hch. rewrite <- Esty in Hsty. rewrite <- Eq in Hq.
  rewrite <- Edw in Hdw. rewrite <- Eh in Hh. rewrite <- Est in Hst.
  rewrite <- Ed in Hdep. rewrite <- Er in Hres.
  rewrite Forall_map in Hch, Hsty, Hq, Hdw, Hh, Hst, Hdep, Hres.
  rewrite <- Er in Ee, Ec.
  apply rows_of_where in Ee.
  assert (Hcb : Forall (fun r => In (callback_required r) ["Yes"; "No"]) df).
  { clear - Ec Hyn. revert yes_no Ec Hyn.
    induction df as [|r df IH]; intros yes_no Ec Hyn; [constructor|].
    destruct yes_no as [|yn yes_no]; [discriminate|].
    simpl in Ec. injection Ec as Er Erest. inversion Hyn; subst.
    constructor; [|eapply IH; eassumption].
    rewrite Er. destruct (String.eqb (resolution r) "Follow-Up Required");
      [assumption | right; left; reflexivity]. }
  rewrite Forall_forall in *. intros r Hr.
  repeat split; auto.
  rewrite (Ee r Hr).
  destruct (String.eqb (resolution r) "Escalated to Department");
    [left | right; left]; reflexivity.
Qed.

(** X12: no generated row is both escalated and in need of a callback: a
    row whose [escalated] is "Yes" has [callback_required] "No". *)
Theorem X12_escalated_excludes_callback (seed_value : Z) (n : nat)
  (g g' : RandomState) (df : DataFrame) :
  generate_data seed_value n g = Some (df, g') ->
  Forall (fun r => escalated r = "Yes" -> callback_required r = "No") df.
Proof.
  intro H. apply generate_data_table in H.
  destruct H as (c & raw_sat & yes_no & ga & gb & H & _).
  destruct (make_DataFrame_columns _ _ _ _ _ _ H)
    as (_ & _ & _ & _ & Er & Ee & Ec & _).
  rewrite <- Er in Ee, Ec.
  apply rows_of_where in Ee. apply rows_of_zip_with in Ec.
  rewrite Forall_forall in *. intros r Hr Hesc.
  destruct (Ec r Hr) as [yn Hcb]. simpl in Hcb. rewrite Hcb.
  rewrite (Ee r Hr) in Hesc.
  destruct (String.eqb (resolution r) "Escalated to Department") eqn:E;
    [|discriminate].
  apply String.eqb_eq in E. rewrite E. reflexivity.
Qed.

(** X13: when the exponential draws are not negative, as numpy's are, the
    wait of a generated row is at least the adjustment of the row: 5
    minutes for a walk-in, plus 4 in the fall quarter, plus 3 in
    September and January.  A wait of 0 is possible only for a row with
    none of the three. *)
Theorem X13_wait_at_least_adjustment
  (exponential_nonneg : forall g, 0 <= fst (standard_exponential g))
  (seed_value : Z) (n : nat) (g g' : RandomState) (df : DataFrame) :
  generate_data seed_value n g = Some (df, g') ->
  Forall (fun r => wait_adjustment r <= wait_time_min r) df.
Proof.
  intro H. apply generate_data_table in H.
  destruct H as (c & raw_sat & yes_no & ga & gb & H & _ & _ & Hs).
  apply sample_columns_values in Hs.
  destruct Hs as (_ & _ & _ & _ & _ & _ & _ & _ & _
                  & draws & g1 & g2 & Hdraws & Hw).
  destruct (replicate_inv standard_exponential (fun x => 0 <= x)
              exponential_nonneg _ _ _ _ Hdraws) as [_ Hpos].
  destruct (make_DataFrame_rest_columns _ _ _ _ _ _ H)
    as (_ & _ & Ech & _ & Eq & Emo & _).
  destruct (make_DataFrame_columns _ _ _ _ _ _ H) as (_ & _ & Ew & _).
  rewrite <- Ew, <- Ech, <- Eq, <- Emo in Hw.
  exact (rows_of_wait df draws Hpos Hw).
Qed.

End GeneratorMore.

(** ** The report on a generated table *)

Section GeneratedTable.
Import Generator.
Variable RandomState : Type.
Variable seed : Z -> RandomState.
Variable random_sample : RandomState -> Q * RandomState.
Variable randint : nat -> RandomState -> nat * RandomState.
Variable standard_exponential : RandomState -> Q * RandomState.
Variable standard_normal : RandomState -> Q * RandomState.

Local Abbreviation generate_data :=
  (generate_data RandomState seed random_sample randint
     standard_exponential standard_normal).

Lemma generated_wait_range (seed_value : Z) (n : nat) (g g' : RandomState)
  (df : DataFrame) :
  generate_data seed_value n g = Some (df, g') ->
  Forall (fun r => 0 <= wait_time_min r <= 45) df.
Proof.
  intro H. apply generate_data_inv in H.
  destruct H as (c & raw_sat & yes_no & H & [rw Hw] & _).
  apply make_DataFrame_columns in H. destruct H as (_ & _ & Hcw & _).
  rewrite Hw in Hcw. apply rows_of_map in Hcw.
  eapply Forall_impl; [|exact Hcw].
  intros r [x Ex]. cbv beta in Ex. rewrite Ex.
  apply (clip_round_range x 0 45 0 450);
    [reflexivity | reflexivity | discriminate].
Qed.

Lemma generated_values (seed_value : Z) (n : nat) (g g' : RandomState)
  (df : DataFrame) :
  generate_data seed_value n g = Some (df, g') ->
  Forall (fun s => In s department_names) (map department df)
  /\ Forall (fun s => In s channel_names) (map channel df)
  /\ Forall (fun s => In s staff_names) (map staff_member df)
  /\ Forall (fun s => In s resolution_names) (map resolution df)
  /\ Forall (fun s => In s day_names) (map day_of_week df)
  /\ Forall (fun s => In s time_slot_names) (map time_slot df).
Proof.
  intro H. apply generate_data_table in H.
  destruct H as (c & raw_sat & yes_no & ga & gb & H & _ & Hdep & Hs).
  apply sample_columns_values in Hs.
  destruct Hs as (Hch & _ & _ & Hdw & Hh & Hst & _ & _ & Hres & _).
  destruct (make_DataFrame_rest_columns _ _ _ _ _ _ H)
    as (_ & _ & Ech & _ & _ & _ & Edw & Eh & Est).
  destruct (make_DataFrame_columns _ _ _ _ _ _ H)
    as (_ & Ed & _ & _ & Er & _).
  rewrite Ed, Ech, Est, Er, Edw, Eh. auto 10.
Qed.

(** X15: a generated row is left out of the satisfaction-by-wait view
    exactly when its wait is 0 minutes; every other generated row has a
    wait bucket. *)
Theorem X15_generated_rows_without_bucket (seed_value : Z) (n : nat)
  (g g' : RandomState) (df : DataFrame) :
  generate_data seed_value n g = Some (df, g') ->
  Forall (fun r => Analysis.wait_bucket_of (wait_time_min r) = None
                   <-> wait_time_min r == 0) df.
Proof.
  intro H. apply generated_wait_range in H.
  eapply Forall_impl; [|exact H]. intros r [H0 H45]. simpl in *.
  destruct (wait_bucket_of_interval (wait_time_min r))
    as (_ & _ & _ & _ & _ & Hnone).
  rewrite Hnone. split.
  - intros [Hle | Hgt]; [apply Qle_antisym; assumption | lra].
  - intro E. left. rewrite E. apply Qle_refl.
Qed.

Lemma indicator_columns {R} (f h : R -> string) (u v : string)
  (df : list R) :
  Forall (fun r => String.eqb (f r) u = String.eqb (h r) v) df ->
  map (fun s => if String.eqb s u then 1 else 0) (map f df)
  = map (fun s => if String.eqb s v then 1 else 0) (map h df).
Proof.
  induction 1 as [|r df Hr _ IH]; simpl; [reflexivity|].
  now rewrite Hr, IH.
Qed.

(** X16: on a generated table the escalation rate of the overview is the
    share of rows whose resolution is "Escalated to Department": the flag
    column the report reads and the resolution column agree. *)
Theorem X16_escalation_rate_of_generated_table (seed_value : Z) (n : nat)
  (g g' : RandomState) (df : DataFrame) :
  generate_data seed_value n g = Some (df, g') ->
  Analysis.escalation_rate (Analysis.kpis (Analysis.read_csv df))
  = pct_equal "Escalated to Department" (map resolution df).
Proof.
  intro H. apply generate_data_inv in H.
  destruct H as (c & raw_sat & yes_no & H & _).
  apply make_DataFrame_columns in H.
  destruct H as (_ & _ & _ & _ & Hr & He & _).
  rewrite <- Hr in He. apply rows_of_where in He.
  unfold Analysis.kpis. simpl. unfold pct_equal. f_equal. f_equal.
  apply indicator_columns.
  eapply Forall_impl; [|exact He]. intros r Er. simpl in Er. rewrite Er.
  now destruct (String.eqb (resolution r) "Escalated to Department").
Qed.

Lemma grouped_view_size {A} (key : Interaction -> string)
  (names : list string) (agg : list Interaction -> A)
  (df : list Interaction) :
  Forall (fun s => In s names) (map key df) ->
  (List.length (Analysis.by_string key (Analysis.read_csv df) agg)
   <= List.length names)%nat.
Proof.
  intro H. rewrite <- (length_map fst), by_string_keys. simpl.
  apply NoDup_incl_length.
  - apply (groupby_keys_NoDup String.eqb String.leb string_eqb_eq).
  - intros k Hk.
    apply (proj1 (groupby_key_In String.eqb String.leb string_eqb_eq
                    key df k)) in Hk.
    rewrite Forall_forall in H. apply H. exact Hk.
Qed.

(** X17: the grouped views of a generated table are no larger than the
    lists of values the generator draws from: at most five departments,
    four channels, eight staff members and four resolutions. *)
Theorem X17_view_sizes_of_generated_table (seed_value : Z) (n : nat)
  (g g' : RandomState) (df : DataFrame) :
  generate_data seed_value n g = Some (df, g') ->
  (List.length (Analysis.dept_kpis (Analysis.read_csv df)) <= 5)%nat
  /\ (List.length (Analysis.channel_stats (Analysis.read_csv df)) <= 4)%nat
  /\ (List.length (Analysis.staff_perf (Analysis.read_csv df)) <= 8)%nat
  /\ (List.length (Analysis.sat_by_res (Analysis.read_csv df)) <= 4)%nat.
Proof.
  intro H. apply generated_values in H.
  destruct H as (Hd & Hc & Hs & Hr & _).
  split; [|split; [|split]].
  - exact (grouped_view_size department department_names _ df Hd).
  - unfold Analysis.channel_stats, Analysis.channel_stats_agg.
    rewrite length_map.
    exact (grouped_view_size channel channel_names _ df Hc).
  - unfold Analysis.staff_perf.
    rewrite (Permutation_length (sort_values_desc_perm _ _)).
    exact (grouped_view_size staff_member staff_names _ df Hs).
  - unfold Analysis.sat_by_res.
    rewrite (Permutation_length (sort_values_desc_perm _ _)).
    exact (grouped_view_size resolution resolution_names _ df Hr).
Qed.

Lemma count_or_missing_sum {A} (f : A -> nat) (l : list A) :
  list_sum (map (fun x => match count_or_missing (f x) with
                          | Some c => c
                          | None => O
                          end) l)
  = list_sum (map f l).
Proof.
  induction l as [|x l IH]; simpl; [reflexivity|].
  rewrite IH. now destruct (f x).
Qed.

(** X18: the reindexing by weekday and by time slot drops no row of a
    generated table: the entries of the volume by day add up to the row
    count, and so do those of the volume by time slot. *)
Theorem X18_day_and_slot_volumes_of_generated_table (seed_value : Z)
  (n : nat) (g g' : RandomState) (df : DataFrame) :
  generate_data seed_value n g = Some (df, g') ->
  list_sum (map (fun kv => match snd kv with Some c => c | None => O end)
                (Analysis.vol_day (Analysis.read_csv df)))
  = List.length df
  /\ list_sum (map (fun kv => match snd kv with Some c => c | None => O end)
                   (Analysis.vol_time (Analysis.read_csv df)))
     = List.length df.
Proof.
  intro H. apply generated_values in H.
  destruct H as (_ & _ & _ & _ & Hd & Ht).
  unfold Analysis.vol_day, Analysis.vol_time.
  rewrite !reindex_counts, !map_map. cbn [snd].
  rewrite !count_or_missing_sum.
  rewrite Forall_map, Forall_forall in Hd, Ht.
  split.
  - apply (count_partition String.eqb String.leb string_eqb_eq day_of_week).
    + unfold Analysis.day_order. repeat constructor; simpl; intuition
        discriminate.
    + exact Hd.
  - apply (count_partition String.eqb String.leb string_eqb_eq time_slot).
    + unfold Analysis.time_order. repeat constructor; simpl; intuition
        discriminate.
    + exact Ht.
Qed.

End GeneratedTable.

(** ** The extras on the small generator *)

Lemma lcg_exponential_nonneg (g : Lcg.RandomState) :
  0 <= fst (Lcg.standard_exponential g).
Proof.
  unfold Lcg.standard_exponential. simpl fst.
  pose proof (Z.mod_pos_bound (Lcg.next g / 65536) 64 ltac:(lia)) as [H _].
  rewrite Zle_Qle in H. revert H.
  generalize (inject_Z ((Lcg.next g / 65536) mod 64)). intros q H.
  change (inject_Z 0) with 0 in H. apply Qle_shift_div_l; lra.
Qed.

(** X14: with a generator whose uniform draws lie in [0,1) and whose
    indices lie below their bound, the script run on a seed between 0
    and 2**32 - 1 raises nowhere, whatever the row count: no dictionary
    lookup misses its key, no index is out of range, the columns all have
    the length of the index, and the table written has exactly [n] rows.
    On any other seed [np.random.seed] raises and no table is
    written. *)
Theorem X14_generator_writes_n_rows
  (RandomState : Type) (seed : Z -> RandomState)
  (random_sample : RandomState -> Q * RandomState)
  (randint : nat -> RandomState -> nat * RandomState)
  (standard_exponential standard_normal : RandomState -> Q * RandomState) :
  (forall g, 0 <= fst (random_sample g) < 1) ->
  (forall k g, (0 < k)%nat -> (fst (randint k g) < k)%nat) ->
  forall (seed_value : Z) (n : nat) (g : RandomState),
  ((0 <= seed_value <= 4294967295)%Z ->
   exists df g',
     Generator.generate_data RandomState seed random_sample randint
       standard_exponential standard_normal seed_value n g = Some (df, g')
     /\ List.length df = n)
  /\ (~ (0 <= seed_value <= 4294967295)%Z ->
      Generator.generate_data RandomState seed random_sample randint
        standard_exponential standard_normal seed_value n g = None).
Proof.
  intros Hu Hi seed_value n g. split.
  - intro Hseed. now apply generate_data_returns.
  - apply generate_data_raises.
Qed.

Lemma X14_generator_writes_n_rows_witness :
  (exists df g',
      Lcg.generate_data 42 3000 0%Z = Some (df, g')
      /\ List.length df = 3000%nat)
  /\ Lcg.generate_data (-1) 3000 0%Z = None.
Proof.
  pose proof (X14_generator_writes_n_rows Lcg.RandomState Lcg.seed
                Lcg.random_sample Lcg.randint Lcg.standard_exponential
                Lcg.standard_normal lcg_random_sample_range
                lcg_randint_range) as H.
  split.
  - apply (proj1 (H 42%Z 3000%nat 0%Z)). lia.
  - apply (proj2 (H (-1)%Z 3000%nat 0%Z)). lia.
Defined.

Lemma X9_inquiry_ids_sequential_witness :
  exists df g',
    Lcg.generate_data 42 7 0%Z = Some (df, g')
    /\ map inquiry_id df
       = [10001; 10002; 10003; 10004; 10005; 10006; 10007]%Z.
Proof.
  eexists. eexists. split; [vm_compute; reflexivity|].
  refine (proj1 (X9_inquiry_ids_sequential Lcg.RandomState Lcg.seed
                   Lcg.random_sample Lcg.randint Lcg.standard_exponential
                   Lcg.standard_normal 42%Z 7%nat 0%Z _ _ _)).
  vm_compute. reflexivity.
Defined.

Lemma X10_month_and_inquiry_type_match_witness :
  exists df g',
    Lcg.generate_data 42 7 0%Z = Some (df, g')
    /\ Forall (fun r =>
                 (exists a, Generator.month_map (quarter r) = Some a
                            /\ In (month r) a)
                 /\ (exists a, Generator.inquiry_type_map (department r)
                               = Some a
                               /\ In (inquiry_type r) a)) df.
Proof.
  eexists. eexists. split; [vm_compute; reflexivity|].
  refine (X10_month_and_inquiry_type_match Lcg.RandomState Lcg.seed
            Lcg.random_sample Lcg.randint Lcg.standard_exponential
            Lcg.standard_normal 42%Z 7%nat 0%Z _ _ _).
  vm_compute. reflexivity.
Defined.

Lemma X11_categorical_values_witness :
  exists df g',
    Lcg.generate_data 42 7 0%Z = Some (df, g')
    /\ Forall (fun r => In (department r) Generator.department_names) df.
Proof.
  eexists. eexists. split; [vm_compute; reflexivity|].
  eapply Forall_impl;
    [|refine (X11_categorical_values Lcg.RandomState Lcg.seed
                Lcg.random_sample Lcg.randint Lcg.standard_exponential
                Lcg.standard_normal 42%Z 7%nat 0%Z _ _ _);
      vm_compute; reflexivity].
  intros r H. exact (proj1 H).
Defined.

Lemma X12_escalated_excludes_callback_witness :
  exists df g',
    Lcg.generate_data 42 7 0%Z = Some (df, g')
    /\ Forall (fun r => escalated r = "Yes" -> callback_required r = "No")
              df.
Proof.
  eexists. eexists. split; [vm_compute; reflexivity|].
  refine (X12_escalated_excludes_callback Lcg.RandomState Lcg.seed
            Lcg.random_sample Lcg.randint Lcg.standard_exponential
            Lcg.standard_normal 42%Z 7%nat 0%Z _ _ _).
  vm_compute. reflexivity.
Defined.

Lemma X13_wait_at_least_adjustment_witness :
  exists df g',
    Lcg.generate_data 42 7 0%Z = Some (df, g')
    /\ Forall (fun r => wait_adjustment r <= wait_time_min r) df.
Proof.
  eexists. eexists. split; [vm_compute; reflexivity|].
  refine (X13_wait_at_least_adjustment Lcg.RandomState Lcg.seed
            Lcg.random_sample Lcg.randint Lcg.standard_exponential
            Lcg.standard_normal lcg_exponential_nonneg
            42%Z 7%nat 0%Z _ _ _).
  vm_compute. reflexivity.
Defined.

Lemma X15_generated_rows_without_bucket_witness :
  exists df g',
    Lcg.generate_data 42 7 0%Z = Some (df, g')
    /\ Forall (fun r => Analysis.wait_bucket_of (wait_time_min r) = None
                        <-> wait_time_min r == 0) df.
Proof.
  eexists. eexists. split; [vm_compute; reflexivity|].
  refine (X15_generated_rows_without_bucket Lcg.RandomState Lcg.seed
            Lcg.random_sample Lcg.randint Lcg.standard_exponential
            Lcg.standard_normal 42%Z 7%nat 0%Z _ _ _).
  vm_compute. reflexivity.
Defined.

Lemma X16_escalation_rate_of_generated_table_witness :
  exists df g',
    Lcg.generate_data 42 7 0%Z = Some (df, g')
    /\ Analysis.escalation_rate (Analysis.kpis (Analysis.read_csv df))
       = pct_equal "Escalated to Department" (map resolution df).
Proof.
  eexists. eexists. split; [vm_compute; reflexivity|].
  refine (X16_escalation_rate_of_generated_table Lcg.RandomState Lcg.seed
            Lcg.random_sample Lcg.randint Lcg.standard_exponential
            Lcg.standard_normal 42%Z 7%nat 0%Z _ _ _).
  vm_compute. reflexivity.
Defined.

Lemma X17_view_sizes_of_generated_table_witness :
  exists df g',
    Lcg.generate_data 42 7 0%Z = Some (df, g')
    /\ (List.length (Analysis.dept_kpis (Analysis.read_csv df)) <= 5)%nat.
Proof.
  eexists. eexists. split; [vm_compute; reflexivity|].
  refine (proj1 (X17_view_sizes_of_generated_table Lcg.RandomState Lcg.seed
                   Lcg.random_sample Lcg.randint Lcg.standard_exponential
                   Lcg.standard_normal 42%Z 7%nat 0%Z _ _ _)).
  vm_compute. reflexivity.
Defined.

Lemma X18_day_and_slot_volumes_of_generated_table_witness :
  exists df g',
    Lcg.generate_data 42 7 0%Z = Some (df, g')
    /\ list_sum (map (fun kv => match snd kv with
                                | Some c => c
                                | None => O
                                end)
                     (Analysis.vol_day (Analysis.read_csv df)))
       = List.length df.
Proof.
  eexists. eexists. split; [vm_compute; reflexivity|].
  refine (proj1 (X18_day_and_slot_volumes_of_generated_table
                   Lcg.RandomState Lcg.seed Lcg.random_sample Lcg.randint
                   Lcg.standard_exponential Lcg.standard_normal
                   42%Z 7%nat 0%Z _ _ _)).
  vm_compute. reflexivity.
Defined.
